(** * Uplink MacroScrapper: preprocessing, storage mapping, uploaders, read path

    A shallow embedding of the Python sources

      - [entities/economic_data.py]
      - [interfaces/database/db_model_mapper.py]
      - [interfaces/database/aws_uploader.py]
      - [interfaces/database/sqlite_uploader.py]
      - [interfaces/database/economic_data_repository.py]
      - [interfaces/preprocessors/{cl,us,eu}_preprocessor.py]

    Python values are dynamically typed, so the fields of a record and the
    entries of a payload are values of one type [pyval].  Exceptions are
    explicit: a computation that can raise returns an [outcome].  Strings are
    ASCII text: case mapping and whitespace are modelled for code points
    below 128 and leave the others alone.  Log calls are not modelled.

    What the interpreter and its libraries do ([float], [int],
    [datetime.strptime], [date.isoformat], [sorted], the binding and the
    LIKE of [sqlite3]) is modelled on their documented behaviour; the cloud
    table behind the key-value client is a parameter. *)

From Stdlib Require Import ZArith QArith List String Ascii Bool Lia DecimalString.
From Stdlib Require Import SpecFloat Sorted Permutation.
Import ListNotations.

Local Open Scope string_scope.
Local Open Scope Z_scope.

(** ** Exceptions *)

(** The exception classes the code can meet. *)
Inductive exn : Type :=
| ValueError
| TypeError
| AttributeError
| KeyError
| OverflowError
| ClientError
| ProgrammingError.

(** A value, or the exception raised instead. *)
Inductive outcome (A : Type) : Type :=
| Ok (a : A)
| Raise (e : exn).

Arguments Ok {A} a.
Arguments Raise {A} e.

(** Sequencing: the first exception ends the computation. *)
Definition bind {A B : Type} (c : outcome A) (k : A -> outcome B) : outcome B :=
  match c with
  | Ok a => k a
  | Raise e => Raise e
  end.

Notation "'let*' x ':=' c 'in' k" := (bind c (fun x => k))
  (at level 10, x name, c at level 100, k at level 200).

(** The computation ends in an exception. *)
Definition raises {A : Type} (c : outcome A) : bool :=
  match c with
  | Ok _ => false
  | Raise _ => true
  end.

(** ** Calendar dates ([datetime.date]) *)

(** A [date] object. *)
Record pydate : Type := mkdate { year : Z; month : Z; day : Z }.

(** The proleptic Gregorian calendar. *)
Definition is_leap (y : Z) : bool :=
  (y mod 4 =? 0) && (negb (y mod 100 =? 0) || (y mod 400 =? 0)).

Definition days_in_month (y m : Z) : Z :=
  if m =? 2 then (if is_leap y then 29 else 28)
  else if (m =? 4) || (m =? 6) || (m =? 9) || (m =? 11) then 30
  else 31.

(** The dates [datetime] can hold: years 1 to 9999. *)
Definition valid_ymd (y m d : Z) : bool :=
  (1 <=? y) && (y <=? 9999) && (1 <=? m) && (m <=? 12) &&
  (1 <=? d) && (d <=? days_in_month y m).

Definition valid_date (d : pydate) : bool :=
  valid_ymd (year d) (month d) (day d).

(** The constructor takes its arguments as C [int]s. *)
Definition fits_c_int (z : Z) : bool :=
  (- 2147483648 <=? z) && (z <=? 2147483647).

(** [date(y, m, d)] on integers: an argument that does not fit a C [int]
    raises [OverflowError], a date out of range raises [ValueError]. *)
Definition make_date (y m d : Z) : outcome pydate :=
  if negb (fits_c_int y && fits_c_int m && fits_c_int d) then Raise OverflowError
  else if valid_ymd y m d then Ok (mkdate y m d)
  else Raise ValueError.

(** ** Decimal digits *)

(** The character of a digit, and back. *)
Definition digit_char (n : nat) : ascii := ascii_of_nat (48 + n).

Definition is_digit (c : ascii) : bool :=
  (48 <=? nat_of_ascii c)%nat && (nat_of_ascii c <=? 57)%nat.

Definition digit_val (c : ascii) : Z := Z.of_nat (nat_of_ascii c - 48).

Definition digit_of (z : Z) : ascii := digit_char (Z.to_nat (z mod 10)).

(** ["%02d"] and ["%04d"], for numbers that fit. *)
Definition pad2 (z : Z) : string :=
  String (digit_of (z / 10)) (String (digit_of z) EmptyString).

Definition pad4 (z : Z) : string :=
  String (digit_of (z / 1000)) (String (digit_of (z / 100)) (pad2 z)).

(** [date.isoformat()]: ["%04d-%02d-%02d"]. *)
Definition isoformat (d : pydate) : string :=
  pad4 (year d) ++ "-" ++ pad2 (month d) ++ "-" ++ pad2 (day d).

(** The number two, or four, digit characters spell. *)
Definition num2 (a b : ascii) : Z := 10 * digit_val a + digit_val b.

Definition num4 (a b c d : ascii) : Z := 100 * num2 a b + num2 c d.

(** [date.fromisoformat(s)] on the extended calendar form [YYYY-MM-DD], the
    only form [isoformat] produces.  Any other text is reported as a
    [ValueError] (recent interpreters also read the basic and the week
    forms). *)
Definition fromisoformat (s : string) : outcome pydate :=
  match s with
  | String y1 (String y2 (String y3 (String y4 (String s1
    (String m1 (String m2 (String s2 (String d1 (String d2 EmptyString))))))))) =>
      if forallb is_digit [y1; y2; y3; y4; m1; m2; d1; d2]
         && Ascii.eqb s1 "-" && Ascii.eqb s2 "-"
      then
        let y := num4 y1 y2 y3 y4 in
        let m := num2 m1 m2 in
        let d := num2 d1 d2 in
        if valid_ymd y m d then Ok (mkdate y m d) else Raise ValueError
      else Raise ValueError
  | _ => Raise ValueError
  end.

(** ** Python values *)

#[local] Set Warnings "-register-all".

(** What a payload read from JSON can hold, and dates. *)
Inductive pyval : Type :=
| VNone
| VBool (b : bool)
| VInt (z : Z)
| VFloat (f : spec_float)
| VStr (s : string)
| VDate (d : pydate)
| VList (l : list pyval)
| VDict (d : list (string * pyval)).

(** A [dict] with string keys, in insertion order. *)
Definition dict : Type := list (string * pyval).

(** The value under a key, if the key is there. *)
Fixpoint dict_get (k : string) (d : dict) : option pyval :=
  match d with
  | [] => None
  | (k', v) :: rest => if String.eqb k k' then Some v else dict_get k rest
  end.

(** [k in d] *)
Definition dict_has (k : string) (d : dict) : bool :=
  match dict_get k d with
  | Some _ => true
  | None => false
  end.

(** [d[k] = v]: an existing key keeps its position, a new key goes last. *)
Fixpoint dict_set (k : string) (v : pyval) (d : dict) : dict :=
  match d with
  | [] => [(k, v)]
  | (k', v') :: rest =>
      if String.eqb k k' then (k', v) :: rest else (k', v') :: dict_set k v rest
  end.

(** [{**d, **m}]: the entries of [m] are written into [d] in order. *)
Definition dict_update (d m : dict) : dict :=
  fold_left (fun acc kv => dict_set (fst kv) (snd kv) acc) m d.

(** [d.get(k, default)] *)
Definition get_default (k : string) (default : pyval) (d : dict) : pyval :=
  match dict_get k d with
  | Some v => v
  | None => default
  end.

(** [d.keys()] *)
Definition keys (d : dict) : list string := map fst d.

(** [+0.0] or [-0.0] *)
Definition float_is_zero (f : spec_float) : bool :=
  match f with
  | S754_zero _ => true
  | _ => false
  end.

(** Truth value of an object ([bool(v)], as [not] and [or] use it). *)
Definition truthy (v : pyval) : bool :=
  match v with
  | VNone => false
  | VBool b => b
  | VInt z => negb (z =? 0)
  | VFloat f => negb (float_is_zero f)
  | VStr s => negb (String.eqb s "")
  | VDate _ => true
  | VList l => match l with [] => false | _ => true end
  | VDict d => match d with [] => false | _ => true end
  end.


(** ** Text ([str]) *)

(** The letters [A] to [Z], and [a] to [z]. *)
Definition is_upper (c : ascii) : bool :=
  (65 <=? nat_of_ascii c)%nat && (nat_of_ascii c <=? 90)%nat.

Definition is_lower (c : ascii) : bool :=
  (97 <=? nat_of_ascii c)%nat && (nat_of_ascii c <=? 122)%nat.

(** Case mapping of one character. *)
Definition lower_char (c : ascii) : ascii :=
  if is_upper c then ascii_of_nat (nat_of_ascii c + 32) else c.

Definition upper_char (c : ascii) : ascii :=
  if is_lower c then ascii_of_nat (nat_of_ascii c - 32) else c.

Fixpoint map_chars (f : ascii -> ascii) (s : string) : string :=
  match s with
  | EmptyString => EmptyString
  | String c rest => String (f c) (map_chars f rest)
  end.

(** [s.lower()] and [s.upper()] on text of the ASCII range, and LOWER of
    the engine on any text: the letters [A] to [Z] (or [a] to [z]) are
    mapped, every other byte is kept.  Python also maps the letters beyond
    ASCII, which the engine does not: a statement that depends on the
    lower case of a keyword assumes the keyword is ASCII. *)
Definition lower (s : string) : string := map_chars lower_char s.
Definition upper (s : string) : string := map_chars upper_char s.

(** [s.capitalize()] *)
Definition capitalize (s : string) : string :=
  match s with
  | EmptyString => EmptyString
  | String c rest => String (upper_char c) (lower rest)
  end.

(** [needle in hay] for two strings. *)
Fixpoint contains (needle hay : string) : bool :=
  prefix needle hay ||
  match hay with
  | EmptyString => false
  | String _ rest => contains needle rest
  end.

(** [s.replace(c, "")] for a one-character [c]. *)
Fixpoint remove_char (c : ascii) (s : string) : string :=
  match s with
  | EmptyString => EmptyString
  | String d rest =>
      if Ascii.eqb c d then remove_char c rest else String d (remove_char c rest)
  end.

(** White space as [str.strip] sees it, and as the number parsers do. *)
Definition is_space (c : ascii) : bool :=
  let n := nat_of_ascii c in
  ((9 <=? n)%nat && (n <=? 13)%nat) || ((28 <=? n)%nat && (n <=? 32)%nat).

Definition is_c_space (c : ascii) : bool :=
  let n := nat_of_ascii c in
  ((9 <=? n)%nat && (n <=? 13)%nat) || (n =? 32)%nat.

Fixpoint lstrip (sp : ascii -> bool) (s : string) : string :=
  match s with
  | EmptyString => EmptyString
  | String c rest => if sp c then lstrip sp rest else s
  end.

Fixpoint rstrip (sp : ascii -> bool) (s : string) : string :=
  match s with
  | EmptyString => EmptyString
  | String c rest =>
      match rstrip sp rest with
      | EmptyString => if sp c then EmptyString else String c EmptyString
      | rest' => String c rest'
      end
  end.

(** [s.strip()] *)
Definition strip (s : string) : string := rstrip is_space (lstrip is_space s).

(** [s[:n]] and [s[n:]] *)
Definition take (n : nat) (s : string) : string := substring 0 n s.

Fixpoint drop (n : nat) (s : string) : string :=
  match n, s with
  | O, _ => s
  | S n', String _ rest => drop n' rest
  | S _, EmptyString => EmptyString
  end.

(** The characters of a string, one-character strings as iteration yields. *)
Fixpoint chars (s : string) : list string :=
  match s with
  | EmptyString => []
  | String c rest => String c EmptyString :: chars rest
  end.

(** ** Numbers read from text ([float], [int])

    A [float] is an IEEE 754 binary64 number, [spec_float] with a 53-bit
    significand; conversions round to nearest, ties to even, as the
    interpreter's do. *)

(** The float nearest to an integer. *)
Definition float_of_Z (z : Z) : spec_float := binary_normalize 53 1024 z 0 false.

(** The float nearest to [m * 10 ^ e], for [m > 0]. *)
Definition float_of_decimal (neg : bool) (m e : Z) : spec_float :=
  if m <=? 0 then S754_zero neg
  else if 0 <=? e then binary_round 53 1024 neg (Z.to_pos (m * 10 ^ e)) 0
  else
    let d := 10 ^ (- e) in
    let s := Z.max 0 (Z.log2 d + 64 - Z.log2 m) in
    let n := m * 2 ^ s in
    let q := n / d in
    let r := n mod d in
    let loc := if r =? 0 then loc_Exact else loc_Inexact (Z.compare (2 * r) d) in
    binary_round_aux 53 1024 neg q (- s) loc.

(** The longest prefix of digits, and the rest. *)
Fixpoint span_digits (l : list ascii) : list ascii * list ascii :=
  match l with
  | c :: rest =>
      if is_digit c then let (ds, tl) := span_digits rest in (c :: ds, tl)
      else ([], l)
  | [] => ([], [])
  end.

(** The number a run of digits spells. *)
Definition Z_of_digits (ds : list ascii) : Z :=
  fold_left (fun acc c => 10 * acc + digit_val c) ds 0.

(** Underscores may group digits: each must stand between two digits.
    The result is the text without them, or nothing when one is misplaced. *)
Fixpoint drop_underscores (prev : ascii) (l : list ascii) : option (list ascii) :=
  match l with
  | [] => if Ascii.eqb prev "_" then None else Some []
  | c :: rest =>
      if Ascii.eqb c "_" then
        if is_digit prev then drop_underscores c rest else None
      else if Ascii.eqb prev "_" && negb (is_digit c) then None
      else option_map (cons c) (drop_underscores c rest)
  end.

(** An optional sign: whether it is a minus, and the rest. *)
Definition split_sign (l : list ascii) : bool * list ascii :=
  match l with
  | c :: rest =>
      if Ascii.eqb c "-" then (true, rest)
      else if Ascii.eqb c "+" then (false, rest)
      else (false, l)
  | [] => (false, [])
  end.

(** The text without the white space around it. *)
Definition trimmed (s : string) : list ascii :=
  list_ascii_of_string (rstrip is_c_space (lstrip is_c_space s)).

(** The exponent part, [e] or [E], an optional sign and digits; no
    exponent part counts as exponent 0. *)
Definition read_exponent (l : list ascii) : option Z :=
  match l with
  | [] => Some 0
  | c :: rest =>
      if Ascii.eqb (lower_char c) "e" then
        let (neg, rest') := split_sign rest in
        match span_digits rest' with
        | ((_ :: _) as ds, []) => Some (if neg then - Z_of_digits ds else Z_of_digits ds)
        | _ => None
        end
      else None
  end.

(** A decimal number: digits, an optional point, digits, an optional
    exponent; at least one digit before the exponent. *)
Definition read_decimal (neg : bool) (l : list ascii) : option spec_float :=
  let (int_part, r1) := span_digits l in
  let (frac_part, r2) :=
    match r1 with
    | c :: r => if Ascii.eqb c "." then span_digits r else ([], r1)
    | [] => ([], [])
    end in
  match (int_part ++ frac_part)%list with
  | [] => None
  | ds =>
      match read_exponent r2 with
      | Some e =>
          Some (float_of_decimal neg (Z_of_digits ds) (e - Z.of_nat (List.length frac_part)))
      | None => None
      end
  end.

(** [float(s)] for a string. *)
Definition float_of_string (s : string) : outcome spec_float :=
  match drop_underscores "000" (trimmed s) with
  | None => Raise ValueError
  | Some l =>
      let (neg, body) := split_sign l in
      let word := lower (string_of_list_ascii body) in
      if String.eqb word "inf" || String.eqb word "infinity" then Ok (S754_infinity neg)
      else if String.eqb word "nan" then Ok S754_nan
      else match read_decimal neg body with
           | Some f => Ok f
           | None => Raise ValueError
           end
  end.

(** [int(s)] for a string, in base ten.  The interpreter refuses a literal
    of more than 4300 digits. *)
Definition int_of_string (s : string) : outcome Z :=
  match drop_underscores "000" (trimmed s) with
  | None => Raise ValueError
  | Some l =>
      let (neg, body) := split_sign l in
      match span_digits body with
      | ((_ :: _) as ds, []) =>
          if (4300 <? List.length ds)%nat then Raise ValueError
          else Ok (if neg then - Z_of_digits ds else Z_of_digits ds)
      | _ => Raise ValueError
      end
  end.

(** ** The domain model ([entities/economic_data.py])

    A dataclass does not check its annotations: every field holds whatever
    the constructor was given. *)

Record EconomicData : Type := mkEconomicData {
  country_code : pyval;
  country_name : pyval;
  indicator_id : pyval;
  indicator_name : pyval;
  value : pyval;
  date : pyval;
  frequency : pyval;
  unit : pyval;
  source : pyval;
  revision_number : pyval;
  currency : pyval;
  metadata : pyval
}.

(** ** The storage mapper ([interfaces/database/db_model_mapper.py]) *)

(** The attributes [to_db_item] writes for every record; [from_db_item]
    takes every other attribute of an item for metadata. *)
Definition standard_fields : list string :=
  ["PK"; "SK"; "country_code"; "country_name"; "indicator_id"; "indicator_name";
   "value"; "date"; "unit"; "frequency"; "source"; "year"; "month"; "day";
   "revision_number"; "currency"].

(** [k in standard_fields] *)
Definition is_standard (k : string) : bool :=
  existsb (String.eqb k) standard_fields.

(** [str(z)] for an [int]. *)
Definition dec_of_Z (z : Z) : string := NilZero.string_of_int (Z.to_int z).

Section Formatting.

(** [str()] of a float or of a container is the interpreter's [repr];
    the code below only concatenates that text, so it is kept abstract. *)
Variable repr_of : pyval -> string.

(** What an f-string puts in place of [{v}]. *)
Definition py_str (v : pyval) : string :=
  match v with
  | VStr s => s
  | VNone => "None"
  | VBool true => "True"
  | VBool false => "False"
  | VInt z => dec_of_Z z
  | VDate d => isoformat d
  | _ => repr_of v
  end.

(** [_format_date]: [date_obj.isoformat()] *)
Definition _format_date (v : pyval) : outcome string :=
  match v with
  | VDate d => Ok (isoformat d)
  | _ => Raise AttributeError
  end.

(** [economic_data.metadata or {}], then unpacked with [**]. *)
Definition metadata_mapping (v : pyval) : outcome dict :=
  if truthy v then
    match v with
    | VDict m => Ok m
    | _ => Raise TypeError
    end
  else Ok [].

(** [date_obj.year], [.month], [.day] *)
Definition date_part (part : pydate -> Z) (v : pyval) : outcome pyval :=
  match v with
  | VDate d => Ok (VInt (part d))
  | _ => Raise AttributeError
  end.

(** [DBModelMapper.to_db_item]: the dict display, its entries evaluated in
    order, the metadata unpacked last. *)
Definition to_db_item (economic_data : EconomicData) : outcome dict :=
  let pk := "COUNTRY#" ++ py_str (country_code economic_data) in
  let* iso := _format_date (date economic_data) in
  let sk := "INDICATOR#" ++ py_str (indicator_id economic_data) ++ "#" ++ iso in
  let* y := date_part year (date economic_data) in
  let* m := date_part month (date economic_data) in
  let* d := date_part day (date economic_data) in
  let* extra := metadata_mapping (metadata economic_data) in
  Ok (dict_update
        [("PK", VStr pk);
         ("SK", VStr sk);
         ("country_code", country_code economic_data);
         ("country_name", country_name economic_data);
         ("indicator_id", indicator_id economic_data);
         ("indicator_name", indicator_name economic_data);
         ("value", value economic_data);
         ("date", VStr iso);
         ("unit", unit economic_data);
         ("frequency", frequency economic_data);
         ("source", source economic_data);
         ("year", y);
         ("month", m);
         ("day", d);
         ("revision_number", revision_number economic_data);
         ("currency", currency economic_data)]
        extra).

End Formatting.

(** An argument of [date(...)]: an [int] (a [bool] is one). *)
Definition as_index (v : pyval) : outcome Z :=
  match v with
  | VInt z => Ok z
  | VBool b => Ok (if b then 1 else 0)
  | _ => Raise TypeError
  end.

(** [_parse_date]: [date.fromisoformat(date_str)] *)
Definition _parse_date (s : string) : outcome pydate := fromisoformat s.

(** The date of an item: its ["date"] when that is a string, else the date
    made of ["year"], ["month"] and ["day"]. *)
Definition item_date (item : dict) : outcome pydate :=
  match dict_get "date" item with
  | Some (VStr s) => _parse_date s
  | _ =>
      let* y := as_index (get_default "year" (VInt 2000) item) in
      let* m := as_index (get_default "month" (VInt 1) item) in
      let* d := as_index (get_default "day" (VInt 1) item) in
      make_date y m d
  end.

(** [{k: v for k, v in item.items() if k not in standard_fields}] *)
Definition extra_attributes (item : dict) : dict :=
  filter (fun kv => negb (is_standard (fst kv))) item.

(** [DBModelMapper.from_db_item] *)
Definition from_db_item (item : dict) : outcome EconomicData :=
  let* date_obj := item_date item in
  let metadata := extra_attributes item in
  Ok {| country_code := get_default "country_code" VNone item;
        country_name := get_default "country_name" VNone item;
        indicator_id := get_default "indicator_id" VNone item;
        indicator_name := get_default "indicator_name" VNone item;
        value := get_default "value" (VFloat (S754_zero false)) item;
        date := VDate date_obj;
        unit := get_default "unit" (VStr "") item;
        frequency := get_default "frequency" (VStr "monthly") item;
        source := get_default "source" (VStr "") item;
        revision_number := get_default "revision_number" VNone item;
        currency := get_default "currency" VNone item;
        metadata := VDict metadata |}.


(** ** Lists the way Python walks them *)

(** [range(0, stop, step)] for a positive [step]. *)
Definition py_range (stop step : nat) : list nat :=
  map (fun k => (k * step)%nat) (seq 0 ((stop + step - 1) / step)).

(** [l[i:j]] for [0 <= i <= j]. *)
Definition slice {A : Type} (l : list A) (i j : nat) : list A :=
  firstn (j - i) (skipn i l).

(** A list comprehension whose element expression can raise. *)
Fixpoint traverse {A B : Type} (f : A -> outcome B) (l : list A) : outcome (list B) :=
  match l with
  | [] => Ok []
  | a :: rest =>
      let* b := f a in
      let* bs := traverse f rest in
      Ok (b :: bs)
  end.

(** ** The key-value client ([frameworks/aws/dynamodb_client.py]) and its
       uploader ([interfaces/database/aws_uploader.py]) *)

Section KeyValueBackend.

Variable repr_of : pyval -> string.

(** The table resource of the cloud SDK: writing a batch changes the
    remote table and may raise. *)
Variable remote : Type.
Variable batch_writer : list dict -> remote -> remote * option exn.

(** The client object, with the calls made to [batch_write_items]. *)
Record client : Type := mkclient {
  table : remote;
  batch_calls : list (list dict)
}.

(** The body of [batch_write_items]: nothing to do for no items; a
    [ClientError] of the SDK becomes [False], any other exception goes on. *)
Definition write_batch (items : list dict) (t : remote) : outcome bool * remote :=
  match items with
  | [] => (Ok true, t)
  | _ =>
      match batch_writer items t with
      | (t', None) => (Ok true, t')
      | (t', Some ClientError) => (Ok false, t')
      | (t', Some e) => (Raise e, t')
      end
  end.

(** [DynamoDBClient.batch_write_items] *)
Definition batch_write_items (items : list dict) (c : client) : outcome bool * client :=
  let (res, t') := write_batch items (table c) in
  (res, {| table := t'; batch_calls := batch_calls c ++ [items] |}).

(** [batch_size = 25] *)
Definition batch_size : nat := 25.

(** One turn of the loop of [upload]: the slice, the call, the flag. *)
Definition upload_batch (db_items : list dict) (state : bool * client) (i : nat)
  : bool * client :=
  let (success, c) := state in
  let batch := slice db_items i (i + batch_size) in
  match batch_write_items batch c with
  | (Ok result, c') => (if result then success else false, c')
  | (Raise _, c') => (false, c')
  end.

(** [AWSUploader.upload] *)
Definition aws_upload (data : list EconomicData) (c : client) : outcome bool * client :=
  match data with
  | [] => (Ok false, c)
  | _ =>
      match traverse (to_db_item repr_of) data with
      | Raise e => (Raise e, c)
      | Ok db_items =>
          let (success, c') :=
            fold_left (upload_batch db_items)
                      (py_range (List.length db_items) batch_size) (true, c) in
          (Ok success, c')
      end
  end.

End KeyValueBackend.

Arguments table {remote} c.
Arguments batch_calls {remote} c.
Arguments mkclient {remote} table batch_calls.

(** ** The relational backend ([sqlite3])

    A column holds a value of one of the storage classes below.  The table
    [economic_data] declares its columns TEXT, REAL and INTEGER; the
    coercion the engine applies to a bound value of another class is left
    out of the model, which stores the value as bound.  BLOBs never arise. *)

Inductive sqlval : Type :=
| SNull
| SInteger (z : Z)
| SReal (f : spec_float)
| SText (s : string).

(** An INTEGER is a signed 64-bit number. *)
Definition fits_int64 (z : Z) : bool :=
  (- 9223372036854775808 <=? z) && (z <=? 9223372036854775807).

(** How [sqlite3] binds a Python object to a [?]: [None], [int], [float],
    [str] natively (a NaN is stored as NULL), a [date] through the default
    adapter; anything else is refused. *)
Definition bind_param (v : pyval) : outcome sqlval :=
  match v with
  | VNone => Ok SNull
  | VBool b => Ok (SInteger (if b then 1 else 0))
  | VInt z => if fits_int64 z then Ok (SInteger z) else Raise OverflowError
  | VFloat S754_nan => Ok SNull
  | VFloat f => Ok (SReal f)
  | VStr s => Ok (SText s)
  | VDate d => Ok (SText (isoformat d))
  | VList _ => Raise ProgrammingError
  | VDict _ => Raise ProgrammingError
  end.

(** What a fetched column is in Python. *)
Definition column_value (v : sqlval) : pyval :=
  match v with
  | SNull => VNone
  | SInteger z => VInt z
  | SReal f => VFloat f
  | SText s => VStr s
  end.

Module EconomicRow.

(** A row of [economic_data], column by column. *)
Record t : Type := mk {
  pk : sqlval;
  sk : sqlval;
  country_code : sqlval;
  country_name : sqlval;
  indicator_id : sqlval;
  indicator_name : sqlval;
  frequency : sqlval;
  date : sqlval;
  value : sqlval;
  unit : sqlval;
  source : sqlval;
  revision_number : sqlval;
  currency : sqlval
}.

End EconomicRow.

(** Equality of two key columns; a NULL equals nothing. *)
Definition sqlval_eqb (a b : sqlval) : bool :=
  match a, b with
  | SText s, SText t => String.eqb s t
  | SInteger x, SInteger y => x =? y
  | _, _ => false
  end.

(** Two rows collide on [PRIMARY KEY (pk, sk)]. *)
Definition same_key (a b : EconomicRow.t) : bool :=
  sqlval_eqb (EconomicRow.pk a) (EconomicRow.pk b) && sqlval_eqb (EconomicRow.sk a) (EconomicRow.sk b).

(** [INSERT OR REPLACE]: the row with the same key, if any, is deleted and
    the new row is added. *)
Definition insert_or_replace (r : EconomicRow.t) (rows : list EconomicRow.t) : list EconomicRow.t :=
  filter (fun old => negb (same_key old r)) rows ++ [r].

(** What a database file is asked to do. *)
Inductive db_event : Type :=
| Connected
| Executed
| Committed
| RolledBack.

(** The database file: the committed rows, and what has been asked of it. *)
Record database : Type := mkdb {
  stored : list EconomicRow.t;
  journal : list db_event
}.

(** An open connection: the rows as its transaction sees them. *)
Record connection : Type := mkconn {
  file : database;
  pending : list EconomicRow.t
}.

(** The operations of a connection; each leaves a trace in the journal. *)
Definition record_event (ev : db_event) (db : database) : database :=
  {| stored := stored db; journal := journal db ++ [ev] |}.

Definition connect (db : database) : connection :=
  {| file := record_event Connected db; pending := stored db |}.

Definition execute_insert (r : EconomicRow.t) (conn : connection) : connection :=
  {| file := record_event Executed (file conn);
     pending := insert_or_replace r (pending conn) |}.

Definition commit (conn : connection) : database :=
  {| stored := pending conn; journal := journal (file conn) ++ [Committed] |}.

Definition rollback (conn : connection) : database :=
  record_event RolledBack (file conn).

(** [with sqlite3.connect(path) as conn: body]: leaving the block commits,
    also through a [return]; an exception that escapes the block rolls
    back and goes on. *)
Definition with_connection {A : Type} (db : database)
           (body : connection -> outcome A * connection) : outcome A * database :=
  match body (connect db) with
  | (Ok a, conn) => (Ok a, commit conn)
  | (Raise e, conn) => (Raise e, rollback conn)
  end.

(** ** The relational uploader ([interfaces/database/sqlite_uploader.py]) *)

Section RelationalUploader.

Variable repr_of : pyval -> string.

(** The [try] body of one turn, up to the call of [conn.execute]: the two
    keys, the tuple of thirteen parameters, their binding. *)
Definition insert_parameters (item : EconomicData) : outcome EconomicRow.t :=
  let pk := "COUNTRY#" ++ py_str repr_of (country_code item) in
  let* iso := _format_date (date item) in
  let sk := "INDICATOR#" ++ py_str repr_of (indicator_id item) ++ "#" ++ iso in
  let* c_pk := bind_param (VStr pk) in
  let* c_sk := bind_param (VStr sk) in
  let* c_country_code := bind_param (country_code item) in
  let* c_country_name := bind_param (country_name item) in
  let* c_indicator_id := bind_param (indicator_id item) in
  let* c_indicator_name := bind_param (indicator_name item) in
  let* c_frequency := bind_param (frequency item) in
  let* c_date := bind_param (VStr iso) in
  let* c_value := bind_param (value item) in
  let* c_unit := bind_param (unit item) in
  let* c_source := bind_param (source item) in
  let* c_revision_number := bind_param (revision_number item) in
  let* c_currency := bind_param (currency item) in
  Ok (EconomicRow.mk c_pk c_sk c_country_code c_country_name c_indicator_id
             c_indicator_name c_frequency c_date c_value c_unit c_source
             c_revision_number c_currency).

(** The [for] loop inside the [with] block.  [Some false] is the
    [return False] of the handler; [None] is the end of the loop. *)
Fixpoint upload_rows (data : list EconomicData) (conn : connection)
  : option bool * connection :=
  match data with
  | [] => (None, conn)
  | item :: rest =>
      match insert_parameters item with
      | Ok row => upload_rows rest (execute_insert row conn)
      | Raise _ => (Some false, conn)
      end
  end.

(** [SQLiteUploader.upload] *)
Definition sqlite_upload (data : list EconomicData) (db : database)
  : outcome bool * database :=
  match data with
  | [] => (Ok false, db)
  | _ =>
      with_connection db
        (fun conn =>
           match upload_rows data conn with
           | (Some returned, conn') => (Ok returned, conn')
           | (None, conn') => (Ok true, conn')
           end)
  end.

End RelationalUploader.

(** ** Numbers compared exactly *)

(** The value of a number on the extended rational line. *)
Inductive xnum : Type :=
| XNegInf
| XFin (q : Q)
| XPosInf.

(** The rational [m * 2 ^ e]. *)
Definition Q_of_binary (m e : Z) : Q :=
  if 0 <=? e then inject_Z (m * 2 ^ e) else Qmake m (Z.to_pos (2 ^ (- e))).

(** A NaN has no place on the line; callers set it apart first. *)
Definition xnum_of_float (f : spec_float) : xnum :=
  match f with
  | S754_zero _ => XFin (inject_Z 0)
  | S754_infinity true => XNegInf
  | S754_infinity false => XPosInf
  | S754_nan => XFin (inject_Z 0)
  | S754_finite s m e => XFin (Q_of_binary (if s then Zneg m else Zpos m) e)
  end.

(** The order of the line. *)
Definition xle (a b : xnum) : bool :=
  match a, b with
  | XNegInf, _ => true
  | _, XPosInf => true
  | XFin p, XFin q => Qle_bool p q
  | _, _ => false
  end.

Definition xlt (a b : xnum) : bool := negb (xle b a).

(** The float is a NaN. *)
Definition float_is_nan (f : spec_float) : bool :=
  match f with
  | S754_nan => true
  | _ => false
  end.

(** ** Sorting *)

Section InsertionSort.

Variable A : Type.
Variable le : A -> A -> bool.

(** [x] goes before the first element it is not after. *)
Fixpoint insert_by (x : A) (l : list A) : list A :=
  match l with
  | [] => [x]
  | y :: rest => if le x y then x :: l else y :: insert_by x rest
  end.

(** A stable sort: of two rows neither of which is before the other, the
    first in the input stays first. *)
Fixpoint sort_by (l : list A) : list A :=
  match l with
  | [] => []
  | x :: rest => insert_by x (sort_by rest)
  end.

End InsertionSort.

Arguments insert_by {A} le x l.
Arguments sort_by {A} le l.

(** ** The read path ([interfaces/database/economic_data_repository.py]) *)

(** The order of two values under [ORDER BY]: NULL first, then the numbers
    by value, then the texts byte by byte. *)
Definition sql_class (v : sqlval) : nat :=
  match v with
  | SNull => 0
  | SInteger _ => 1
  | SReal _ => 1
  | SText _ => 2
  end.

(** The value of an INTEGER or a REAL. *)
Definition sql_number (v : sqlval) : xnum :=
  match v with
  | SInteger z => XFin (inject_Z z)
  | SReal f => xnum_of_float f
  | _ => XFin (inject_Z 0)
  end.

(** [a] sorts before [b], or with it. *)
Definition sql_le (a b : sqlval) : bool :=
  match a, b with
  | SText s, SText t => String.leb s t
  | _, _ =>
      if (sql_class a <? sql_class b)%nat then true
      else if (sql_class b <? sql_class a)%nat then false
      else match sql_class a with
           | 1%nat => xle (sql_number a) (sql_number b)
           | _ => true
           end
  end.

Definition sql_lt (a b : sqlval) : bool := negb (sql_le b a).

(** [ORDER BY indicator_id, date DESC] *)
Definition scan_order (a b : EconomicRow.t) : bool :=
  if sql_lt (EconomicRow.indicator_id a) (EconomicRow.indicator_id b) then true
  else if sql_lt (EconomicRow.indicator_id b) (EconomicRow.indicator_id a) then false
  else sql_le (EconomicRow.date b) (EconomicRow.date a).

(** [X LIKE P]: [%] stands for any run of characters, [_] for any one
    character, and letters match without regard to case. *)
Fixpoint like (p s : string) : bool :=
  match p with
  | EmptyString =>
      match s with
      | EmptyString => true
      | _ => false
      end
  | String c p' =>
      if Ascii.eqb c "%" then
        (fix any_run (s : string) : bool :=
           like p' s ||
           match s with
           | EmptyString => false
           | String _ s' => any_run s'
           end) s
      else
        match s with
        | EmptyString => false
        | String d s' =>
            (Ascii.eqb c "_" || Ascii.eqb (lower_char c) (lower_char d)) && like p' s'
        end
  end.

(** [country_code = ?] with a text parameter. *)
Definition sql_equals_text (v : sqlval) (s : string) : bool :=
  match v with
  | SText t => String.eqb t s
  | _ => false
  end.

(** [LOWER(indicator_name) LIKE ?]: NULL matches nothing. *)
Definition lower_like (v : sqlval) (pattern : string) : bool :=
  match v with
  | SText t => like pattern (lower t)
  | _ => false
  end.

(** The [WHERE] clause, with the two parameters the method passes. *)
Definition selected (country_code keyword : string) (r : EconomicRow.t) : bool :=
  sql_equals_text (EconomicRow.country_code r) country_code
  && lower_like (EconomicRow.indicator_name r) ("%" ++ lower keyword ++ "%").

(** The rows the cursor yields, in order.  Rows equal in both sort keys
    come in table order; the key the uploader writes is made of the
    country, the indicator and the date, so the rows it wrote do not tie. *)
Definition run_query (country_code keyword : string) (db : database) : list EconomicRow.t :=
  sort_by scan_order (filter (selected country_code keyword) (stored db)).

(** [EconomicData(country_code=row["country_code"], ..., metadata=None)] *)
Definition record_of_row (row : EconomicRow.t) : EconomicData :=
  {| country_code := column_value (EconomicRow.country_code row);
     country_name := column_value (EconomicRow.country_name row);
     indicator_id := column_value (EconomicRow.indicator_id row);
     indicator_name := column_value (EconomicRow.indicator_name row);
     value := column_value (EconomicRow.value row);
     date := column_value (EconomicRow.date row);
     frequency := column_value (EconomicRow.frequency row);
     unit := column_value (EconomicRow.unit row);
     source := column_value (EconomicRow.source row);
     revision_number := column_value (EconomicRow.revision_number row);
     currency := column_value (EconomicRow.currency row);
     metadata := VNone |}.

(** Two fetched values are the same dictionary key: equal texts, both
    [None], or numbers of equal value. *)
Definition same_dict_key (a b : sqlval) : bool :=
  match a, b with
  | SNull, SNull => true
  | SText s, SText t => String.eqb s t
  | SInteger _, SInteger _ | SInteger _, SReal _
  | SReal _, SInteger _ | SReal _, SReal _ =>
      xle (sql_number a) (sql_number b) && xle (sql_number b) (sql_number a)
  | _, _ => false
  end.

(** [indicator_id in results] *)
Definition key_in (k : sqlval) (results : list (sqlval * EconomicData)) : bool :=
  existsb (fun kv => same_dict_key k (fst kv)) results.

(** The loop over the cursor: [results] gets an entry for an indicator the
    first time a row of it comes by. *)
Fixpoint collect_first (rows : list EconomicRow.t) (results : list (sqlval * EconomicData))
  : list (sqlval * EconomicData) :=
  match rows with
  | [] => results
  | row :: rest =>
      let indicator_id := EconomicRow.indicator_id row in
      if key_in indicator_id results then collect_first rest results
      else collect_first rest (results ++ [(indicator_id, record_of_row row)])
  end.

(** [a < b] on two fetched values: numbers by value (nothing is below or
    above a NaN), texts by code point; [None], or a number against a text,
    is a [TypeError]. *)
Definition value_lt (a b : pyval) : outcome bool :=
  match a, b with
  | VStr s, VStr t => Ok (String.ltb s t)
  | VInt x, VInt y => Ok (x <? y)
  | VInt x, VFloat g =>
      Ok (negb (float_is_nan g) && xlt (XFin (inject_Z x)) (xnum_of_float g))
  | VFloat f, VInt y =>
      Ok (negb (float_is_nan f) && xlt (xnum_of_float f) (XFin (inject_Z y)))
  | VFloat f, VFloat g =>
      Ok (negb (float_is_nan f) && negb (float_is_nan g)
          && xlt (xnum_of_float f) (xnum_of_float g))
  | _, _ => Raise TypeError
  end.

Section SortedWithKey.

Variable A : Type.
Variable lt : A -> A -> outcome bool.

(** [x] goes after the elements it is below; a comparison that raises
    ends the sort. *)
Fixpoint insert_desc (x : A) (l : list A) : outcome (list A) :=
  match l with
  | [] => Ok [x]
  | y :: rest =>
      let* below := lt x y in
      if below then
        let* rest' := insert_desc x rest in
        Ok (y :: rest')
      else Ok (x :: l)
  end.

(** [sorted(l, key=..., reverse=True)]: larger keys first, and two elements
    neither of which is below the other keep their order. *)
Fixpoint sorted_desc (l : list A) : outcome (list A) :=
  match l with
  | [] => Ok []
  | x :: rest =>
      let* rest' := sorted_desc rest in
      insert_desc x rest'
  end.

End SortedWithKey.

Arguments insert_desc {A} lt x l.
Arguments sorted_desc {A} lt l.

(** [EconomicDataRepository.get_latest_by_indicator_name] *)
Definition get_latest_by_indicator_name (country_code keyword : string) (db : database)
  : outcome (list EconomicData) :=
  let results := collect_first (run_query country_code keyword db) [] in
  sorted_desc (fun x y => value_lt (value x) (value y)) (map snd results).

(** ** Dynamic operations the preprocessors rely on *)

(** [v.get(k, default)]: only a [dict] has the method. *)
Definition py_get (v : pyval) (k : string) (default : pyval) : outcome pyval :=
  match v with
  | VDict d => Ok (get_default k default d)
  | _ => Raise AttributeError
  end.

(** [v.get(k, <expr>)] where the default is itself computed: the method is
    looked up before the argument is evaluated. *)
Definition py_get_with (v : pyval) (k : string) (default : outcome pyval) : outcome pyval :=
  match v with
  | VDict d => let* dflt := default in Ok (get_default k dflt d)
  | _ => Raise AttributeError
  end.

(** [v[k]] for a string key. *)
Definition py_getitem (v : pyval) (k : string) : outcome pyval :=
  match v with
  | VDict d =>
      match dict_get k d with
      | Some x => Ok x
      | None => Raise KeyError
      end
  | _ => Raise TypeError
  end.

(** [v == s] for a string [s]. *)
Definition is_str (s : string) (v : pyval) : bool :=
  match v with
  | VStr t => String.eqb s t
  | _ => false
  end.

(** [s in v] for a string [s]: a substring of a string, an element of a
    list, a key of a dict. *)
Definition py_in (s : string) (v : pyval) : outcome bool :=
  match v with
  | VStr t => Ok (contains s t)
  | VList l => Ok (existsb (is_str s) l)
  | VDict d => Ok (dict_has s d)
  | _ => Raise TypeError
  end.

(** What [for x in v] goes through. *)
Definition py_iter (v : pyval) : outcome (list pyval) :=
  match v with
  | VList l => Ok l
  | VStr s => Ok (map VStr (chars s))
  | VDict d => Ok (map VStr (keys d))
  | _ => Raise TypeError
  end.

(** [mapping.get(key, default)] on a dict with string keys, for a key of
    any type: a list or a dict cannot be hashed. *)
Definition lookup_any (mapping : dict) (key default : pyval) : outcome pyval :=
  match key with
  | VStr s => Ok (get_default s default mapping)
  | VList _ => Raise TypeError
  | VDict _ => Raise TypeError
  | _ => Ok default
  end.

(** Neither a NaN nor an infinity. *)
Definition float_is_finite (f : spec_float) : bool :=
  match f with
  | S754_zero _ => true
  | S754_finite _ _ _ => true
  | _ => false
  end.

(** [float(v)] *)
Definition py_float (v : pyval) : outcome spec_float :=
  match v with
  | VStr s => float_of_string s
  | VFloat f => Ok f
  | VInt z =>
      let f := float_of_Z z in
      if float_is_finite f then Ok f else Raise OverflowError
  | VBool b => Ok (float_of_Z (if b then 1 else 0))
  | _ => Raise TypeError
  end.

(** ** [datetime.strptime]

    A format is a sequence of directives, each a regular expression with
    alternatives tried in order; the text must match from its start, and
    what is left after the match is an error. *)

(** [%Y], [%m], [%d], and a literal character. *)
Inductive directive : Type :=
| DYear
| DMonth
| DDay
| DLit (c : ascii).

(** The fields found so far. *)
Record parsed : Type := mkparsed {
  p_year : Z;
  p_month : Z;
  p_day : Z
}.

Definition store (d : directive) (v : Z) (acc : parsed) : parsed :=
  match d with
  | DYear => {| p_year := v; p_month := p_month acc; p_day := p_day acc |}
  | DMonth => {| p_year := p_year acc; p_month := v; p_day := p_day acc |}
  | DDay => {| p_year := p_year acc; p_month := p_month acc; p_day := v |}
  | DLit _ => acc
  end.

(** A character class [[lo-hi]]. *)
Definition in_range (lo hi : ascii) (c : ascii) : bool :=
  (nat_of_ascii lo <=? nat_of_ascii c)%nat && (nat_of_ascii c <=? nat_of_ascii hi)%nat.

(** Two characters, the first in [[a1, b1]] and the second in [[a2, b2]]. *)
Definition two_chars (a1 b1 a2 b2 : ascii) (s : list ascii) : option (Z * list ascii) :=
  match s with
  | c1 :: c2 :: rest =>
      if in_range a1 b1 c1 && in_range a2 b2 c2 then Some (num2 c1 c2, rest) else None
  | _ => None
  end.

(** One character in [[a, b]]; a blank and such a character; four digits;
    a given character. *)
Definition one_char (a b : ascii) (s : list ascii) : option (Z * list ascii) :=
  match s with
  | c :: rest => if in_range a b c then Some (digit_val c, rest) else None
  | _ => None
  end.

Definition blank_then (a b : ascii) (s : list ascii) : option (Z * list ascii) :=
  match s with
  | c1 :: c2 :: rest =>
      if Ascii.eqb c1 " " && in_range a b c2 then Some (digit_val c2, rest) else None
  | _ => None
  end.

Definition four_digits (s : list ascii) : option (Z * list ascii) :=
  match s with
  | c1 :: c2 :: c3 :: c4 :: rest =>
      if forallb is_digit [c1; c2; c3; c4] then Some (num4 c1 c2 c3 c4, rest) else None
  | _ => None
  end.

Definition literal (c : ascii) (s : list ascii) : option (Z * list ascii) :=
  match s with
  | d :: rest => if Ascii.eqb c d then Some (0, rest) else None
  | _ => None
  end.

(** The alternatives of a directive, in the order the matcher tries them:
    [%Y] is [\d\d\d\d], [%m] is [1[0-2]|0[1-9]|[1-9]], and
    [%d] is [3[01]|[12]\d|0[1-9]|[1-9]| [1-9]]. *)
Definition alternatives (d : directive) : list (list ascii -> option (Z * list ascii)) :=
  match d with
  | DYear => [four_digits]
  | DMonth => [two_chars "1" "1" "0" "2"; two_chars "0" "0" "1" "9"; one_char "1" "9"]
  | DDay => [two_chars "3" "3" "0" "1"; two_chars "1" "2" "0" "9";
             two_chars "0" "0" "1" "9"; one_char "1" "9"; blank_then "1" "9"]
  | DLit c => [literal c]
  end.

(** The first alternative that lets the rest of the format match. *)
Fixpoint first_success {X Y : Type} (f : X -> option Y) (l : list X) : option Y :=
  match l with
  | [] => None
  | x :: rest =>
      match f x with
      | Some y => Some y
      | None => first_success f rest
      end
  end.

Fixpoint match_format (fmt : list directive) (s : list ascii) (acc : parsed)
  : option (parsed * list ascii) :=
  match fmt with
  | [] => Some (acc, s)
  | d :: fmt' =>
      first_success
        (fun alt =>
           match alt s with
           | Some (v, rest) => match_format fmt' rest (store d v acc)
           | None => None
           end)
        (alternatives d)
  end.

(** [datetime.strptime(s, fmt).date()]; a field the format lacks is 1900,
    1 and 1. *)
Definition strptime (fmt : list directive) (s : string) : outcome pydate :=
  match match_format fmt (list_ascii_of_string s) (mkparsed 1900 1 1) with
  | Some (p, []) =>
      if valid_ymd (p_year p) (p_month p) (p_day p)
      then Ok (mkdate (p_year p) (p_month p) (p_day p))
      else Raise ValueError
  | _ => Raise ValueError
  end.

(** The same on any object: the first argument must be a [str]. *)
Definition py_strptime (fmt : list directive) (v : pyval) : outcome pydate :=
  match v with
  | VStr s => strptime fmt s
  | _ => Raise TypeError
  end.

(** ["%Y-%m-%d"], ["%Y%m%d"], ["%d/%m/%Y"], ["%Y%m"] *)
Definition fmt_iso : list directive := [DYear; DLit "-"; DMonth; DLit "-"; DDay].
Definition fmt_compact : list directive := [DYear; DMonth; DDay].
Definition fmt_slashes : list directive := [DDay; DLit "/"; DMonth; DLit "/"; DYear].
Definition fmt_year_month : list directive := [DYear; DMonth].

(** ** Loops, [continue], and [try] ... [except Exception] *)

(** A statement working on a state: the state it leaves, and the exception
    that ended it, if any. *)
Definition action (S : Type) : Type := S -> S * option exn.

(** [for x in l: body]: an exception ends the loop. *)
Fixpoint for_each {S X : Type} (body : X -> action S) (l : list X) : action S :=
  fun s =>
    match l with
    | [] => (s, None)
    | x :: rest =>
        match body x s with
        | (s', None) => for_each body rest s'
        | (s', Some e) => (s', Some e)
        end
    end.

(** [try: body / except Exception as e: <log>]: whatever the body raises
    ends there; what the body did to the state stays. *)
Definition try_except_all {S : Type} (body : action S) : action S :=
  fun s => (fst (body s), None).

(** One turn of a loop over points: a record to append, nothing
    ([continue]), or an exception. *)
Definition append_point (step : pyval -> outcome (option EconomicData)) (point : pyval)
  : action (list EconomicData) :=
  fun processed =>
    match step point with
    | Ok (Some economic_data) => ((processed ++ [economic_data])%list, None)
    | Ok None => (processed, None)
    | Raise e => (processed, Some e)
    end.

(** The statements before a loop may raise as well. *)
Definition then_loop {S X : Type} (setup : outcome X) (loop : X -> action S) : action S :=
  fun s =>
    match setup with
    | Ok x => loop x s
    | Raise e => (s, Some e)
    end.

(** [return processed_data], unless an exception came first. *)
Definition result_of (run : list EconomicData * option exn) : outcome (list EconomicData) :=
  match run with
  | (processed_data, None) => Ok processed_data
  | (_, Some e) => Raise e
  end.

(** [{"original_data": point, "processor": ...}] *)
Definition provenance (point : pyval) (processor : string) : pyval :=
  VDict [("original_data", point); ("processor", VStr processor)].

(** ** The Chilean preprocessor ([interfaces/preprocessors/cl_preprocessor.py])

    [indicator_metadata] is what [json.load] read from
    [config/cl_indicator_metadata.json] when the object was built. *)

(** What the body of the metric loop computes before it walks the points. *)
Record series : Type := mkseries {
  s_indicator_id : pyval;
  s_indicator_name : pyval;
  s_unit : pyval;
  s_frequency : pyval;
  s_currency : pyval
}.

(** The statements of the [try] block before the loop over the points. *)
Definition cl_series (indicator_metadata : pyval) (metric_name : string) (data : pyval)
  : outcome (series * pyval) :=
  let* data_points := py_get data "data" (VList []) in
  let* entry := py_get indicator_metadata metric_name (VDict []) in
  let* frequency :=
    py_get_with entry "frequency" (py_get data "frequency" (VStr "monthly")) in
  let* entry' := py_get indicator_metadata metric_name (VDict []) in
  let* unit := py_get_with entry' "unit" (py_get data "units" (VStr "")) in
  let* indicator_info :=
    py_get indicator_metadata metric_name
           (VDict [("id", VStr (upper metric_name));
                   ("name", VStr (capitalize metric_name));
                   ("currency", VNone)]) in
  let* indicator_id := py_get indicator_info "id" (VStr (upper metric_name)) in
  let* indicator_name := py_get indicator_info "name" (VStr (capitalize metric_name)) in
  let* currency := py_get indicator_info "currency" VNone in
  Ok ({| s_indicator_id := indicator_id;
         s_indicator_name := indicator_name;
         s_unit := unit;
         s_frequency := frequency;
         s_currency := currency |}, data_points).

(** [try: ... except ValueError: <warn>; continue] around one parse. *)
Definition or_skip {X : Type} (c : outcome X) (k : X -> outcome (option EconomicData))
  : outcome (option EconomicData) :=
  match c with
  | Ok x => k x
  | Raise ValueError => Ok None
  | Raise e => Raise e
  end.

(** [EconomicData(...)] as the loop builds it. *)
Definition cl_record (country_code : pyval) (s : series) (point : pyval)
           (value : spec_float) (date_obj : pydate) : EconomicData :=
  {| country_code := country_code;
     country_name := VStr "Chile";
     indicator_id := s_indicator_id s;
     indicator_name := s_indicator_name s;
     value := VFloat value;
     date := VDate date_obj;
     unit := s_unit s;
     frequency := s_frequency s;
     source := VStr "Banco Central de Chile";
     revision_number := VInt 0;
     currency := s_currency s;
     metadata := provenance point "ChilePreprocessor" |}.

(** The body of the loop over the points. *)
Definition cl_point (country_code : pyval) (s : series) (point : pyval)
  : outcome (option EconomicData) :=
  let* date_str := py_get point "date" VNone in
  let* value_str := py_get point "value" VNone in
  if negb (truthy date_str) || negb (truthy value_str) then Ok None
  else
    or_skip (py_strptime fmt_iso date_str) (fun date_obj =>
    or_skip (py_float value_str) (fun value =>
    Ok (Some (cl_record country_code s point value date_obj)))).

(** One turn of the loop over [raw_data.items()]. *)
Definition cl_metric (indicator_metadata country_code : pyval) (metric : string * pyval)
  : action (list EconomicData) :=
  try_except_all
    (then_loop (cl_series indicator_metadata (fst metric) (snd metric))
       (fun sp =>
          then_loop (py_iter (snd sp))
            (for_each (append_point (cl_point country_code (fst sp)))))).

(** [cl_preprocessor.process] *)
Definition cl_process (indicator_metadata country_code : pyval) (raw_data : dict)
  : outcome (list EconomicData) :=
  result_of (for_each (cl_metric indicator_metadata country_code) raw_data []).

(** ** The US preprocessor ([interfaces/preprocessors/us_preprocessor.py]) *)

(** The tables set up by [__init__]. *)
Definition us_unit_mapping : dict :=
  [("gdp", VStr "billion USD");
   ("inflation", VStr "%");
   ("unemployment", VStr "%");
   ("interest_rate", VStr "%")].

Definition us_frequency_mapping : dict :=
  [("Monthly", VStr "monthly");
   ("Quarterly", VStr "quarterly");
   ("Annual", VStr "yearly")].

Definition us_indicator_mapping : dict :=
  [("gdp", VDict [("id", VStr "GDP"); ("name", VStr "Gross Domestic Product")]);
   ("inflation", VDict [("id", VStr "CPI"); ("name", VStr "Consumer Price Index")]);
   ("unemployment", VDict [("id", VStr "UNEMP"); ("name", VStr "Unemployment Rate")]);
   ("interest_rate", VDict [("id", VStr "INTRATE"); ("name", VStr "Federal Funds Rate")])].

Definition us_currency_mapping : dict :=
  [("gdp", VStr "USD");
   ("inflation", VNone);
   ("unemployment", VNone);
   ("interest_rate", VNone)].

(** The statements of the [try] block before the loop over the points. *)
Definition us_series (metric_name : string) (data : pyval) : outcome (series * pyval) :=
  let* data_points := py_get data "data" (VList []) in
  let* declared := py_get data "frequency" (VStr "Monthly") in
  let* frequency := lookup_any us_frequency_mapping declared (VStr "monthly") in
  let* units := py_get data "units" (VStr "") in
  let unit := get_default metric_name units us_unit_mapping in
  let indicator_info :=
    get_default metric_name
                (VDict [("id", VStr (upper metric_name));
                        ("name", VStr (capitalize metric_name))])
                us_indicator_mapping in
  let* indicator_id := py_getitem indicator_info "id" in
  let* indicator_name := py_getitem indicator_info "name" in
  let currency := get_default metric_name VNone us_currency_mapping in
  Ok ({| s_indicator_id := indicator_id;
         s_indicator_name := indicator_name;
         s_unit := unit;
         s_frequency := frequency;
         s_currency := currency |}, data_points).

(** The date of a point: with a dash ["%Y-%m-%d"], else ["%Y%m%d"]. *)
Definition us_parse_date (date_str : pyval) : outcome pydate :=
  let* dashed := py_in "-" date_str in
  if dashed then py_strptime fmt_iso date_str
  else py_strptime fmt_compact date_str.

(** [EconomicData(...)] as the loop builds it. *)
Definition us_record (country_code : pyval) (s : series) (point : pyval)
           (value : spec_float) (date_obj : pydate) (revision : pyval) : EconomicData :=
  {| country_code := country_code;
     country_name := VStr "United States";
     indicator_id := s_indicator_id s;
     indicator_name := s_indicator_name s;
     value := VFloat value;
     date := VDate date_obj;
     unit := s_unit s;
     frequency := s_frequency s;
     source := VStr "US Federal Reserve";
     revision_number := revision;
     currency := s_currency s;
     metadata := provenance point "USPreprocessor" |}.

(** The body of the loop over the points. *)
Definition us_point (country_code : pyval) (s : series) (point : pyval)
  : outcome (option EconomicData) :=
  let* date_str := py_get point "date" VNone in
  let* value_str := py_get point "value" VNone in
  let* revision := py_get point "revision" (VInt 0) in
  if negb (truthy date_str) || negb (truthy value_str) then Ok None
  else
    or_skip (us_parse_date date_str) (fun date_obj =>
    or_skip (py_float value_str) (fun value =>
    Ok (Some (us_record country_code s point value date_obj revision)))).

(** One turn of the loop over [raw_data.items()]. *)
Definition us_metric (country_code : pyval) (metric : string * pyval)
  : action (list EconomicData) :=
  try_except_all
    (then_loop (us_series (fst metric) (snd metric))
       (fun sp =>
          then_loop (py_iter (snd sp))
            (for_each (append_point (us_point country_code (fst sp)))))).

(** [us_preprocessor.process] *)
Definition us_process (country_code : pyval) (raw_data : dict)
  : outcome (list EconomicData) :=
  result_of (for_each (us_metric country_code) raw_data []).

(** ** The EU preprocessor ([interfaces/preprocessors/eu_preprocessor.py]) *)

(** The tables set up by [__init__]. *)
Definition eu_unit_mapping : dict :=
  [("gdp", VStr "billion EUR");
   ("inflation", VStr "%");
   ("unemployment", VStr "%");
   ("interest_rate", VStr "%")].

Definition eu_indicator_mapping : dict :=
  [("gdp", VDict [("id", VStr "GDP"); ("name", VStr "Gross Domestic Product")]);
   ("inflation", VDict [("id", VStr "HICP");
                        ("name", VStr "Harmonized Index of Consumer Prices")]);
   ("unemployment", VDict [("id", VStr "UNEMP"); ("name", VStr "Unemployment Rate")]);
   ("interest_rate", VDict [("id", VStr "EURIBOR");
                            ("name", VStr "Euro Interbank Offered Rate")])].

Definition eu_currency_mapping : dict :=
  [("gdp", VStr "EUR");
   ("inflation", VNone);
   ("unemployment", VNone);
   ("interest_rate", VNone)].

Definition eu_column_mappings : dict :=
  [("gdp", VDict [("date_column", VStr "Period"); ("value_column", VStr "Value")]);
   ("inflation", VDict [("date_column", VStr "Time"); ("value_column", VStr "Rate")])].

(** The arguments [process] hands to the two helpers. *)
Record eu_series : Type := mkeu_series {
  e_country_code : pyval;
  e_country_name : pyval;
  e_indicator_id : pyval;
  e_indicator_name : pyval;
  e_metric_name : string;
  e_currency : pyval
}.

(** A quarter, e.g. ["2023Q1"]: the year is the first four characters, the
    quarter what follows the fifth. *)
Definition eu_quarter_date (date_str : string) : outcome pydate :=
  let* year := int_of_string (take 4 date_str) in
  let* quarter := int_of_string (drop 5 date_str) in
  let month := (quarter - 1) * 3 + 1 in
  make_date year month 1.

(** The same on any object: only a string can be sliced into two numbers. *)
Definition py_quarter_date (date_str : pyval) : outcome pydate :=
  match date_str with
  | VStr s => eu_quarter_date s
  | _ => Raise TypeError
  end.

(** The date of a CSV point. *)
Definition eu_csv_date (date_str : pyval) : outcome pydate :=
  let* dashed := py_in "-" date_str in
  if dashed then py_strptime fmt_iso date_str
  else
    let* slashed := py_in "/" date_str in
    if slashed then py_strptime fmt_slashes date_str
    else
      let* quarterly := py_in "Q" date_str in
      if quarterly then py_quarter_date date_str
      else py_strptime fmt_year_month date_str.

(** The date of a table row. *)
Definition eu_table_date (date_str : pyval) : outcome pydate :=
  let* dashed := py_in "-" date_str in
  if dashed then py_strptime fmt_iso date_str
  else
    let* slashed := py_in "/" date_str in
    if slashed then py_strptime fmt_slashes date_str
    else py_strptime fmt_year_month date_str.

(** [value_str.replace(",", "").replace("%", "").strip()] *)
Definition clean_value (value_str : string) : string :=
  strip (remove_char "%" (remove_char "," value_str)).

(** The value of a point: [float(value_str)]; if that is a [ValueError], the
    same on the cleaned string; if that is one too, no value. *)
Definition eu_value (value_str : pyval) : outcome (option spec_float) :=
  match py_float value_str with
  | Ok f => Ok (Some f)
  | Raise ValueError =>
      match value_str with
      | VStr s =>
          match float_of_string (clean_value s) with
          | Ok f => Ok (Some f)
          | Raise ValueError => Ok None
          | Raise e => Raise e
          end
      | _ => Raise AttributeError
      end
  | Raise e => Raise e
  end.

(** [EconomicData(...)] as the two helpers build it. *)
Definition eu_record (s : eu_series) (point : pyval) (value : spec_float)
           (date_obj : pydate) (frequency : string) (revision : pyval) : EconomicData :=
  {| country_code := e_country_code s;
     country_name := e_country_name s;
     indicator_id := e_indicator_id s;
     indicator_name := e_indicator_name s;
     value := VFloat value;
     date := VDate date_obj;
     unit := get_default (e_metric_name s) (VStr "") eu_unit_mapping;
     frequency := VStr frequency;
     source := VStr "European Central Bank";
     revision_number := revision;
     currency := e_currency s;
     metadata := provenance point "EUPreprocessor" |}.

(** The names of the two columns of a metric. *)
Definition eu_columns (metric_name : string) : string * string :=
  match dict_get metric_name eu_column_mappings with
  | Some (VDict m) =>
      (match dict_get "date_column" m with Some (VStr c) => c | _ => "date" end,
       match dict_get "value_column" m with Some (VStr c) => c | _ => "value" end)
  | _ => ("date", "value")
  end.

(** The body of the loop of [_process_csv_data]. *)
Definition eu_csv_point (s : eu_series) (point : pyval) : outcome (option EconomicData) :=
  let (date_col, value_col) := eu_columns (e_metric_name s) in
  let* has_date := py_in date_col point in
  if negb has_date then Ok None
  else
    let* has_value := py_in value_col point in
    if negb has_value then Ok None
    else
      let* date_str := py_getitem point date_col in
      let* value_str := py_getitem point value_col in
      or_skip (eu_csv_date date_str) (fun date_obj =>
      let* parsed_value := eu_value value_str in
      match parsed_value with
      | None => Ok None
      | Some value =>
          let* quarterly := py_in "Q" date_str in
          let frequency := if quarterly then "quarterly" else "monthly" in
          let* revision := py_get point "revision" (VInt 0) in
          Ok (Some (eu_record s point value date_obj frequency revision))
      end).

(** [_process_csv_data]: the records of the points, or the exception that
    one of them raised. *)
Definition _process_csv_data (s : eu_series) (data_points : pyval)
  : outcome (list EconomicData) :=
  result_of (then_loop (py_iter data_points) (for_each (append_point (eu_csv_point s))) []).

(** [any(keyword in key for keyword in keywords)] *)
Definition any_in (keywords : list string) (key : string) : bool :=
  existsb (fun keyword => contains keyword key) keywords.

(** The scan of the cells of a row for its date and its value: the last
    cell of each kind wins. *)
Fixpoint scan_cells (metric_name : string) (cells : dict) (found : pyval * pyval)
  : pyval * pyval :=
  match cells with
  | [] => found
  | (key, val) :: rest =>
      let found' :=
        if any_in ["date"; "period"; "time"] (lower key) then (val, snd found)
        else if any_in ["value"; "rate"; "figure"; lower metric_name] (lower key)
             then (fst found, val)
             else found in
      scan_cells metric_name rest found'
  end.

(** [v.items()] *)
Definition py_items (v : pyval) : outcome dict :=
  match v with
  | VDict d => Ok d
  | _ => Raise AttributeError
  end.

(** The body of the loop of [_process_table_data]. *)
Definition eu_table_point (s : eu_series) (point : pyval) : outcome (option EconomicData) :=
  let* cells := py_items point in
  let (date_str, value_str) := scan_cells (e_metric_name s) cells (VNone, VNone) in
  if negb (truthy date_str) || negb (truthy value_str) then Ok None
  else
    or_skip (eu_table_date date_str) (fun date_obj =>
    let* parsed_value := eu_value value_str in
    match parsed_value with
    | None => Ok None
    | Some value =>
        let* revision := py_get point "revision" (VInt 0) in
        Ok (Some (eu_record s point value date_obj "monthly" revision))
    end).

(** [_process_table_data] *)
Definition _process_table_data (s : eu_series) (data_points : pyval)
  : outcome (list EconomicData) :=
  result_of (then_loop (py_iter data_points) (for_each (append_point (eu_table_point s))) []).

(** [isinstance(v, list)], and the elements of a list. *)
Definition is_list (v : pyval) : bool :=
  match v with
  | VList _ => true
  | _ => false
  end.

Definition list_items (v : pyval) : list pyval :=
  match v with
  | VList l => l
  | _ => []
  end.

(** A list of tables becomes the list of their rows. *)
Definition flatten_tables (data_points : pyval) : pyval :=
  match data_points with
  | VList tables =>
      if forallb is_list tables then VList (flat_map list_items tables)
      else data_points
  | _ => data_points
  end.

(** [processed_data.extend(rows)] when the helper returned. *)
Definition extend_with (rows : outcome (list EconomicData)) : action (list EconomicData) :=
  fun processed_data =>
    match rows with
    | Ok new_rows => ((processed_data ++ new_rows)%list, None)
    | Raise e => (processed_data, Some e)
    end.

(** [self.indicator_mapping.get(metric_name, {...})] *)
Definition eu_indicator (metric_name : string) : pyval :=
  get_default metric_name
              (VDict [("id", VStr (upper metric_name));
                      ("name", VStr (capitalize metric_name))])
              eu_indicator_mapping.

(** The [try] block of the loop over [raw_data.items()]. *)
Definition eu_metric_body (country_code : pyval) (metric_name : string) (data : pyval)
  : action (list EconomicData) :=
  fun processed_data =>
    match py_get data "format" VNone with
    | Raise e => (processed_data, Some e)
    | Ok data_format =>
        match py_get data "data" (VList []) with
        | Raise e => (processed_data, Some e)
        | Ok data_points =>
            if negb (truthy data_points) then (processed_data, None)
            else
              let indicator_info := eu_indicator metric_name in
              match py_getitem indicator_info "id", py_getitem indicator_info "name" with
              | Ok indicator_id, Ok indicator_name =>
                  let s := {| e_country_code := country_code;
                              e_country_name := VStr "European Union";
                              e_indicator_id := indicator_id;
                              e_indicator_name := indicator_name;
                              e_metric_name := metric_name;
                              e_currency := get_default metric_name VNone eu_currency_mapping |} in
                  if is_str "csv" data_format then
                    extend_with (_process_csv_data s data_points) processed_data
                  else if is_str "html_table" data_format then
                    extend_with (_process_table_data s (flatten_tables data_points))
                                processed_data
                  else (processed_data, None)
              | Raise e, _ => (processed_data, Some e)
              | _, Raise e => (processed_data, Some e)
              end
        end
    end.

(** One turn of that loop. *)
Definition eu_metric (country_code : pyval) (metric : string * pyval)
  : action (list EconomicData) :=
  try_except_all (eu_metric_body country_code (fst metric) (snd metric)).

(** [eu_preprocessor.process] *)
Definition eu_process (country_code : pyval) (raw_data : dict)
  : outcome (list EconomicData) :=
  result_of (for_each (eu_metric country_code) raw_data []).

(** ** The use cases ([use_cases/*.py]) and the menu ([main.py]) *)

(** [PreprocessDataUseCase.execute]: the call of [process] of the
    preprocessor it was built with; an exception is logged and raised
    again. *)
Definition preprocess_data_execute
           (process : pyval -> dict -> outcome (list EconomicData))
           (country_code : pyval) (raw_data : dict) : outcome (list EconomicData) :=
  match process country_code raw_data with
  | Ok processed_data => Ok processed_data
  | Raise e => Raise e
  end.

(** [UploadToDatabaseUseCase.execute]: nothing to upload is [False]; else
    the call of [upload] of the uploader it was built with, an exception
    logged and raised again. *)
Definition upload_to_database_execute {backend : Type}
           (upload : list EconomicData -> backend -> outcome bool * backend)
           (data : list EconomicData) (b : backend) : outcome bool * backend :=
  match data with
  | [] => (Ok false, b)
  | _ =>
      match upload data b with
      | (Ok result, b') => (Ok result, b')
      | (Raise e, b') => (Raise e, b')
      end
  end.

(** [GenerateIndicatorTableUseCase.execute] *)
Definition generate_indicator_table_execute (country_code keyword : string) (db : database)
  : outcome (list EconomicData) :=
  get_latest_by_indicator_name country_code keyword db.

(** [SQLiteUploader._ensure_table], run when the uploader is built: one
    [CREATE TABLE IF NOT EXISTS] on a connection of its own.  The table is
    taken to exist, so the statement changes no row. *)
Definition _ensure_table (db : database) : database :=
  snd (with_connection db
         (fun conn =>
            (Ok tt, {| file := record_event Executed (file conn);
                       pending := pending conn |}))).

(** What the menu prints at the end of option 1. *)
Inductive message : Type :=
| DataUploaded
| NoDataUploaded
| ErrorInPipeline (e : exn).

Section Menu.

Variable repr_of : pyval -> string.

(** Option 1 of [country_menu] from the fetched payload on: preprocess,
    build the relational uploader, upload, report. *)
Definition store_payload (process : pyval -> dict -> outcome (list EconomicData))
           (country_code : string) (raw_data : dict) (db : database)
  : message * database :=
  match preprocess_data_execute process (VStr country_code) raw_data with
  | Raise e => (ErrorInPipeline e, db)
  | Ok processed_data =>
      match upload_to_database_execute (sqlite_upload repr_of) processed_data
                                       (_ensure_table db) with
      | (Ok true, db') => (DataUploaded, db')
      | (Ok false, db') => (NoDataUploaded, db')
      | (Raise e, db') => (ErrorInPipeline e, db')
      end
  end.

End Menu.

(** * Vocabulary of the statements

    Predicates the theorems are stated with, and the data of their
    examples.  Nothing below is part of the program. *)

Local Open Scope list_scope.

(** ** The mapper *)

Definition same_standard_fields (a b : EconomicData) : Prop :=
  country_code a = country_code b /\ country_name a = country_name b /\
  indicator_id a = indicator_id b /\ indicator_name a = indicator_name b /\
  value a = value b /\ date a = date b /\ unit a = unit b /\
  frequency a = frequency b /\ source a = source b /\
  revision_number a = revision_number b /\ currency a = currency b.

(** US GDP on 2024-01-15, value 1.0, with the metadata given. *)
Definition sample_record (meta : pyval) : EconomicData :=
  {| country_code := VStr "US";
     country_name := VStr "United States";
     indicator_id := VStr "GDP";
     indicator_name := VStr "Gross Domestic Product";
     value := VFloat (S754_finite false 4503599627370496 (-52));
     date := VDate (mkdate 2024 1 15);
     frequency := VStr "quarterly";
     unit := VStr "billion USD";
     source := VStr "US Federal Reserve";
     revision_number := VInt 0;
     currency := VStr "USD";
     metadata := meta |}.

(** A rendering for the examples, none of which formats a float or a
    container. *)
Definition no_repr : pyval -> string := fun _ => "".

(** ** The uploaders *)

(** The batches [upload] cuts a list of items into. *)
Definition chunks (items : list dict) : list (list dict) :=
  map (fun i => slice items i (i + batch_size))
      (py_range (List.length items) batch_size).

(** A remote table that takes every batch. *)
Definition always_written : list dict -> Datatypes.unit -> Datatypes.unit * option exn :=
  fun _ t => (t, None).

Definition execute_all (rows : list EconomicRow.t) (conn : connection) : connection :=
  fold_left (fun c r => execute_insert r c) rows conn.

Definition insert_all (rows table : list EconomicRow.t) : list EconomicRow.t :=
  fold_left (fun t r => insert_or_replace r t) rows table.

(** A record [sqlite3] refuses: its revision number does not fit 64 bits. *)
Definition overflowing_record : EconomicData :=
  {| country_code := VStr "US";
     country_name := VStr "United States";
     indicator_id := VStr "CPI";
     indicator_name := VStr "Consumer Price Index";
     value := VFloat (S754_finite false 4503599627370496 (-52));
     date := VDate (mkdate 2024 2 1);
     frequency := VStr "monthly";
     unit := VStr "%";
     source := VStr "US Federal Reserve";
     revision_number := VInt 9223372036854775808;
     currency := VNone;
     metadata := VNone |}.

(** A record whose value is a NaN. *)
Definition nan_record : EconomicData :=
  {| country_code := VStr "US";
     country_name := VStr "United States";
     indicator_id := VStr "GNI";
     indicator_name := VStr "Gross National Income";
     value := VFloat S754_nan;
     date := VDate (mkdate 2024 1 15);
     frequency := VStr "quarterly";
     unit := VStr "billion USD";
     source := VStr "US Federal Reserve";
     revision_number := VInt 0;
     currency := VStr "USD";
     metadata := VNone |}.

Definition empty_db : database := {| stored := []; journal := [] |}.

(** ** The read path *)

(** Neither [%] nor [_] occurs in the text. *)
Fixpoint no_wildcard (s : string) : bool :=
  match s with
  | EmptyString => true
  | String c rest =>
      negb (Ascii.eqb c "%") && negb (Ascii.eqb c "_") && no_wildcard rest
  end.

(** No NUL character in the text: the engine reads a text up to its first
    NUL. *)
Fixpoint nul_free (s : string) : bool :=
  match s with
  | EmptyString => true
  | String c rest => negb (Ascii.eqb c "000") && nul_free rest
  end.

(** The name of the row, when it is a text, has no NUL. *)
Definition plainly_named (row : EconomicRow.t) : Prop :=
  forall name, EconomicRow.indicator_name row = SText name -> nul_free name = true.

(** Every character is its own lower case. *)
Fixpoint lowered (s : string) : bool :=
  match s with
  | EmptyString => true
  | String c rest => Ascii.eqb (lower_char c) c && lowered rest
  end.

(** [row] is the first row of its indicator in [scan]. *)
Definition first_of_indicator (scan : list EconomicRow.t) (row : EconomicRow.t) : Prop :=
  exists pre post,
    scan = pre ++ row :: post /\
    forall r', In r' pre ->
               same_dict_key (EconomicRow.indicator_id r') (EconomicRow.indicator_id row)
               = false.

(** The calendar order of two dates: [a] is [b] or before it. *)
Definition not_after (a b : pydate) : bool :=
  (year a <? year b)
  || ((year a =? year b)
      && ((month a <? month b) || ((month a =? month b) && (day a <=? day b)))).

(** No two entries share a key. *)
Definition distinct_keys (results : list (sqlval * EconomicData)) : Prop :=
  ForallOrdPairs (fun a b => same_dict_key (fst a) (fst b) = false) results.

(** The place of a record's value on the number line. *)
Definition value_rank (r : EconomicData) : xnum :=
  match value r with
  | VFloat f => xnum_of_float f
  | VInt z => XFin (inject_Z z)
  | _ => XFin (inject_Z 0)
  end.

(** [a] does not come after [b] when sorted by value, largest first. *)
Definition value_ge (a b : EconomicData) : bool := xle (value_rank b) (value_rank a).

(** The [value] column of the row holds a REAL. *)
Definition real_valued (row : EconomicRow.t) : Prop :=
  exists f, EconomicRow.value row = SReal f /\ float_is_nan f = false.

(** The dictionary [results] at the end of the loop over the cursor. *)
Definition latest_results (country_code keyword : string) (db : database)
  : list (sqlval * EconomicData) :=
  collect_first (run_query country_code keyword db) [].

(** A row of US trade data. *)
Definition trade_row (id name day : string) (v : Z) : EconomicRow.t :=
  {| EconomicRow.pk := SText "COUNTRY#US";
     EconomicRow.sk := SText ("INDICATOR#" ++ id ++ "#" ++ day);
     EconomicRow.country_code := SText "US";
     EconomicRow.country_name := SText "United States";
     EconomicRow.indicator_id := SText id;
     EconomicRow.indicator_name := SText name;
     EconomicRow.frequency := SText "monthly";
     EconomicRow.date := SText day;
     EconomicRow.value := SReal (float_of_Z v);
     EconomicRow.unit := SText "billion USD";
     EconomicRow.source := SText "US Federal Reserve";
     EconomicRow.revision_number := SInteger 0;
     EconomicRow.currency := SText "USD" |}.

(** Imports in January (10) and February (20), exports (50). *)
Definition trade_db : database :=
  {| stored := [trade_row "imports" "Imports" "2024-01-01" 10;
                trade_row "imports" "Imports" "2024-02-01" 20;
                trade_row "exports" "Exports" "2024-01-15" 50];
     journal := [] |}.

(** ** The preprocessors *)

(** The record made from a point names the point, and carries the date and
    the value read from it. *)
Definition made_from (r : EconomicData) (point : pyval) (processor : string)
           (dt : pydate) (f : spec_float) : Prop :=
  metadata r = provenance point processor /\ date r = VDate dt /\ value r = VFloat f.

(** The value the EU variant reads: [float] of the text, or of the cleaned
    text when the first attempt is a [ValueError]. *)
Definition eu_reads (value_str : pyval) (f : spec_float) : Prop :=
  py_float value_str = Ok f \/
  exists s, value_str = VStr s /\ float_of_string s = Raise ValueError /\
            float_of_string (clean_value s) = Ok f.

(** The same as a function of the text. *)
Definition eu_value_of_text (vs : string) : option spec_float :=
  match float_of_string vs with
  | Ok f => Some f
  | Raise _ =>
      match float_of_string (clean_value vs) with
      | Ok f => Some f
      | Raise _ => None
      end
  end.

Definition entries (v : pyval) : dict :=
  match v with
  | VDict d => d
  | _ => []
  end.

(** The arguments [process] of the EU variant hands to its helpers for a
    metric. *)
Definition eu_series_of (country_code : pyval) (metric_name : string) : eu_series :=
  {| e_country_code := country_code;
     e_country_name := VStr "European Union";
     e_indicator_id := get_default "id" VNone (entries (eu_indicator metric_name));
     e_indicator_name := get_default "name" VNone (entries (eu_indicator metric_name));
     e_metric_name := metric_name;
     e_currency := get_default metric_name VNone eu_currency_mapping |}.

(** A point as the API sources give it, a payload of one metric, a row of a
    scraped table. *)
Definition raw_point (date_value value_value : pyval) : pyval :=
  VDict [("date", date_value); ("value", value_value)].

Definition one_metric (metric_name : string) (points : list pyval) : dict :=
  [(metric_name, VDict [("data", VList points)])].

Definition one_eu_metric (metric_name format : string) (points : list pyval) : dict :=
  [(metric_name, VDict [("format", VStr format); ("data", VList points)])].

Definition table_row (date_value value_value : pyval) : pyval :=
  VDict [("Date", date_value); ("Value", value_value)].

Definition plain_series : series :=
  mkseries (VStr "GDP") (VStr "Gdp") (VStr "") (VStr "monthly") VNone.

(** The float 1234.5. *)
Definition f1234_5 : spec_float := S754_finite false 5429388417957888 (-42).

(** ** More on the mapper *)

(** A record with nothing but the defaults [from_db_item] falls back on,
    and the attributes given as metadata. *)
Definition default_record (attributes : dict) : EconomicData :=
  {| country_code := VNone;
     country_name := VNone;
     indicator_id := VNone;
     indicator_name := VNone;
     value := VFloat (S754_zero false);
     date := VDate (mkdate 2000 1 1);
     frequency := VStr "monthly";
     unit := VStr "";
     source := VStr "";
     revision_number := VNone;
     currency := VNone;
     metadata := VDict attributes |}.

(** The attributes of an item that [from_db_item] never reads when the item
    has a text date. *)
Definition unread_attributes : list string := ["PK"; "SK"; "year"; "month"; "day"].

(** ** More on the relational backend *)

(** No two rows of the table share a primary key. *)
Definition keys_distinct (table : list EconomicRow.t) : Prop :=
  ForallOrdPairs (fun a b => same_key a b = false) table.

(** No row of [rows] has the key of [q]. *)
Definition key_free (q : EconomicRow.t) (rows : list EconomicRow.t) : Prop :=
  Forall (fun r => same_key q r = false) rows.

(** [q] is in [rows], and no row after it has its key. *)
Definition last_of_key (q : EconomicRow.t) (rows : list EconomicRow.t) : Prop :=
  exists pre post, rows = pre ++ q :: post /\ key_free q post.

(** ** Records as the annotations of the dataclass describe them *)

(** A [str]; a [str] or [None]; an [int] that fits a column, or [None]. *)
Definition is_text (v : pyval) : bool :=
  match v with
  | VStr _ => true
  | _ => false
  end.

Definition is_optional_text (v : pyval) : bool :=
  match v with
  | VStr _ => true
  | VNone => true
  | _ => false
  end.

Definition is_optional_int64 (v : pyval) : bool :=
  match v with
  | VInt z => fits_int64 z
  | VNone => true
  | _ => false
  end.

(** A [float] a REAL column gives back as it was: a NaN is stored as NULL,
    and the sign of a negative zero is not kept. *)
Definition is_kept_float (v : pyval) : bool :=
  match v with
  | VFloat S754_nan => false
  | VFloat (S754_zero true) => false
  | VFloat _ => true
  | _ => false
  end.

(** A [date] of the calendar. *)
Definition is_calendar_date (v : pyval) : bool :=
  match v with
  | VDate d => valid_date d
  | _ => false
  end.

(** Every field holds what its annotation says, in a form the table
    keeps. *)
Definition storable (r : EconomicData) : bool :=
  is_text (country_code r) && is_text (country_name r)
  && is_text (indicator_id r) && is_text (indicator_name r)
  && is_kept_float (value r) && is_calendar_date (date r)
  && is_text (frequency r) && is_text (unit r) && is_text (source r)
  && is_optional_int64 (revision_number r) && is_optional_text (currency r).

(** The record as the repository returns it: the date is the ISO text, the
    metadata is gone. *)
Definition read_back (r : EconomicData) : EconomicData :=
  {| country_code := country_code r;
     country_name := country_name r;
     indicator_id := indicator_id r;
     indicator_name := indicator_name r;
     value := value r;
     date := match date r with
             | VDate d => VStr (isoformat d)
             | v => v
             end;
     frequency := frequency r;
     unit := unit r;
     source := source r;
     revision_number := revision_number r;
     currency := currency r;
     metadata := VNone |}.

(** Text of the ASCII range without the NUL character, on which the case
    mapping and the LIKE of the engine are the ones modelled. *)
Fixpoint ascii_text (s : string) : bool :=
  match s with
  | EmptyString => true
  | String c rest =>
      (1 <=? nat_of_ascii c)%nat && (nat_of_ascii c <=? 127)%nat && ascii_text rest
  end.

(** ** More on the preprocessors *)

(** The records a loop over points appends, up to the point that raises,
    if one does. *)
Definition records_of (step : pyval -> outcome (option EconomicData))
           (points : list pyval) : list EconomicData :=
  fst (for_each (append_point step) points []).

(** The records one metric of a payload contributes. *)
Definition cl_records (indicator_metadata country_code : pyval) (metric : string * pyval)
  : list EconomicData :=
  fst (cl_metric indicator_metadata country_code metric []).

Definition us_records (country_code : pyval) (metric : string * pyval)
  : list EconomicData :=
  fst (us_metric country_code metric []).

Definition eu_records (country_code : pyval) (metric : string * pyval)
  : list EconomicData :=
  fst (eu_metric country_code metric []).

(** What every record of a variant carries: a date of the calendar, a
    float, the country code [process] was given, the name of the country
    and of the source, and the point it was made from. *)
Definition stamped (r : EconomicData) (code : pyval) (country origin processor : string)
  : Prop :=
  exists dt f point,
    date r = VDate dt /\ valid_date dt = true /\
    value r = VFloat f /\
    country_code r = code /\
    country_name r = VStr country /\
    source r = VStr origin /\
    metadata r = provenance point processor.

(** The point has a text under ["date"] and a text under ["value"]. *)
Definition has_text_cells (d : dict) : Prop :=
  exists ds vs, dict_get "date" d = Some (VStr ds) /\ dict_get "value" d = Some (VStr vs).

(** The date and the value read from such a point, when both parse. *)
Definition parsed_cells (parse_date : pyval -> outcome pydate) (d : dict)
  : option (pydate * spec_float) :=
  match dict_get "date" d, dict_get "value" d with
  | Some (VStr ds), Some (VStr vs) =>
      match parse_date (VStr ds), float_of_string vs with
      | Ok dt, Ok f => Some (dt, f)
      | _, _ => None
      end
  | _, _ => None
  end.

(** The records of a list of points, each point on its own. *)
Definition cl_records_of_points (country_code : pyval) (s : series) (points : list dict)
  : list EconomicData :=
  flat_map (fun d =>
              match parsed_cells (py_strptime fmt_iso) d with
              | Some (dt, f) => [cl_record country_code s (VDict d) f dt]
              | None => []
              end) points.

Definition us_records_of_points (country_code : pyval) (s : series) (points : list dict)
  : list EconomicData :=
  flat_map (fun d =>
              match parsed_cells us_parse_date d with
              | Some (dt, f) =>
                  [us_record country_code s (VDict d) f dt
                             (get_default "revision" (VInt 0) d)]
              | None => []
              end) points.

(** A column heading that names a date, and one that names a value: the
    test for a date comes first. *)
Definition date_heading (key : string) : bool :=
  any_in ["date"; "period"; "time"] (lower key).

Definition value_heading (metric_name key : string) : bool :=
  negb (date_heading key)
  && any_in ["value"; "rate"; "figure"; lower metric_name] (lower key).

(** The cells of a row under the headings of a kind, in order. *)
Definition cells_under (heading : string -> bool) (cells : dict) : list pyval :=
  map snd (filter (fun kv => heading (fst kv)) cells).

(** ** The texts of a date *)

(** A date written as each accepted format expects it, with leading
    zeros: ["%Y%m%d"], ["%d/%m/%Y"] and ["%Y%m"]. *)
Definition compact_text (d : pydate) : string :=
  pad4 (year d) ++ pad2 (month d) ++ pad2 (day d).

Definition slashed_text (d : pydate) : string :=
  pad2 (day d) ++ "/" ++ pad2 (month d) ++ "/" ++ pad4 (year d).

Definition month_text (d : pydate) : string :=
  pad4 (year d) ++ pad2 (month d).

(** The first day of the month of a date. *)
Definition first_of_month (d : pydate) : pydate := mkdate (year d) (month d) 1.

(** A quarter as the EU sources write it, e.g. ["2023Q1"]. *)
Definition quarter_text (y q : Z) : string :=
  pad4 y ++ "Q" ++ String (digit_of q) EmptyString.

(** The character occurs in the text. *)
Fixpoint has_char (c : ascii) (s : string) : bool :=
  match s with
  | EmptyString => false
  | String d rest => Ascii.eqb c d || has_char c rest
  end.

(** Every character is a decimal digit. *)
Fixpoint all_digits (s : string) : bool :=
  match s with
  | EmptyString => true
  | String c rest => is_digit c && all_digits rest
  end.

(** The name of the record is a text that contains the keyword, letter
    case apart. *)
Definition named_like (keyword : string) (r : EconomicData) : Prop :=
  exists name,
    indicator_name r = VStr name /\ ascii_text name = true /\
    contains (lower keyword) (lower name) = true.

(** US GDP on 2024-04-15, value 1.5. *)
Definition later_record : EconomicData :=
  {| country_code := VStr "US";
     country_name := VStr "United States";
     indicator_id := VStr "GDP";
     indicator_name := VStr "Gross Domestic Product";
     value := VFloat (S754_finite false 6755399441055744 (-52));
     date := VDate (mkdate 2024 4 15);
     frequency := VStr "quarterly";
     unit := VStr "billion USD";
     source := VStr "US Federal Reserve";
     revision_number := VInt 1;
     currency := VStr "USD";
     metadata := VNone |}.
(** * Properties *)

(** ** Dates and their ISO text *)

Lemma is_digit_digit_of (z : Z) : is_digit (digit_of z) = true.
Proof.
  unfold is_digit, digit_of, digit_char.
  assert (H : (Z.to_nat (z mod 10) < 10)%nat).
  { pose proof (Z.mod_pos_bound z 10 ltac:(lia)). lia. }
  rewrite nat_ascii_embedding by lia.
  apply andb_true_intro; split; apply Nat.leb_le; lia.
Qed.

Lemma digit_val_digit_of (z : Z) : digit_val (digit_of z) = z mod 10.
Proof.
  unfold digit_val, digit_of, digit_char.
  pose proof (Z.mod_pos_bound z 10 ltac:(lia)).
  rewrite nat_ascii_embedding by lia.
  lia.
Qed.

Lemma num2_pad (z : Z) :
  0 <= z < 100 -> num2 (digit_of (z / 10)) (digit_of z) = z.
Proof.
  intros Hz. unfold num2. rewrite !digit_val_digit_of.
  rewrite (Z.mod_small (z / 10) 10).
  - pose proof (Z.div_mod z 10 ltac:(lia)). lia.
  - split; [apply Z.div_pos; lia | apply Z.div_lt_upper_bound; lia].
Qed.

Lemma num4_pad (z : Z) :
  0 <= z < 10000 ->
  num4 (digit_of (z / 1000)) (digit_of (z / 100)) (digit_of (z / 10)) (digit_of z) = z.
Proof.
  intros Hz. unfold num4, num2. rewrite !digit_val_digit_of.
  assert (E1 : z / 1000 = z / 10 / 10 / 10) by (rewrite !Z.div_div by lia; reflexivity).
  assert (E2 : z / 100 = z / 10 / 10) by (rewrite !Z.div_div by lia; reflexivity).
  rewrite E1, E2.
  assert (z / 10 / 10 / 10 < 10).
  { rewrite <- E1. apply Z.div_lt_upper_bound; lia. }
  assert (0 <= z / 10 / 10 / 10).
  { rewrite <- E1. apply Z.div_pos; lia. }
  rewrite (Z.mod_small (z / 10 / 10 / 10) 10) by lia.
  pose proof (Z.div_mod z 10 ltac:(lia)).
  pose proof (Z.div_mod (z / 10) 10 ltac:(lia)).
  pose proof (Z.div_mod (z / 10 / 10) 10 ltac:(lia)).
  lia.
Qed.

Lemma days_in_month_le (y m : Z) : days_in_month y m <= 31.
Proof.
  unfold days_in_month.
  destruct (m =? 2); [destruct (is_leap y); lia|].
  destruct ((m =? 4) || (m =? 6) || (m =? 9) || (m =? 11)); lia.
Qed.

(** The digits of a number of at most two, or four, places. *)
Lemma two_digits (z : Z) :
  0 <= z < 100 ->
  z = 10 * ((z / 10) mod 10) + z mod 10 /\
  0 <= (z / 10) mod 10 < 10 /\ 0 <= z mod 10 < 10.
Proof.
  intros Hz.
  rewrite (Z.mod_small (z / 10) 10)
    by (split; [apply Z.div_pos; lia | apply Z.div_lt_upper_bound; lia]).
  pose proof (Z.div_mod z 10 ltac:(lia)).
  pose proof (Z.mod_pos_bound z 10 ltac:(lia)).
  lia.
Qed.

Lemma four_digits_of (z : Z) :
  0 <= z < 10000 ->
  z = 1000 * ((z / 1000) mod 10) + 100 * ((z / 100) mod 10)
      + 10 * ((z / 10) mod 10) + z mod 10 /\
  0 <= (z / 1000) mod 10 < 10 /\ 0 <= (z / 100) mod 10 < 10 /\
  0 <= (z / 10) mod 10 < 10 /\ 0 <= z mod 10 < 10.
Proof.
  intros Hz.
  assert (E1 : z / 1000 = z / 10 / 10 / 10) by (rewrite !Z.div_div by lia; reflexivity).
  assert (E2 : z / 100 = z / 10 / 10) by (rewrite !Z.div_div by lia; reflexivity).
  rewrite E1, E2.
  assert (z / 10 / 10 / 10 < 10).
  { rewrite <- E1. apply Z.div_lt_upper_bound; lia. }
  assert (0 <= z / 10 / 10 / 10).
  { rewrite <- E1. apply Z.div_pos; lia. }
  rewrite (Z.mod_small (z / 10 / 10 / 10) 10) by lia.
  pose proof (Z.div_mod z 10 ltac:(lia)).
  pose proof (Z.div_mod (z / 10) 10 ltac:(lia)).
  pose proof (Z.div_mod (z / 10 / 10) 10 ltac:(lia)).
  pose proof (Z.mod_pos_bound z 10 ltac:(lia)).
  pose proof (Z.mod_pos_bound (z / 10) 10 ltac:(lia)).
  pose proof (Z.mod_pos_bound (z / 10 / 10) 10 ltac:(lia)).
  lia.
Qed.

(** Digit characters compare as the digits do. *)
Lemma digit_of_compare (x y : Z) :
  Ascii.compare (digit_of x) (digit_of y) = (x mod 10 ?= y mod 10).
Proof.
  unfold Ascii.compare, digit_of, digit_char, ascii_of_nat.
  pose proof (Z.mod_pos_bound x 10 ltac:(lia)).
  pose proof (Z.mod_pos_bound y 10 ltac:(lia)).
  rewrite !N_ascii_embedding by lia.
  rewrite <- N2Z.inj_compare. rewrite !nat_N_Z, !Nat2Z.inj_add, !Z2Nat.id by lia.
  apply Z.add_compare_mono_l.
Qed.

Lemma valid_date_bounds (d : pydate) :
  valid_date d = true ->
  0 <= year d < 10000 /\ 0 <= month d < 100 /\ 0 <= day d < 100.
Proof.
  unfold valid_date, valid_ymd. intros H.
  pose proof (days_in_month_le (year d) (month d)).
  repeat (apply andb_prop in H; destruct H as [H ?]). lia.
Qed.

(** The ISO texts of two dates compare, byte by byte, as the dates do on
    the calendar. *)
Lemma isoformat_order (a b : pydate) :
  valid_date a = true -> valid_date b = true ->
  String.leb (isoformat a) (isoformat b) = not_after a b.
Proof.
  intros Ha Hb.
  destruct (valid_date_bounds a Ha) as (Hya & Hma & Hda).
  destruct (valid_date_bounds b Hb) as (Hyb & Hmb & Hdb).
  destruct (four_digits_of _ Hya) as (Eya & ? & ? & ? & ?).
  destruct (four_digits_of _ Hyb) as (Eyb & ? & ? & ? & ?).
  destruct (two_digits _ Hma) as (Ema & ? & ?).
  destruct (two_digits _ Hmb) as (Emb & ? & ?).
  destruct (two_digits _ Hda) as (Eda & ? & ?).
  destruct (two_digits _ Hdb) as (Edb & ? & ?).
  unfold String.leb, isoformat, pad4, pad2.
  cbn [append String.compare].
  rewrite !digit_of_compare.
  change (Ascii.compare "-" "-") with Eq. cbn iota.
  unfold not_after.
  repeat match goal with
  | |- context [match (?x ?= ?y) with _ => _ end] =>
      destruct (Z.compare_spec x y); cbn iota
  end;
  repeat match goal with
  | |- context [?x <? ?y] => destruct (Z.ltb_spec x y)
  | |- context [?x =? ?y] => destruct (Z.eqb_spec x y)
  | |- context [?x <=? ?y] => destruct (Z.leb_spec x y)
  end; cbn [orb andb]; try reflexivity; exfalso; lia.
Qed.

Lemma valid_ymd_bounds (y m d : Z) :
  valid_ymd y m d = true -> 1 <= y <= 9999 /\ 1 <= m <= 12 /\ 1 <= d <= 31.
Proof.
  unfold valid_ymd. intros H.
  repeat (apply andb_prop in H; destruct H as [H ?]).
  pose proof (days_in_month_le y m).
  repeat match goal with
         | E : (_ <=? _) = true |- _ => apply Z.leb_le in E
         end.
  lia.
Qed.

Lemma fromisoformat_isoformat (d : pydate) :
  valid_date d = true -> fromisoformat (isoformat d) = Ok d.
Proof.
  destruct d as [y m dd]. unfold valid_date. cbn [year month day]. intros Hv.
  destruct (valid_ymd_bounds _ _ _ Hv) as (Hy & Hm & Hd).
  unfold isoformat, pad4, pad2. cbn [year month day append].
  unfold fromisoformat.
  cbn [forallb]. rewrite !is_digit_digit_of. cbn [andb Ascii.eqb Bool.eqb].
  rewrite num4_pad by lia. rewrite !num2_pad by lia.
  rewrite Hv. reflexivity.
Qed.

(** ** Dictionaries *)

Lemma dict_set_app_fresh (k : string) (v : pyval) (b e : dict) :
  ~ In k (keys b) -> dict_set k v (b ++ e) = b ++ dict_set k v e.
Proof.
  induction b as [|[k' v'] b IH]; intros Hk; cbn [app dict_set]; [reflexivity|].
  destruct (String.eqb_spec k k') as [->|Hne].
  - exfalso. apply Hk. now left.
  - f_equal. apply IH. intros Hin. apply Hk. now right.
Qed.

Lemma dict_update_app_fresh (b acc m : dict) :
  Forall (fun k => ~ In k (keys b)) (keys m) ->
  dict_update (b ++ acc) m = b ++ dict_update acc m.
Proof.
  revert acc. induction m as [|[k v] m IH]; intros acc Hm; [reflexivity|].
  inversion Hm as [|? ? Hk Hrest]; subst.
  unfold dict_update in *. cbn [fold_left fst snd].
  rewrite dict_set_app_fresh by exact Hk. now apply IH.
Qed.

Lemma dict_set_fresh (k : string) (v : pyval) (d : dict) :
  ~ In k (keys d) -> dict_set k v d = d ++ [(k, v)].
Proof.
  intros Hk. rewrite <- (app_nil_r d) at 1.
  now rewrite dict_set_app_fresh.
Qed.

Lemma dict_update_nodup (acc m : dict) :
  NoDup (keys acc ++ keys m) -> dict_update acc m = acc ++ m.
Proof.
  revert acc. induction m as [|[k v] m IH]; intros acc Hnd.
  - cbn. now rewrite app_nil_r.
  - unfold dict_update in *. cbn [fold_left fst snd].
    cbn [keys map fst] in Hnd.
    rewrite dict_set_fresh.
    + rewrite IH.
      * now rewrite <- app_assoc.
      * unfold keys. rewrite map_app. cbn [map fst].
        rewrite <- app_assoc. exact Hnd.
    + apply NoDup_remove_2 in Hnd. intros Hin. apply Hnd.
      apply in_or_app. now left.
Qed.

Lemma extra_attributes_all (d : dict) :
  Forall (fun k => is_standard k = false) (keys d) -> extra_attributes d = d.
Proof.
  induction d as [|[k v] d IH]; intros H; [reflexivity|].
  inversion H as [|? ? Hk Hrest]; subst.
  unfold extra_attributes in *. cbn [filter fst]. rewrite Hk. cbn [negb].
  f_equal. now apply IH.
Qed.

Lemma extra_attributes_app (a b : dict) :
  extra_attributes (a ++ b) = extra_attributes a ++ extra_attributes b.
Proof. unfold extra_attributes. apply filter_app. Qed.

Lemma is_standard_false_not_in (k : string) :
  is_standard k = false -> ~ In k standard_fields.
Proof.
  unfold is_standard. intros H Hin.
  assert (existsb (String.eqb k) standard_fields = true); [|congruence].
  apply existsb_exists. exists k. split; [exact Hin|apply String.eqb_refl].
Qed.

(** The item of a record whose extra attributes avoid the standard names:
    the sixteen standard attributes, then the extra ones. *)
Lemma to_db_item_shape (repr_of : pyval -> string) (r : EconomicData)
      (d : pydate) (extra : dict) :
  date r = VDate d ->
  metadata_mapping (metadata r) = Ok extra ->
  Forall (fun k => is_standard k = false) (keys extra) ->
  to_db_item repr_of r =
  Ok ([("PK", VStr ("COUNTRY#" ++ py_str repr_of (country_code r))%string);
       ("SK", VStr ("INDICATOR#" ++ py_str repr_of (indicator_id r) ++ "#"
                    ++ isoformat d)%string);
       ("country_code", country_code r);
       ("country_name", country_name r);
       ("indicator_id", indicator_id r);
       ("indicator_name", indicator_name r);
       ("value", value r);
       ("date", VStr (isoformat d));
       ("unit", unit r);
       ("frequency", frequency r);
       ("source", source r);
       ("year", VInt (year d));
       ("month", VInt (month d));
       ("day", VInt (day d));
       ("revision_number", revision_number r);
       ("currency", currency r)] ++ dict_update [] extra).
Proof.
  intros Hd Hm Hex. unfold to_db_item. rewrite Hd, Hm. cbn [_format_date date_part bind].
  f_equal.
  match goal with
  | |- dict_update ?b _ = _ => rewrite <- (app_nil_r b) at 1
  end.
  apply dict_update_app_fresh.
  eapply Forall_impl; [|exact Hex].
  intros k Hk. apply is_standard_false_not_in. exact Hk.
Qed.

(** ** Round trip through the mapper *)

Lemma from_db_item_of_shape (base_pk base_sk : pyval) (r : EconomicData)
      (d : pydate) (rest : dict) :
  valid_date d = true ->
  from_db_item
    ([("PK", base_pk); ("SK", base_sk);
      ("country_code", country_code r);
      ("country_name", country_name r);
      ("indicator_id", indicator_id r);
      ("indicator_name", indicator_name r);
      ("value", value r);
      ("date", VStr (isoformat d));
      ("unit", unit r);
      ("frequency", frequency r);
      ("source", source r);
      ("year", VInt (year d));
      ("month", VInt (month d));
      ("day", VInt (day d));
      ("revision_number", revision_number r);
      ("currency", currency r)] ++ rest) =
  Ok {| country_code := country_code r;
        country_name := country_name r;
        indicator_id := indicator_id r;
        indicator_name := indicator_name r;
        value := value r;
        date := VDate d;
        unit := unit r;
        frequency := frequency r;
        source := source r;
        revision_number := revision_number r;
        currency := currency r;
        metadata := VDict (extra_attributes rest) |}.
Proof.
  intros Hv. unfold from_db_item. rewrite extra_attributes_app.
  unfold item_date, _parse_date.
  cbn [app dict_get String.eqb Ascii.eqb Bool.eqb].
  rewrite (fromisoformat_isoformat d Hv). cbn [bind].
  reflexivity.
Qed.

(** C1, as amended.  For every record [r] whose date is a valid calendar
    date and whose metadata is absent or a mapping with no key in the
    standard-field set, [from_db_item (to_db_item r)] returns a record equal
    to [r] on the eleven standard fields, and its metadata is exactly the
    collection of the item attributes outside the standard-field set: the
    entries of [r]'s metadata. *)
Theorem mapper_round_trip (repr_of : pyval -> string) (r : EconomicData)
        (d : pydate) (extra : dict) :
  date r = VDate d ->
  valid_date d = true ->
  metadata_mapping (metadata r) = Ok extra ->
  Forall (fun k => is_standard k = false) (keys extra) ->
  NoDup (keys extra) ->
  exists item r',
    to_db_item repr_of r = Ok item /\
    from_db_item item = Ok r' /\
    same_standard_fields r' r /\
    metadata r' = VDict (extra_attributes item) /\
    extra_attributes item = extra.
Proof.
  intros Hd Hv Hm Hex Hnd.
  assert (Hup : dict_update [] extra = extra) by (now apply dict_update_nodup).
  eexists. eexists. split; [|split].
  - apply to_db_item_shape; eassumption.
  - apply from_db_item_of_shape. exact Hv.
  - rewrite Hup. rewrite extra_attributes_app.
    rewrite (extra_attributes_all extra Hex).
    unfold same_standard_fields. cbn.
    rewrite Hd. repeat split; reflexivity.
Qed.

Lemma mapper_round_trip_witness :
  exists item r',
    to_db_item no_repr (sample_record (VDict [("processor", VStr "USPreprocessor")]))
      = Ok item /\
    from_db_item item = Ok r' /\
    same_standard_fields r' (sample_record (VDict [("processor", VStr "USPreprocessor")])) /\
    metadata r' = VDict (extra_attributes item) /\
    extra_attributes item = [("processor", VStr "USPreprocessor")].
Proof.
  apply (mapper_round_trip no_repr
           (sample_record (VDict [("processor", VStr "USPreprocessor")]))
           (mkdate 2024 1 15) [("processor", VStr "USPreprocessor")]).
  - reflexivity.
  - reflexivity.
  - reflexivity.
  - repeat constructor.
  - repeat constructor. intros [].
Defined.

(** C1, as stated, fails: a metadata key that is also a standard attribute
    name overwrites that attribute in the item, and the record read back
    carries the metadata value in the standard field. *)
Lemma mapper_round_trip_collision :
  exists item r',
    to_db_item no_repr (sample_record (VDict [("country_code", VStr "XX")])) = Ok item /\
    from_db_item item = Ok r' /\
    country_code r' = VStr "XX" /\
    country_code r' <> country_code (sample_record (VDict [("country_code", VStr "XX")])) /\
    metadata r' <> metadata (sample_record (VDict [("country_code", VStr "XX")])).
Proof.
  eexists. eexists. split; [reflexivity|]. split; [reflexivity|].
  cbn. repeat split; discriminate.
Qed.

(** C9.  [from_db_item] always sets [metadata] to a dict, the mapping of the
    item attributes outside the standard-field set; a record built with
    [metadata = None] comes back from [to_db_item] / [from_db_item] with the
    empty dict. *)
Theorem from_db_item_metadata_dict (repr_of : pyval -> string)
        (r : EconomicData) (d : pydate) :
  date r = VDate d ->
  valid_date d = true ->
  metadata r = VNone ->
  (forall item r0, from_db_item item = Ok r0 ->
                   metadata r0 = VDict (extra_attributes item)) /\
  exists item r',
    to_db_item repr_of r = Ok item /\
    from_db_item item = Ok r' /\
    metadata r' = VDict [].
Proof.
  intros Hd Hv Hm. split.
  - intros item r0. unfold from_db_item.
    destruct (item_date item); cbn [bind]; [|discriminate].
    intros H. injection H as <-. reflexivity.
  - eexists. eexists. split; [|split].
    + apply (to_db_item_shape repr_of r d []); [exact Hd| |constructor].
      rewrite Hm. reflexivity.
    + apply from_db_item_of_shape. exact Hv.
    + reflexivity.
Qed.

Lemma from_db_item_metadata_dict_witness :
  (forall item r0, from_db_item item = Ok r0 ->
                   metadata r0 = VDict (extra_attributes item)) /\
  exists item r',
    to_db_item no_repr (sample_record VNone) = Ok item /\
    from_db_item item = Ok r' /\
    metadata r' = VDict [].
Proof.
  apply (from_db_item_metadata_dict no_repr (sample_record VNone) (mkdate 2024 1 15));
    reflexivity.
Defined.

(** ** The key-value uploader *)

Lemma traverse_length {A B : Type} (f : A -> outcome B) (l : list A) (bs : list B) :
  traverse f l = Ok bs -> List.length bs = List.length l.
Proof.
  revert bs. induction l as [|a l IH]; intros bs; cbn [traverse].
  - intros H. injection H as <-. reflexivity.
  - destruct (f a); cbn [bind]; [|discriminate].
    destruct (traverse f l) as [bs'|]; cbn [bind]; [|discriminate].
    intros H. injection H as <-. cbn [List.length]. f_equal. now apply IH.
Qed.

Lemma firstn_plus {A : Type} (a b : nat) (l : list A) :
  firstn (a + b) l = firstn a l ++ firstn b (skipn a l).
Proof.
  revert l. induction a as [|a IH]; intros l; [reflexivity|].
  destruct l as [|x l]; cbn [Nat.add firstn skipn app].
  - now rewrite firstn_nil.
  - f_equal. apply IH.
Qed.

Lemma concat_slices {A : Type} (n k : nat) (l : list A) :
  List.concat (map (fun i => slice l i (i + n)) (map (fun j => (j * n)%nat) (seq 0 k)))
  = firstn (k * n) l.
Proof.
  induction k as [|k IH]; [reflexivity|].
  rewrite seq_S, !map_app, concat_app, IH. cbn [Nat.add map List.concat].
  rewrite app_nil_r. unfold slice.
  replace (k * n + n - k * n)%nat with n by lia.
  replace (S k * n)%nat with (k * n + n)%nat by lia.
  now rewrite firstn_plus.
Qed.

Lemma concat_chunks (items : list dict) : List.concat (chunks items) = items.
Proof.
  unfold chunks, py_range. rewrite concat_slices.
  apply firstn_all2. unfold batch_size.
  pose proof (Nat.div_mod_eq (List.length items + 25 - 1) 25).
  pose proof (Nat.mod_upper_bound (List.length items + 25 - 1) 25 ltac:(lia)).
  lia.
Qed.

Section KeyValueFacts.

Variable repr_of : pyval -> string.
Variable remote : Type.
Variable batch_writer : list dict -> remote -> remote * option exn.

Lemma batch_write_items_calls (items : list dict) (c : client remote) :
  batch_calls (snd (batch_write_items remote batch_writer items c))
  = batch_calls c ++ [items].
Proof.
  unfold batch_write_items. destruct (write_batch _ _ _ _). reflexivity.
Qed.

Lemma upload_loop_calls (db_items : list dict) (idx : list nat)
      (success : bool) (c : client remote) :
  batch_calls (snd (fold_left (upload_batch remote batch_writer db_items) idx (success, c)))
  = batch_calls c ++ map (fun i => slice db_items i (i + batch_size)) idx.
Proof.
  revert success c. induction idx as [|i idx IH]; intros success c.
  - cbn. now rewrite app_nil_r.
  - cbn [fold_left map]. unfold upload_batch at 2.
    pose proof (batch_write_items_calls (slice db_items i (i + batch_size)) c) as Hc.
    destruct (batch_write_items remote batch_writer _ c) as [[result|e] c'];
      cbn [snd] in Hc; rewrite IH, Hc, <- app_assoc; reflexivity.
Qed.

Lemma aws_upload_calls (data : list EconomicData) (items : list dict)
      (c : client remote) :
  data <> [] ->
  traverse (to_db_item repr_of) data = Ok items ->
  exists ok c',
    aws_upload repr_of remote batch_writer data c = (Ok ok, c') /\
    batch_calls c' = batch_calls c ++ chunks items.
Proof.
  intros Hne Ht. unfold aws_upload.
  destruct data as [|r data]; [congruence|]. rewrite Ht.
  pose proof (upload_loop_calls items (py_range (List.length items) batch_size) true c) as H.
  destruct (fold_left _ _ _) as [success c']. cbn [snd] in H.
  exists success, c'. split; [reflexivity|exact H].
Qed.

End KeyValueFacts.

Lemma chunks_53 (items : list dict) :
  List.length items = 53%nat ->
  chunks items = [slice items 0 25; slice items 25 50; slice items 50 75]
  /\ map (@List.length dict) (chunks items) = [25; 25; 3]%nat.
Proof.
  intros Hlen. unfold chunks. rewrite Hlen.
  change (py_range 53 batch_size) with [0; 25; 50]%nat.
  cbn [map Nat.add batch_size]. split; [reflexivity|].
  unfold slice. rewrite !length_firstn, !length_skipn, Hlen. reflexivity.
Qed.

(** C6.  [AWSUploader.upload] writes the items in input order in batches of
    25: the calls to [batch_write_items] carry the consecutive slices of the
    item list, and for 53 records these are exactly three calls, of 25, 25
    and 3 items. *)
Theorem aws_upload_batches_of_25 (repr_of : pyval -> string) (remote : Type)
        (batch_writer : list dict -> remote -> remote * option exn)
        (data : list EconomicData) (items : list dict) (c : client remote) :
  List.length data = 53%nat ->
  traverse (to_db_item repr_of) data = Ok items ->
  exists ok c' b1 b2 b3,
    aws_upload repr_of remote batch_writer data c = (Ok ok, c') /\
    batch_calls c' = batch_calls c ++ [b1; b2; b3] /\
    List.length b1 = 25%nat /\ List.length b2 = 25%nat /\ List.length b3 = 3%nat /\
    b1 ++ b2 ++ b3 = items /\
    [b1; b2; b3] = chunks items.
Proof.
  intros Hlen Ht.
  assert (Hne : data <> []) by (destruct data; [discriminate|congruence]).
  destruct (aws_upload_calls repr_of remote batch_writer data items c Hne Ht)
    as (ok & c' & Hup & Hcalls).
  assert (Hitems : List.length items = 53%nat)
    by (rewrite (traverse_length _ _ _ Ht); exact Hlen).
  destruct (chunks_53 items Hitems) as [Hch Hlens].
  pose proof (concat_chunks items) as Hcat.
  rewrite Hch in Hcalls, Hlens, Hcat. cbn [map] in Hlens. cbn [List.concat] in Hcat.
  rewrite app_nil_r in Hcat.
  injection Hlens as H1 H2 H3.
  exists ok, c', (slice items 0 25), (slice items 25 50), (slice items 50 75).
  repeat split; auto.
Qed.

Lemma aws_upload_batches_of_25_witness :
  exists items,
    traverse (to_db_item no_repr) (repeat (sample_record VNone) 53) = Ok items /\
    exists ok c' b1 b2 b3,
      aws_upload no_repr Datatypes.unit always_written
                 (repeat (sample_record VNone) 53) (mkclient tt []) = (Ok ok, c') /\
      batch_calls c' = [] ++ [b1; b2; b3] /\
      List.length b1 = 25%nat /\ List.length b2 = 25%nat /\ List.length b3 = 3%nat /\
      b1 ++ b2 ++ b3 = items /\
      [b1; b2; b3] = chunks items.
Proof.
  eexists. split.
  - vm_compute. reflexivity.
  - apply (aws_upload_batches_of_25 no_repr Datatypes.unit always_written
             (repeat (sample_record VNone) 53) _ (mkclient tt [])).
    + reflexivity.
    + vm_compute. reflexivity.
Defined.

(** ** The relational uploader *)

Lemma execute_all_pending (rows : list EconomicRow.t) (conn : connection) :
  pending (execute_all rows conn) = insert_all rows (pending conn).
Proof.
  revert conn. induction rows as [|r rows IH]; intros conn; [reflexivity|].
  cbn [execute_all insert_all fold_left]. apply IH.
Qed.

Lemma execute_all_file (rows : list EconomicRow.t) (conn : connection) :
  file (execute_all rows conn)
  = {| stored := stored (file conn);
       journal := journal (file conn) ++ repeat Executed (List.length rows) |}.
Proof.
  revert conn. induction rows as [|r rows IH]; intros conn.
  - cbn. rewrite app_nil_r. now destruct (file conn).
  - cbn [execute_all fold_left]. fold (execute_all rows (execute_insert r conn)).
    rewrite IH. cbn [execute_insert file record_event stored journal List.length repeat].
    now rewrite <- app_assoc.
Qed.

Section RelationalFacts.

Variable repr_of : pyval -> string.

Lemma upload_rows_failure (pre : list EconomicData) (rows : list EconomicRow.t)
      (bad : EconomicData) (post : list EconomicData) (e : exn) (conn : connection) :
  traverse (insert_parameters repr_of) pre = Ok rows ->
  insert_parameters repr_of bad = Raise e ->
  upload_rows repr_of (pre ++ bad :: post) conn = (Some false, execute_all rows conn).
Proof.
  revert rows conn. induction pre as [|r pre IH]; intros rows conn Hpre Hbad.
  - cbn in Hpre. injection Hpre as <-. cbn [app upload_rows]. now rewrite Hbad.
  - cbn [traverse] in Hpre. cbn [app upload_rows].
    destruct (insert_parameters repr_of r) as [row|]; cbn [bind] in Hpre; [|discriminate].
    destruct (traverse (insert_parameters repr_of) pre) as [rows'|];
      cbn [bind] in Hpre; [|discriminate].
    injection Hpre as <-. cbn [execute_all fold_left]. now apply IH.
Qed.

End RelationalFacts.

(** C4, as amended.  When a row of the input raises, [SQLiteUploader.upload]
    returns [False] at once: the failing row and the rows after it are not
    executed.  The rows before it were executed on the connection, and
    leaving the [with] block through [return] commits them: exactly the rows
    before the first failing one are persisted. *)
Theorem sqlite_upload_first_failure (repr_of : pyval -> string)
        (pre : list EconomicData) (rows : list EconomicRow.t) (bad : EconomicData)
        (post : list EconomicData) (e : exn) (db : database) :
  traverse (insert_parameters repr_of) pre = Ok rows ->
  insert_parameters repr_of bad = Raise e ->
  sqlite_upload repr_of (pre ++ bad :: post) db =
  (Ok false,
   {| stored := insert_all rows (stored db);
      journal := journal db ++ [Connected] ++ repeat Executed (List.length pre)
                            ++ [Committed] |}).
Proof.
  intros Hpre Hbad. unfold sqlite_upload.
  destruct (pre ++ bad :: post) eqn:Hdata; [now destruct pre|]. rewrite <- Hdata.
  unfold with_connection.
  rewrite (upload_rows_failure repr_of pre rows bad post e _ Hpre Hbad).
  unfold commit. rewrite execute_all_pending, execute_all_file.
  cbn [connect file pending record_event stored journal].
  rewrite (traverse_length _ _ _ Hpre), <- !app_assoc. reflexivity.
Qed.

Lemma sqlite_upload_first_failure_witness :
  exists row,
    insert_parameters no_repr (sample_record VNone) = Ok row /\
    sqlite_upload no_repr [sample_record VNone; overflowing_record; sample_record VNone]
                  empty_db
    = (Ok false,
       {| stored := insert_all [row] [];
          journal := [] ++ [Connected] ++ repeat Executed 1 ++ [Committed] |}).
Proof.
  eexists. split; [reflexivity|].
  apply (sqlite_upload_first_failure no_repr [sample_record VNone] _ overflowing_record
           [sample_record VNone] OverflowError empty_db); reflexivity.
Defined.

(** C4, as stated, fails: of two rows of which the second raises, the first
    is in the table after the call, although the call returned [False]. *)
Lemma sqlite_upload_partial_commit :
  exists row db',
    insert_parameters no_repr (sample_record VNone) = Ok row /\
    raises (insert_parameters no_repr overflowing_record) = true /\
    sqlite_upload no_repr [sample_record VNone; overflowing_record] empty_db
    = (Ok false, db') /\
    stored db' = [row] /\ stored db' <> stored empty_db.
Proof.
  eexists. eexists. split; [reflexivity|]. split; [reflexivity|].
  split; [reflexivity|]. split; [reflexivity|]. discriminate.
Qed.

(** C7.  On an empty list both uploaders return [False], raise nothing and
    leave their backend untouched: no call to [batch_write_items], no
    connection to the database. *)
Theorem upload_empty_input (repr_of : pyval -> string) (remote : Type)
        (batch_writer : list dict -> remote -> remote * option exn)
        (c : client remote) (db : database) :
  aws_upload repr_of remote batch_writer [] c = (Ok false, c) /\
  batch_calls (snd (aws_upload repr_of remote batch_writer [] c)) = batch_calls c /\
  sqlite_upload repr_of [] db = (Ok false, db) /\
  journal (snd (sqlite_upload repr_of [] db)) = journal db.
Proof. repeat split. Qed.

(** ** Sorting *)

Section SortFacts.

Variable A : Type.
Variable le : A -> A -> bool.

Lemma insert_by_perm (x : A) (l : list A) : Permutation (insert_by le x l) (x :: l).
Proof.
  induction l as [|y l IH]; cbn [insert_by]; [reflexivity|].
  destruct (le x y); [reflexivity|].
  rewrite IH. apply perm_swap.
Qed.

Lemma sort_by_perm (l : list A) : Permutation (sort_by le l) l.
Proof.
  induction l as [|x l IH]; cbn [sort_by]; [reflexivity|].
  rewrite insert_by_perm. now constructor.
Qed.

Lemma sort_by_in (x : A) (l : list A) : In x (sort_by le l) <-> In x l.
Proof.
  split; apply Permutation_in; [|symmetry]; apply sort_by_perm.
Qed.

Hypothesis le_total : forall a b, le a b = true \/ le b a = true.
Hypothesis le_trans : forall a b c, le a b = true -> le b c = true -> le a c = true.

Lemma insert_by_sorted (x : A) (l : list A) :
  StronglySorted (fun a b => le a b = true) l ->
  StronglySorted (fun a b => le a b = true) (insert_by le x l).
Proof.
  induction 1 as [|y l Hs IH Hy]; cbn [insert_by].
  - repeat constructor.
  - destruct (le x y) eqn:Hxy.
    + constructor; [now constructor|].
      constructor; [exact Hxy|].
      eapply Forall_impl; [|exact Hy]. intros z Hz. now apply (le_trans x y z).
    + constructor; [exact IH|].
      apply Forall_forall. intros z Hz.
      apply (Permutation_in _ (insert_by_perm x l)) in Hz. destruct Hz as [<-|Hz].
      * destruct (le_total x y); congruence.
      * rewrite Forall_forall in Hy. now apply Hy.
Qed.

Lemma sort_by_sorted (l : list A) :
  StronglySorted (fun a b => le a b = true) (sort_by le l).
Proof.
  induction l as [|x l IH]; cbn [sort_by]; [constructor|].
  now apply insert_by_sorted.
Qed.

End SortFacts.

Lemma sort_by_ext {A : Type} (le le' : A -> A -> bool) (l : list A) :
  (forall a b, le a b = le' a b) -> sort_by le l = sort_by le' l.
Proof.
  intros H. induction l as [|x l IH]; cbn [sort_by]; [reflexivity|].
  rewrite IH. generalize (sort_by le' l). intros m.
  induction m as [|y m IHm]; cbn [insert_by]; [reflexivity|].
  now rewrite H, IHm.
Qed.

(** ** The orders *)

Lemma Qle_bool_total (p q : Q) : Qle_bool p q = true \/ Qle_bool q p = true.
Proof.
  rewrite !Qle_bool_iff. unfold Qle. lia.
Qed.

Lemma xle_refl (a : xnum) : xle a a = true.
Proof.
  destruct a; cbn; auto. apply Qle_bool_iff. apply Qle_refl.
Qed.

Lemma xle_total (a b : xnum) : xle a b = true \/ xle b a = true.
Proof.
  destruct a, b; cbn; auto. apply Qle_bool_total.
Qed.

Lemma xle_trans (a b c : xnum) : xle a b = true -> xle b c = true -> xle a c = true.
Proof.
  destruct a, b, c; cbn; auto; try discriminate.
  rewrite !Qle_bool_iff. apply Qle_trans.
Qed.

Lemma ascii_compare_refl (a : ascii) : Ascii.compare a a = Eq.
Proof. unfold Ascii.compare. apply N.compare_refl. Qed.

Lemma string_compare_refl (s : string) : String.compare s s = Eq.
Proof.
  induction s as [|c s IH]; cbn; [reflexivity|]. now rewrite ascii_compare_refl.
Qed.

Lemma string_compare_trans_le (s t u : string) :
  String.compare s t <> Gt -> String.compare t u <> Gt -> String.compare s u <> Gt.
Proof.
  revert t u. induction s as [|a s IH]; intros [|b t] [|c u]; cbn; try congruence.
  unfold Ascii.compare.
  destruct (N.compare_spec (N_of_ascii a) (N_of_ascii b)) as [Hab|Hab|Hab];
    destruct (N.compare_spec (N_of_ascii b) (N_of_ascii c)) as [Hbc|Hbc|Hbc];
    destruct (N.compare_spec (N_of_ascii a) (N_of_ascii c)) as [Hac|Hac|Hac];
    try congruence; try lia; try apply IH.
Qed.

Lemma string_leb_trans (s t u : string) :
  String.leb s t = true -> String.leb t u = true -> String.leb s u = true.
Proof.
  unfold String.leb. intros H1 H2.
  pose proof (string_compare_trans_le s t u) as H.
  destruct (String.compare s t), (String.compare t u), (String.compare s u);
    try reflexivity; try discriminate; exfalso; apply H; congruence.
Qed.

Lemma string_leb_refl (s : string) : String.leb s s = true.
Proof. unfold String.leb. now rewrite string_compare_refl. Qed.

Lemma sql_le_total (a b : sqlval) : sql_le a b = true \/ sql_le b a = true.
Proof.
  destruct a, b; unfold sql_le; cbn [sql_class Nat.ltb Nat.leb];
    auto using xle_total, String.leb_total.
Qed.

Lemma sql_le_trans (a b c : sqlval) :
  sql_le a b = true -> sql_le b c = true -> sql_le a c = true.
Proof.
  destruct a, b, c; unfold sql_le; cbn [sql_class Nat.ltb Nat.leb];
    auto; try discriminate; try apply xle_trans. apply string_leb_trans.
Qed.

Lemma sql_le_refl (a : sqlval) : sql_le a a = true.
Proof.
  destruct a; unfold sql_le; cbn [sql_class Nat.ltb Nat.leb];
    auto using xle_refl, string_leb_refl.
Qed.

Lemma scan_order_total (a b : EconomicRow.t) :
  scan_order a b = true \/ scan_order b a = true.
Proof.
  unfold scan_order, sql_lt.
  destruct (sql_le_total (EconomicRow.indicator_id a) (EconomicRow.indicator_id b)),
           (sql_le_total (EconomicRow.date a) (EconomicRow.date b));
    destruct (sql_le (EconomicRow.indicator_id a) (EconomicRow.indicator_id b)),
             (sql_le (EconomicRow.indicator_id b) (EconomicRow.indicator_id a));
    cbn; auto; discriminate.
Qed.

Lemma scan_order_trans (a b c : EconomicRow.t) :
  scan_order a b = true -> scan_order b c = true -> scan_order a c = true.
Proof.
  unfold scan_order, sql_lt.
  pose proof (sql_le_trans (EconomicRow.indicator_id a) (EconomicRow.indicator_id b)
                           (EconomicRow.indicator_id c)) as T1.
  pose proof (sql_le_trans (EconomicRow.indicator_id c) (EconomicRow.indicator_id b)
                           (EconomicRow.indicator_id a)) as T2.
  pose proof (sql_le_trans (EconomicRow.indicator_id b) (EconomicRow.indicator_id c)
                           (EconomicRow.indicator_id a)) as T3.
  pose proof (sql_le_trans (EconomicRow.indicator_id c) (EconomicRow.indicator_id a)
                           (EconomicRow.indicator_id b)) as T4.
  pose proof (sql_le_trans (EconomicRow.indicator_id a) (EconomicRow.indicator_id c)
                           (EconomicRow.indicator_id b)) as T5.
  pose proof (sql_le_trans (EconomicRow.indicator_id b) (EconomicRow.indicator_id a)
                           (EconomicRow.indicator_id c)) as T6.
  pose proof (sql_le_total (EconomicRow.indicator_id a) (EconomicRow.indicator_id b)) as O1.
  pose proof (sql_le_total (EconomicRow.indicator_id b) (EconomicRow.indicator_id c)) as O2.
  pose proof (sql_le_trans (EconomicRow.date c) (EconomicRow.date b) (EconomicRow.date a)) as D.
  destruct (sql_le (EconomicRow.indicator_id a) (EconomicRow.indicator_id b)),
           (sql_le (EconomicRow.indicator_id b) (EconomicRow.indicator_id a)),
           (sql_le (EconomicRow.indicator_id b) (EconomicRow.indicator_id c)),
           (sql_le (EconomicRow.indicator_id c) (EconomicRow.indicator_id b)),
           (sql_le (EconomicRow.indicator_id a) (EconomicRow.indicator_id c)),
           (sql_le (EconomicRow.indicator_id c) (EconomicRow.indicator_id a));
    cbn; intros H1 H2; auto; try discriminate;
    try (specialize (T1 eq_refl eq_refl); discriminate);
    try (specialize (T2 eq_refl eq_refl); discriminate);
    try (specialize (T3 eq_refl eq_refl); discriminate);
    try (specialize (T4 eq_refl eq_refl); discriminate);
    try (specialize (T5 eq_refl eq_refl); discriminate);
    try (specialize (T6 eq_refl eq_refl); discriminate);
    try (destruct O1; discriminate); try (destruct O2; discriminate).
Qed.

(** ** Patterns without wildcards *)

Lemma lower_char_idem (c : ascii) : lower_char (lower_char c) = lower_char c.
Proof.
  destruct c as [[] [] [] [] [] [] [] []]; reflexivity.
Qed.

Lemma lower_char_percent (c : ascii) :
  Ascii.eqb (lower_char c) "%" = Ascii.eqb c "%".
Proof.
  destruct c as [[] [] [] [] [] [] [] []]; reflexivity.
Qed.

Lemma lower_char_underscore (c : ascii) :
  Ascii.eqb (lower_char c) "_" = Ascii.eqb c "_".
Proof.
  destruct c as [[] [] [] [] [] [] [] []]; reflexivity.
Qed.

Lemma lowered_lower (s : string) : lowered (lower s) = true.
Proof.
  induction s as [|c s IH]; [reflexivity|].
  cbn [lower map_chars lowered]. rewrite lower_char_idem, Ascii.eqb_refl. exact IH.
Qed.

Lemma no_wildcard_lower (s : string) : no_wildcard (lower s) = no_wildcard s.
Proof.
  induction s as [|c s IH]; [reflexivity|].
  cbn [lower map_chars no_wildcard].
  rewrite lower_char_percent, lower_char_underscore. f_equal. exact IH.
Qed.

Lemma like_percent (q s : string) :
  like (String "%" q) s =
  like q s || match s with
              | EmptyString => false
              | String _ s' => like (String "%" q) s'
              end.
Proof. destruct s; reflexivity. Qed.

Lemma like_any (s : string) : like "%" s = true.
Proof.
  induction s as [|c s IH]; [reflexivity|].
  rewrite like_percent, IH. apply orb_true_r.
Qed.

Lemma like_prefix (p s : string) :
  no_wildcard p = true -> lowered p = true -> lowered s = true ->
  like (p ++ "%") s = prefix p s.
Proof.
  revert s. induction p as [|c p IH]; intros s Hw Hp Hs.
  - cbn [append]. rewrite like_any. now destruct s.
  - cbn [no_wildcard] in Hw. cbn [lowered] in Hp.
    apply andb_prop in Hw. destruct Hw as [Hw Hw3].
    apply andb_prop in Hw. destruct Hw as [Hw1 Hw2].
    apply andb_prop in Hp. destruct Hp as [Hc Hp].
    apply negb_true_iff in Hw1, Hw2. apply Ascii.eqb_eq in Hc.
    cbn [append like]. rewrite Hw1.
    destruct s as [|d s]; [reflexivity|].
    cbn [lowered] in Hs. apply andb_prop in Hs. destruct Hs as [Hd Hs].
    apply Ascii.eqb_eq in Hd.
    rewrite Hw2, Hc, Hd. cbn [orb prefix].
    destruct (ascii_dec c d) as [->|Hne].
    + rewrite Ascii.eqb_refl. cbn [andb]. now apply IH.
    + apply Ascii.eqb_neq in Hne. now rewrite Hne.
Qed.

Lemma like_contains (p s : string) :
  no_wildcard p = true -> lowered p = true -> lowered s = true ->
  like ("%" ++ p ++ "%") s = contains p s.
Proof.
  intros Hw Hp. induction s as [|d s IH]; intros Hs.
  - cbn [append]. rewrite like_percent, like_prefix by assumption.
    cbn [contains]. reflexivity.
  - cbn [append] in *. rewrite like_percent, like_prefix by assumption.
    cbn [contains]. f_equal. apply IH.
    cbn [lowered] in Hs. apply andb_prop in Hs. tauto.
Qed.

(** Without [%] and [_] in the keyword, the [WHERE] clause keeps the rows of
    the country whose name contains the keyword, letter case apart. *)
Lemma selected_substring (country_code keyword : string) (r : EconomicRow.t) :
  no_wildcard keyword = true ->
  (selected country_code keyword r = true <->
   EconomicRow.country_code r = SText country_code /\
   exists name, EconomicRow.indicator_name r = SText name /\
                contains (lower keyword) (lower name) = true).
Proof.
  intros Hw. unfold selected, sql_equals_text, lower_like.
  rewrite andb_true_iff. split.
  - intros [Hc Hn]. split.
    + destruct (EconomicRow.country_code r); try discriminate.
      apply String.eqb_eq in Hc. now subst.
    + destruct (EconomicRow.indicator_name r) as [| | |name]; try discriminate.
      exists name. split; [reflexivity|].
      rewrite like_contains in Hn; auto using lowered_lower.
      now rewrite no_wildcard_lower.
  - intros [Hc (name & Hn & Hin)]. rewrite Hc, Hn. split; [apply String.eqb_refl|].
    rewrite like_contains; auto using lowered_lower.
    now rewrite no_wildcard_lower.
Qed.

(** ** One entry per indicator *)

Lemma same_dict_key_refl (a : sqlval) : same_dict_key a a = true.
Proof.
  destruct a; cbn [same_dict_key]; auto using String.eqb_refl;
    rewrite xle_refl; reflexivity.
Qed.

Lemma same_dict_key_sym (a b : sqlval) : same_dict_key a b = same_dict_key b a.
Proof.
  destruct a, b; cbn [same_dict_key]; auto using String.eqb_sym, andb_comm.
Qed.

Lemma same_dict_key_trans (a b c : sqlval) :
  same_dict_key a b = true -> same_dict_key b c = true -> same_dict_key a c = true.
Proof.
  destruct a, b, c; cbn [same_dict_key]; auto; try discriminate;
    try (rewrite !andb_true_iff; intros [H1 H2] [H3 H4]; split;
         eapply xle_trans; eassumption).
  rewrite !String.eqb_eq. congruence.
Qed.

Lemma same_dict_key_sql_le (a b : sqlval) :
  same_dict_key a b = true -> sql_le a b = true /\ sql_le b a = true.
Proof.
  destruct a, b; cbn [same_dict_key]; try discriminate;
    unfold sql_le; cbn [sql_class Nat.ltb Nat.leb]; auto;
    try (rewrite andb_true_iff; tauto).
  rewrite String.eqb_eq. intros ->. split; apply string_leb_refl.
Qed.

Lemma key_in_app (k : sqlval) (a b : list (sqlval * EconomicData)) :
  key_in k (a ++ b) = key_in k a || key_in k b.
Proof. unfold key_in. apply existsb_app. Qed.

Lemma key_in_same (k k' : sqlval) (acc : list (sqlval * EconomicData)) :
  same_dict_key k k' = true -> key_in k acc = key_in k' acc.
Proof.
  intros Hs. unfold key_in. induction acc as [|[k0 v] acc IH]; [reflexivity|].
  cbn [existsb fst]. rewrite IH. f_equal.
  destruct (same_dict_key k k0) eqn:E1, (same_dict_key k' k0) eqn:E2; auto.
  - rewrite same_dict_key_sym in Hs.
    rewrite (same_dict_key_trans _ _ _ Hs E1) in E2. discriminate.
  - rewrite (same_dict_key_trans _ _ _ Hs E2) in E1. discriminate.
Qed.

Lemma collect_first_origin (rows : list EconomicRow.t)
      (acc : list (sqlval * EconomicData)) (kv : sqlval * EconomicData) :
  In kv (collect_first rows acc) ->
  In kv acc \/
  exists row,
    kv = (EconomicRow.indicator_id row, record_of_row row) /\
    key_in (EconomicRow.indicator_id row) acc = false /\
    first_of_indicator rows row.
Proof.
  revert acc. induction rows as [|row rows IH]; intros acc Hin; [now left|].
  cbn [collect_first] in Hin.
  destruct (key_in (EconomicRow.indicator_id row) acc) eqn:Hk.
  - destruct (IH _ Hin) as [Hacc|(row0 & -> & Hk0 & pre & post & -> & Hpre)]; [now left|].
    right. exists row0. split; [reflexivity|]. split; [exact Hk0|].
    exists (row :: pre), post. split; [reflexivity|].
    intros r' [<-|Hr']; [|now apply Hpre].
    destruct (same_dict_key (EconomicRow.indicator_id row) (EconomicRow.indicator_id row0))
      eqn:Hs; [|reflexivity].
    rewrite (key_in_same _ _ acc Hs) in Hk. congruence.
  - destruct (IH _ Hin) as [Hacc|(row0 & -> & Hk0 & pre & post & -> & Hpre)].
    + apply in_app_or in Hacc. destruct Hacc as [Hacc|[<-|[]]]; [now left|].
      right. exists row. split; [reflexivity|]. split; [exact Hk|].
      exists [], rows. split; [reflexivity|]. intros r' [].
    + right. exists row0. split; [reflexivity|].
      rewrite key_in_app in Hk0. apply orb_false_iff in Hk0. destruct Hk0 as [Hk0 Hk1].
      split; [exact Hk0|].
      exists (row :: pre), post. split; [reflexivity|].
      intros r' [<-|Hr']; [|now apply Hpre].
      cbn [key_in existsb fst] in Hk1. rewrite orb_false_r in Hk1.
      now rewrite same_dict_key_sym.
Qed.

Lemma collect_first_keeps (rows : list EconomicRow.t)
      (acc : list (sqlval * EconomicData)) (k : sqlval) :
  key_in k acc = true -> key_in k (collect_first rows acc) = true.
Proof.
  revert acc. induction rows as [|row rows IH]; intros acc Hk; [exact Hk|].
  cbn [collect_first].
  destruct (key_in (EconomicRow.indicator_id row) acc); apply IH; [exact Hk|].
  rewrite key_in_app, Hk. reflexivity.
Qed.

Lemma collect_first_covers (rows : list EconomicRow.t)
      (acc : list (sqlval * EconomicData)) (row : EconomicRow.t) :
  In row rows -> key_in (EconomicRow.indicator_id row) (collect_first rows acc) = true.
Proof.
  revert acc. induction rows as [|r rows IH]; intros acc Hin; [destruct Hin|].
  destruct Hin as [<-|Hin]; cbn [collect_first].
  - destruct (key_in (EconomicRow.indicator_id r) acc) eqn:Hk;
      apply collect_first_keeps; [exact Hk|].
    rewrite key_in_app. cbn [key_in existsb fst].
    rewrite same_dict_key_refl. now rewrite orb_true_r.
  - destruct (key_in (EconomicRow.indicator_id r) acc); now apply IH.
Qed.

Lemma distinct_keys_snoc (acc : list (sqlval * EconomicData)) (k : sqlval) (v : EconomicData) :
  distinct_keys acc -> key_in k acc = false -> distinct_keys (acc ++ [(k, v)]).
Proof.
  unfold distinct_keys. induction 1 as [|a acc Ha Hacc IH]; intros Hk; cbn [app].
  - repeat constructor.
  - cbn [key_in existsb] in Hk. apply orb_false_iff in Hk. destruct Hk as [Hka Hk].
    constructor; [|now apply IH].
    apply Forall_app. split; [exact Ha|].
    constructor; [|constructor]. cbn [fst]. now rewrite same_dict_key_sym.
Qed.

Lemma collect_first_distinct (rows : list EconomicRow.t)
      (acc : list (sqlval * EconomicData)) :
  distinct_keys acc -> distinct_keys (collect_first rows acc).
Proof.
  revert acc. induction rows as [|row rows IH]; intros acc Hacc; [exact Hacc|].
  cbn [collect_first].
  destruct (key_in (EconomicRow.indicator_id row) acc) eqn:Hk; apply IH; [exact Hacc|].
  now apply distinct_keys_snoc.
Qed.

Lemma sorted_after {A : Type} (R : A -> A -> Prop) (pre : list A) (x : A) (post : list A) :
  StronglySorted R (pre ++ x :: post) -> Forall (R x) post.
Proof.
  induction pre as [|y pre IH]; cbn [app]; intros H; inversion H; subst; auto.
Qed.

(** In a scan in the order of the query, the first row of an indicator
    carries the latest date of that indicator. *)
Lemma first_of_indicator_latest (scan : list EconomicRow.t) (row row' : EconomicRow.t) :
  StronglySorted (fun a b => scan_order a b = true) scan ->
  first_of_indicator scan row ->
  In row' scan ->
  same_dict_key (EconomicRow.indicator_id row') (EconomicRow.indicator_id row) = true ->
  sql_le (EconomicRow.date row') (EconomicRow.date row) = true.
Proof.
  intros Hs (pre & post & -> & Hpre) Hin Hsame.
  apply in_app_or in Hin. destruct Hin as [Hin|[<-|Hin]].
  - rewrite (Hpre _ Hin) in Hsame. discriminate.
  - apply sql_le_refl.
  - apply sorted_after in Hs. rewrite Forall_forall in Hs. specialize (Hs _ Hin).
    destruct (same_dict_key_sql_le _ _ Hsame) as [H1 H2].
    unfold scan_order, sql_lt in Hs. rewrite H1, H2 in Hs. exact Hs.
Qed.

(** ** The result, sorted by value *)

Section SortedDescFacts.

Variable A : Type.
Variable lt : A -> A -> outcome bool.
Variable ltb : A -> A -> bool.

Lemma insert_desc_pure (x : A) (l : list A) :
  (forall y, In y l -> lt x y = Ok (ltb x y)) ->
  insert_desc lt x l = Ok (insert_by (fun a b => negb (ltb a b)) x l).
Proof.
  induction l as [|y l IH]; intros H; cbn [insert_desc insert_by]; [reflexivity|].
  rewrite (H y (or_introl eq_refl)). cbn [bind].
  destruct (ltb x y); cbn [negb]; [|reflexivity].
  rewrite IH by (intros z Hz; apply H; now right). reflexivity.
Qed.

Lemma sorted_desc_pure (l : list A) :
  (forall x y, In x l -> In y l -> lt x y = Ok (ltb x y)) ->
  sorted_desc lt l = Ok (sort_by (fun a b => negb (ltb a b)) l).
Proof.
  induction l as [|x l IH]; intros H; cbn [sorted_desc sort_by]; [reflexivity|].
  rewrite IH by (intros a b Ha Hb; apply H; now right). cbn [bind].
  apply insert_desc_pure. intros y Hy. apply sort_by_in in Hy.
  apply H; [now left|now right].
Qed.

End SortedDescFacts.

Lemma value_lt_reals (a b : EconomicData) (f g : spec_float) :
  value a = VFloat f -> float_is_nan f = false ->
  value b = VFloat g -> float_is_nan g = false ->
  value_lt (value a) (value b) = Ok (negb (value_ge a b)).
Proof.
  intros Ha Hf Hb Hg. unfold value_ge, value_rank. rewrite Ha, Hb.
  cbn [value_lt]. rewrite Hf, Hg. reflexivity.
Qed.

Lemma value_ge_total (a b : EconomicData) : value_ge a b = true \/ value_ge b a = true.
Proof. unfold value_ge. apply xle_total. Qed.

Lemma value_ge_trans (a b c : EconomicData) :
  value_ge a b = true -> value_ge b c = true -> value_ge a c = true.
Proof. unfold value_ge. intros H1 H2. eapply xle_trans; eassumption. Qed.

Lemma latest_results_real (country_code keyword : string) (db : database)
      (kv : sqlval * EconomicData) :
  Forall real_valued (stored db) ->
  In kv (latest_results country_code keyword db) ->
  exists f, value (snd kv) = VFloat f /\ float_is_nan f = false.
Proof.
  intros Hreal Hin. unfold latest_results in Hin.
  destruct (collect_first_origin _ _ _ Hin) as [[]|(row & -> & _ & pre & post & Hscan & _)].
  assert (Hrow : In row (run_query country_code keyword db))
    by (rewrite Hscan; apply in_or_app; right; now left).
  unfold run_query in Hrow. apply sort_by_in in Hrow. apply filter_In in Hrow.
  rewrite Forall_forall in Hreal. destruct (Hreal row (proj1 Hrow)) as (f & Hf & Hnan).
  exists f. cbn [snd record_of_row value]. rewrite Hf. split; [reflexivity|exact Hnan].
Qed.

(** C5, as amended.  [get_latest_by_indicator_name country_code keyword]
    selects the rows of the country whose name matches the pattern
    [%keyword.lower()%] under LIKE, which for an ASCII keyword without the
    wildcards [%] and [_], and names without a NUL, is: whose name contains
    the keyword, the case of the letters [A] to [Z] apart.  It scans them ordered by [(indicator_id, date DESC)], keeps the
    first row met of each [indicator_id], which carries the latest date of
    the indicator (dates are kept as ISO texts, whose order is that of the
    calendar), and returns the records sorted by value, largest first.
    With imports at 2024-01-01 (10) and 2024-02-01 (20) and exports (50) it
    returns exports (50), then imports (20). *)
Theorem get_latest_by_indicator_name_spec (country_code keyword : string) (db : database) :
  ascii_text keyword = true ->
  no_wildcard keyword = true ->
  Forall plainly_named (stored db) ->
  Forall real_valued (stored db) ->
  exists out,
    get_latest_by_indicator_name country_code keyword db = Ok out /\
    (forall row,
        In row (run_query country_code keyword db) <->
        In row (stored db) /\
        EconomicRow.country_code row = SText country_code /\
        exists name, EconomicRow.indicator_name row = SText name /\
                     contains (lower keyword) (lower name) = true) /\
    StronglySorted (fun a b => scan_order a b = true) (run_query country_code keyword db) /\
    Permutation out (map snd (latest_results country_code keyword db)) /\
    distinct_keys (latest_results country_code keyword db) /\
    (forall row, In row (run_query country_code keyword db) ->
                 key_in (EconomicRow.indicator_id row)
                        (latest_results country_code keyword db) = true) /\
    (forall r, In r out ->
       exists row,
         r = record_of_row row /\
         first_of_indicator (run_query country_code keyword db) row /\
         forall row', In row' (run_query country_code keyword db) ->
           same_dict_key (EconomicRow.indicator_id row') (EconomicRow.indicator_id row) = true ->
           sql_le (EconomicRow.date row') (EconomicRow.date row) = true) /\
    (forall a b, valid_date a = true -> valid_date b = true ->
                 sql_le (SText (isoformat a)) (SText (isoformat b)) = not_after a b) /\
    StronglySorted (fun a b => value_ge a b = true) out /\
    get_latest_by_indicator_name "US" "port" trade_db
    = Ok [record_of_row (trade_row "exports" "Exports" "2024-01-15" 50);
          record_of_row (trade_row "imports" "Imports" "2024-02-01" 20)].
Proof.
  intros _ Hw _ Hreal.
  assert (Hsorted : StronglySorted (fun a b => scan_order a b = true)
                                   (run_query country_code keyword db))
    by (apply sort_by_sorted; [apply scan_order_total|apply scan_order_trans]).
  assert (Hout : get_latest_by_indicator_name country_code keyword db
                 = Ok (sort_by value_ge (map snd (latest_results country_code keyword db)))).
  { unfold get_latest_by_indicator_name. fold (latest_results country_code keyword db).
    rewrite (sorted_desc_pure _ _ (fun a b => negb (value_ge a b))).
    - f_equal. apply sort_by_ext. intros a b. apply negb_involutive.
    - intros x y Hx Hy. apply in_map_iff in Hx, Hy.
      destruct Hx as (kx & <- & Hx), Hy as (ky & <- & Hy).
      destruct (latest_results_real _ _ _ _ Hreal Hx) as (f & Hf & Hfn).
      destruct (latest_results_real _ _ _ _ Hreal Hy) as (g & Hg & Hgn).
      now apply (value_lt_reals _ _ f g). }
  eexists. split; [exact Hout|].
  split; [|split; [exact Hsorted|split; [apply sort_by_perm|split; [|split; [|split; [|split; [|split]]]]]]].
  - intros row. unfold run_query. rewrite sort_by_in, filter_In.
    rewrite (selected_substring country_code keyword row Hw). tauto.
  - apply collect_first_distinct. constructor.
  - intros row Hrow. now apply collect_first_covers.
  - intros r Hr. apply sort_by_in in Hr. apply in_map_iff in Hr.
    destruct Hr as (kv & <- & Hkv). unfold latest_results in Hkv.
    destruct (collect_first_origin _ _ _ Hkv) as [[]|(row & -> & _ & Hfirst)].
    exists row. split; [reflexivity|]. split; [exact Hfirst|].
    intros row' Hin Hsame.
    now apply (first_of_indicator_latest (run_query country_code keyword db)).
  - intros a b Ha Hb. cbn [sql_le]. now apply isoformat_order.
  - apply sort_by_sorted; [apply value_ge_total|apply value_ge_trans].
  - vm_compute. reflexivity.
Qed.

Lemma get_latest_by_indicator_name_spec_witness :
  ascii_text "port" = true /\
  no_wildcard "port" = true /\
  Forall plainly_named (stored trade_db) /\
  Forall real_valued (stored trade_db) /\
  exists out,
    get_latest_by_indicator_name "US" "port" trade_db = Ok out /\
    StronglySorted (fun a b => value_ge a b = true) out /\
    out = [record_of_row (trade_row "exports" "Exports" "2024-01-15" 50);
           record_of_row (trade_row "imports" "Imports" "2024-02-01" 20)].
Proof.
  assert (Hk : ascii_text "port" = true) by reflexivity.
  assert (Hw : no_wildcard "port" = true) by reflexivity.
  assert (Hnames : Forall plainly_named (stored trade_db)).
  { repeat constructor; intros name H; injection H as <-; reflexivity. }
  assert (Hreal : Forall real_valued (stored trade_db)).
  { repeat constructor; eexists; (split; [reflexivity|reflexivity]). }
  split; [exact Hk|]. split; [exact Hw|]. split; [exact Hnames|]. split; [exact Hreal|].
  destruct (get_latest_by_indicator_name_spec "US" "port" trade_db Hk Hw Hnames Hreal)
    as (out & Hout & _ & _ & _ & _ & _ & _ & _ & Hsorted & Hexample).
  exists out. split; [exact Hout|]. split; [exact Hsorted|].
  rewrite Hexample in Hout. now injection Hout.
Defined.

(** C5, as stated, fails twice.  On a keyword with a wildcard: [i_p] is not
    part of ["imports"], yet the pattern [%i_p%] matches it, [_] standing
    for the [m], and the imports row is returned.  And on a value that is
    not a number: a NaN is stored as NULL and read back as [None], which
    [sorted] cannot compare with a float. *)
Lemma get_latest_wildcard_keyword :
  contains (lower "i_p") (lower "Imports") = false /\
  get_latest_by_indicator_name "US" "i_p" trade_db
  = Ok [record_of_row (trade_row "imports" "Imports" "2024-02-01" 20)] /\
  get_latest_by_indicator_name
    "US" "gross" (snd (sqlite_upload no_repr [sample_record VNone; nan_record] empty_db))
  = Raise TypeError.
Proof. repeat split; vm_compute; reflexivity. Qed.

(** ** Loops *)

Lemma for_each_app {S X : Type} (body : X -> action S) (l1 l2 : list X) (s : S) :
  for_each body (l1 ++ l2) s =
  match for_each body l1 s with
  | (s', None) => for_each body l2 s'
  | (s', Some e) => (s', Some e)
  end.
Proof.
  revert s. induction l1 as [|x l1 IH]; intros s; cbn [app for_each]; [reflexivity|].
  destruct (body x s) as [s' [e|]]; [reflexivity|apply IH].
Qed.

(** A loop whose turns are all guarded by a catch-all handler ends
    normally. *)
Lemma for_each_guarded {S X : Type} (body : X -> action S) (l : list X) (s : S) :
  snd (for_each (fun x => try_except_all (body x)) l s) = None.
Proof.
  revert s. induction l as [|x l IH]; intros s; cbn [for_each]; [reflexivity|].
  unfold try_except_all at 1. apply IH.
Qed.

(** What a guarded loop leaves in the state came from one of its turns. *)
Lemma for_each_guarded_origin {X E : Type} (body : X -> action (list E))
      (P : X -> E -> Prop) (l : list X) (s : list E) (r : E) :
  (forall x s0, In x l -> In r (fst (body x s0)) -> In r s0 \/ P x r) ->
  In r (fst (for_each (fun x => try_except_all (body x)) l s)) ->
  In r s \/ exists x, In x l /\ P x r.
Proof.
  revert s. induction l as [|x l IH]; intros s Hbody Hin; [now left|].
  cbn [for_each] in Hin. unfold try_except_all at 1 in Hin.
  destruct (IH (fst (body x s))) as [H|(y & Hy & Hp)]; [|exact Hin| |].
  - intros y s0 Hy. apply Hbody. now right.
  - destruct (Hbody x s (or_introl eq_refl) H) as [Hs|Hp]; [now left|].
    right. exists x. split; [now left|exact Hp].
  - right. exists y. split; [now right|exact Hp].
Qed.

Section PointLoop.

Variable step : pyval -> outcome (option EconomicData).

Lemma append_points_origin (points : list pyval) (processed : list EconomicData)
      (r : EconomicData) :
  In r (fst (for_each (append_point step) points processed)) ->
  In r processed \/ exists point, In point points /\ step point = Ok (Some r).
Proof.
  revert processed. induction points as [|p points IH]; intros processed Hin; [now left|].
  cbn [for_each] in Hin. unfold append_point at 1 in Hin.
  destruct (step p) as [[r0|]|e] eqn:Hp.
  - destruct (IH _ Hin) as [H|(q & Hq & Hs)].
    + apply in_app_or in H. destruct H as [H|[<-|[]]]; [now left|].
      right. exists p. split; [now left|exact Hp].
    + right. exists q. split; [now right|exact Hs].
  - destruct (IH _ Hin) as [H|(q & Hq & Hs)]; [now left|].
    right. exists q. split; [now right|exact Hs].
  - now left.
Qed.

Lemma append_points_keep (points : list pyval) (processed : list EconomicData)
      (r : EconomicData) :
  In r processed -> In r (fst (for_each (append_point step) points processed)).
Proof.
  revert processed. induction points as [|p points IH]; intros processed Hin; [exact Hin|].
  cbn [for_each]. unfold append_point at 1.
  destruct (step p) as [[r0|]|e]; [apply IH|apply IH|]; auto.
  apply in_or_app. now left.
Qed.

(** A point the body skips leaves no trace. *)
Lemma append_points_skip (pre post : list pyval) (point : pyval)
      (processed : list EconomicData) :
  step point = Ok None ->
  for_each (append_point step) (pre ++ point :: post) processed
  = for_each (append_point step) (pre ++ post) processed.
Proof.
  intros Hp. rewrite !for_each_app.
  destruct (for_each (append_point step) pre processed) as [s' [e|]]; [reflexivity|].
  cbn [for_each]. unfold append_point at 1. now rewrite Hp.
Qed.

(** A point the body turns into a record is in the output when no point
    before it raised. *)
Lemma append_points_emit (pre post : list pyval) (point : pyval)
      (processed : list EconomicData) (r : EconomicData) :
  Forall (fun q => raises (step q) = false) pre ->
  step point = Ok (Some r) ->
  In r (fst (for_each (append_point step) (pre ++ point :: post) processed)).
Proof.
  revert processed. induction pre as [|q pre IH]; intros processed Hpre Hp.
  - cbn [app for_each]. unfold append_point at 1. rewrite Hp.
    apply append_points_keep. apply in_or_app. right. now left.
  - inversion Hpre as [|? ? Hq Hrest]; subst.
    cbn [app for_each]. unfold append_point at 1.
    destruct (step q) as [[r0|]|e]; [now apply IH|now apply IH|discriminate].
Qed.

End PointLoop.

(** ** What a point must be to become a record *)

Ltac invert_step H :=
  repeat match type of H with
         | bind ?c _ = Ok _ =>
             let E := fresh "E" in
             destruct c eqn:E; cbn [bind] in H; [|discriminate H]
         | or_skip ?c _ = Ok (Some _) =>
             let E := fresh "E" in
             destruct c as [?|[]] eqn:E; cbn [or_skip] in H; try discriminate H
         | (if ?b then _ else _) = Ok (Some _) =>
             let E := fresh "E" in
             destruct b eqn:E; [discriminate H|]
         end.

Lemma py_get_dict (v : pyval) (k : string) (default x : pyval) :
  py_get v k default = Ok x -> exists d, v = VDict d /\ x = get_default k default d.
Proof.
  destruct v; cbn [py_get]; try discriminate.
  intros H. injection H as <-. eauto.
Qed.

Lemma py_strptime_str (fmt : list directive) (v : pyval) (dt : pydate) :
  py_strptime fmt v = Ok dt -> exists s, v = VStr s /\ strptime fmt s = Ok dt.
Proof.
  destruct v; cbn [py_strptime]; try discriminate. eauto.
Qed.

Lemma cl_point_inv (country_code : pyval) (s : series) (point : pyval) (r : EconomicData) :
  cl_point country_code s point = Ok (Some r) ->
  exists d dt f,
    point = VDict d /\
    truthy (get_default "date" VNone d) = true /\
    truthy (get_default "value" VNone d) = true /\
    py_strptime fmt_iso (get_default "date" VNone d) = Ok dt /\
    py_float (get_default "value" VNone d) = Ok f /\
    made_from r point "ChilePreprocessor" dt f.
Proof.
  unfold cl_point. intros H. invert_step H.
  injection H as <-.
  destruct (py_get_dict _ _ _ _ E) as (d & -> & ->).
  cbn [py_get] in E0. injection E0 as <-.
  apply orb_false_iff in E1. destruct E1 as [T1 T2].
  apply negb_false_iff in T1, T2.
  exists d, a1, a2. repeat split; assumption.
Qed.

Lemma us_point_inv (country_code : pyval) (s : series) (point : pyval) (r : EconomicData) :
  us_point country_code s point = Ok (Some r) ->
  exists d dt f,
    point = VDict d /\
    truthy (get_default "date" VNone d) = true /\
    truthy (get_default "value" VNone d) = true /\
    us_parse_date (get_default "date" VNone d) = Ok dt /\
    py_float (get_default "value" VNone d) = Ok f /\
    made_from r point "USPreprocessor" dt f.
Proof.
  unfold us_point. intros H. invert_step H.
  injection H as <-.
  destruct (py_get_dict _ _ _ _ E) as (d & -> & ->).
  cbn [py_get] in E0, E1. injection E0 as <-. injection E1 as <-.
  apply orb_false_iff in E2. destruct E2 as [T1 T2].
  apply negb_false_iff in T1, T2.
  exists d, a2, a3. repeat split; assumption.
Qed.

Lemma eu_value_inv (value_str : pyval) (f : spec_float) :
  eu_value value_str = Ok (Some f) ->
  py_float value_str = Ok f \/
  exists s, value_str = VStr s /\ float_of_string s = Raise ValueError /\
            float_of_string (clean_value s) = Ok f.
Proof.
  unfold eu_value. destruct (py_float value_str) as [g|e] eqn:Hf.
  - intros H. injection H as <-. now left.
  - destruct e; try discriminate.
    destruct value_str; try discriminate.
    cbn [py_float] in Hf.
    destruct (float_of_string (clean_value s)) as [g|[]] eqn:Hc; try discriminate.
    intros H. injection H as <-. right. eauto.
Qed.

Lemma eu_csv_point_inv (s : eu_series) (point : pyval) (r : EconomicData) :
  eu_csv_point s point = Ok (Some r) ->
  exists d date_str value_str dt f,
    point = VDict d /\
    dict_get (fst (eu_columns (e_metric_name s))) d = Some date_str /\
    dict_get (snd (eu_columns (e_metric_name s))) d = Some value_str /\
    eu_csv_date date_str = Ok dt /\
    eu_reads value_str f /\
    made_from r point "EUPreprocessor" dt f.
Proof.
  unfold eu_csv_point. destruct (eu_columns (e_metric_name s)) as [date_col value_col].
  cbn [fst snd]. intros H.
  destruct (py_in date_col point) as [[|]|] eqn:Hin1; cbn [bind negb] in H; try discriminate.
  destruct (py_in value_col point) as [[|]|] eqn:Hin2; cbn [bind negb] in H; try discriminate.
  destruct (py_getitem point date_col) as [ds|] eqn:Hds; cbn [bind] in H; [|discriminate].
  destruct (py_getitem point value_col) as [vs|] eqn:Hvs; cbn [bind] in H; [|discriminate].
  destruct (eu_csv_date ds) as [dt|[]] eqn:Hdt; cbn [or_skip] in H; try discriminate.
  destruct (eu_value vs) as [[f|]|] eqn:Hf; cbn [bind] in H; try discriminate.
  destruct (py_in "Q" ds) as [q|] eqn:Hq; cbn [bind] in H; [|discriminate].
  destruct (py_get point "revision" (VInt 0)) as [rev|] eqn:Hrev; cbn [bind] in H;
    [|discriminate].
  injection H as <-.
  destruct point; cbn [py_getitem] in Hds, Hvs; try discriminate.
  destruct (dict_get date_col d) as [ds'|] eqn:Hd; [|discriminate].
  destruct (dict_get value_col d) as [vs'|] eqn:Hv; [|discriminate].
  injection Hds as ->. injection Hvs as ->.
  exists d, ds, vs, dt, f. repeat split; try assumption; try reflexivity.
  now apply eu_value_inv.
Qed.

Lemma eu_table_point_inv (s : eu_series) (point : pyval) (r : EconomicData) :
  eu_table_point s point = Ok (Some r) ->
  exists d date_str value_str dt f,
    point = VDict d /\
    scan_cells (e_metric_name s) d (VNone, VNone) = (date_str, value_str) /\
    truthy date_str = true /\ truthy value_str = true /\
    eu_table_date date_str = Ok dt /\
    eu_reads value_str f /\
    made_from r point "EUPreprocessor" dt f.
Proof.
  unfold eu_table_point. intros H.
  destruct point; cbn [py_items bind] in H; try discriminate.
  destruct (scan_cells (e_metric_name s) d (VNone, VNone)) as [ds vs] eqn:Hscan.
  destruct (negb (truthy ds) || negb (truthy vs)) eqn:Ht; [discriminate|].
  apply orb_false_iff in Ht. destruct Ht as [T1 T2]. apply negb_false_iff in T1, T2.
  destruct (eu_table_date ds) as [dt|[]] eqn:Hdt; cbn [or_skip] in H; try discriminate.
  destruct (eu_value vs) as [[f|]|] eqn:Hf; cbn [bind] in H; try discriminate.
  cbn [py_get bind] in H. injection H as <-.
  exists d, ds, vs, dt, f. repeat split; try assumption; try reflexivity.
  now apply eu_value_inv.
Qed.

(** ** What [process] returns *)

Lemma result_of_guarded {X : Type} (body : X -> action (list EconomicData)) (l : list X) :
  result_of (for_each (fun x => try_except_all (body x)) l [])
  = Ok (fst (for_each (fun x => try_except_all (body x)) l [])).
Proof.
  pose proof (for_each_guarded body l []) as H.
  destruct (for_each _ l []) as [out e]. cbn [snd] in H. subst e. reflexivity.
Qed.

Lemma point_loop_origin {X : Type} (setup : outcome (X * pyval)) (processed : list EconomicData)
      (r : EconomicData) (make : X -> pyval -> outcome (option EconomicData)) :
  In r (fst (then_loop setup
               (fun sp => then_loop (py_iter (snd sp))
                            (for_each (append_point (make (fst sp))))) processed)) ->
  In r processed \/ exists x point, make x point = Ok (Some r).
Proof.
  unfold then_loop. destruct setup as [[x pts]|e]; [|now left].
  cbn [fst snd]. destruct (py_iter pts) as [points|e]; [|now left].
  intros H. destruct (append_points_origin _ _ _ _ H) as [Hin|(p & _ & Hp)]; [now left|].
  right. now exists x, p.
Qed.

Lemma cl_process_returns (indicator_metadata country_code : pyval) (raw_data : dict) :
  cl_process indicator_metadata country_code raw_data
  = Ok (fst (for_each (cl_metric indicator_metadata country_code) raw_data [])).
Proof. unfold cl_process, cl_metric. apply result_of_guarded. Qed.

Lemma us_process_returns (country_code : pyval) (raw_data : dict) :
  us_process country_code raw_data
  = Ok (fst (for_each (us_metric country_code) raw_data [])).
Proof. unfold us_process, us_metric. apply result_of_guarded. Qed.

Lemma eu_process_returns (country_code : pyval) (raw_data : dict) :
  eu_process country_code raw_data
  = Ok (fst (for_each (eu_metric country_code) raw_data [])).
Proof. unfold eu_process, eu_metric. apply result_of_guarded. Qed.

Lemma cl_process_origin (indicator_metadata country_code : pyval) (raw_data : dict)
      (out : list EconomicData) (r : EconomicData) :
  cl_process indicator_metadata country_code raw_data = Ok out ->
  In r out ->
  exists s point, cl_point country_code s point = Ok (Some r).
Proof.
  rewrite cl_process_returns. intros H Hin. injection H as <-.
  unfold cl_metric in Hin.
  apply (for_each_guarded_origin _
           (fun _ r => exists s point, cl_point country_code s point = Ok (Some r)))
    in Hin.
  - destruct Hin as [[]|(_ & _ & H)]. exact H.
  - intros metric s0 _ H.
    apply point_loop_origin in H. exact H.
Qed.

Lemma us_process_origin (country_code : pyval) (raw_data : dict)
      (out : list EconomicData) (r : EconomicData) :
  us_process country_code raw_data = Ok out ->
  In r out ->
  exists s point, us_point country_code s point = Ok (Some r).
Proof.
  rewrite us_process_returns. intros H Hin. injection H as <-.
  unfold us_metric in Hin.
  apply (for_each_guarded_origin _
           (fun _ r => exists s point, us_point country_code s point = Ok (Some r)))
    in Hin.
  - destruct Hin as [[]|(_ & _ & H)]. exact H.
  - intros metric s0 _ H.
    apply point_loop_origin in H. exact H.
Qed.

Lemma helper_origin (step : pyval -> outcome (option EconomicData)) (data_points : pyval)
      (rows : list EconomicData) (r : EconomicData) :
  result_of (then_loop (py_iter data_points) (for_each (append_point step)) []) = Ok rows ->
  In r rows ->
  exists point, step point = Ok (Some r).
Proof.
  unfold then_loop. destruct (py_iter data_points) as [points|e]; [|discriminate].
  intros H Hin.
  pose proof (append_points_origin step points [] r) as Ho.
  destruct (for_each (append_point step) points []) as [out [e|]]; [discriminate|].
  cbn [result_of] in H. injection H as <-. cbn [fst] in Ho.
  destruct (Ho Hin) as [[]|(p & _ & Hp)]. now exists p.
Qed.

Lemma eu_process_origin (country_code : pyval) (raw_data : dict)
      (out : list EconomicData) (r : EconomicData) :
  eu_process country_code raw_data = Ok out ->
  In r out ->
  exists s point,
    eu_csv_point s point = Ok (Some r) \/ eu_table_point s point = Ok (Some r).
Proof.
  rewrite eu_process_returns. intros H Hin. injection H as <-.
  unfold eu_metric in Hin.
  apply (for_each_guarded_origin _
           (fun _ r => exists s point,
                eu_csv_point s point = Ok (Some r) \/ eu_table_point s point = Ok (Some r)))
    in Hin.
  - destruct Hin as [[]|(_ & _ & H)]. exact H.
  - intros metric s0 _. unfold eu_metric_body.
    destruct (py_get (snd metric) "format" VNone) as [fmt|]; [|now left].
    destruct (py_get (snd metric) "data" (VList [])) as [pts|]; [|now left].
    destruct (negb (truthy pts)); [now left|].
    destruct (py_getitem _ "id") as [id|]; [|now left].
    destruct (py_getitem _ "name") as [name|]; [|now left].
    destruct (is_str "csv" fmt).
    + unfold extend_with.
      destruct (_process_csv_data _ pts) as [rows|] eqn:Hrows; [|now left].
      cbn [fst]. intros H. apply in_app_or in H. destruct H as [H|H]; [now left|].
      right. unfold _process_csv_data in Hrows.
      destruct (helper_origin _ _ _ _ Hrows H) as (p & Hp). eauto.
    + destruct (is_str "html_table" fmt); [|now left].
      unfold extend_with.
      destruct (_process_table_data _ _) as [rows|] eqn:Hrows; [|now left].
      cbn [fst]. intros H. apply in_app_or in H. destruct H as [H|H]; [now left|].
      right. unfold _process_table_data in Hrows.
      destruct (helper_origin _ _ _ _ Hrows H) as (p & Hp). eauto.
Qed.

(** ** Records stay in the output *)

Lemma for_each_keeps {X E : Type} (body : X -> action (list E)) (l : list X)
      (s : list E) (r : E) :
  (forall x s0, In r s0 -> In r (fst (body x s0))) ->
  In r s -> In r (fst (for_each body l s)).
Proof.
  intros Hbody. revert s. induction l as [|x l IH]; intros s Hin; [exact Hin|].
  cbn [for_each]. pose proof (Hbody x s Hin) as Hx.
  destruct (body x s) as [s' [e|]]; cbn [fst] in *; [exact Hx|now apply IH].
Qed.

Lemma point_loop_keeps {X : Type} (setup : outcome (X * pyval))
      (make : X -> pyval -> outcome (option EconomicData))
      (processed : list EconomicData) (r : EconomicData) :
  In r processed ->
  In r (fst (try_except_all
               (then_loop setup
                  (fun sp => then_loop (py_iter (snd sp))
                               (for_each (append_point (make (fst sp)))))) processed)).
Proof.
  intros Hin. unfold try_except_all, then_loop. cbn [fst].
  destruct setup as [[x pts]|e]; [|exact Hin].
  cbn [fst snd]. destruct (py_iter pts) as [points|e]; [|exact Hin].
  now apply append_points_keep.
Qed.

Lemma eu_metric_keeps (country_code : pyval) (metric : string * pyval)
      (processed : list EconomicData) (r : EconomicData) :
  In r processed -> In r (fst (eu_metric country_code metric processed)).
Proof.
  intros Hin. unfold eu_metric, try_except_all, eu_metric_body. cbn [fst].
  destruct (py_get (snd metric) "format" VNone) as [fmt|]; [|exact Hin].
  destruct (py_get (snd metric) "data" (VList [])) as [pts|]; [|exact Hin].
  destruct (negb (truthy pts)); [exact Hin|].
  destruct (py_getitem _ "id") as [id|]; [|exact Hin].
  destruct (py_getitem _ "name") as [name|]; [|exact Hin].
  unfold extend_with.
  destruct (is_str "csv" fmt).
  - destruct (_process_csv_data _ pts); cbn [fst]; [|exact Hin].
    apply in_or_app. now left.
  - destruct (is_str "html_table" fmt); [|exact Hin].
    destruct (_process_table_data _ _); cbn [fst]; [|exact Hin].
    apply in_or_app. now left.
Qed.

Lemma cl_metrics_end (indicator_metadata country_code : pyval) (l : dict)
      (s : list EconomicData) :
  snd (for_each (cl_metric indicator_metadata country_code) l s) = None.
Proof. unfold cl_metric. apply for_each_guarded. Qed.

Lemma us_metrics_end (country_code : pyval) (l : dict) (s : list EconomicData) :
  snd (for_each (us_metric country_code) l s) = None.
Proof. unfold us_metric. apply for_each_guarded. Qed.

Lemma eu_metrics_end (country_code : pyval) (l : dict) (s : list EconomicData) :
  snd (for_each (eu_metric country_code) l s) = None.
Proof. unfold eu_metric. apply for_each_guarded. Qed.

(** A point that a variant turns into a record is in what [process]
    returns, provided no point before it in its metric raised. *)
Lemma cl_process_emits (indicator_metadata country_code : pyval)
      (before after : dict) (metric_name : string) (data : pyval) (s : series)
      (pre post : list pyval) (point : pyval) (r : EconomicData) :
  cl_series indicator_metadata metric_name data = Ok (s, VList (pre ++ point :: post)) ->
  Forall (fun q => raises (cl_point country_code s q) = false) pre ->
  cl_point country_code s point = Ok (Some r) ->
  exists out,
    cl_process indicator_metadata country_code (before ++ (metric_name, data) :: after)
    = Ok out /\ In r out.
Proof.
  intros Hs Hpre Hp. eexists. split; [apply cl_process_returns|].
  rewrite for_each_app.
  pose proof (cl_metrics_end indicator_metadata country_code before []) as Hg.
  destruct (for_each (cl_metric indicator_metadata country_code) before []) as [s1 e1].
  cbn [snd] in Hg. subst e1. cbn [for_each].
  unfold cl_metric at 1, try_except_all at 1.
  apply for_each_keeps.
  - intros x s0 H0. unfold cl_metric. now apply point_loop_keeps.
  - unfold then_loop. cbn [fst snd]. rewrite Hs. cbn [fst snd py_iter].
    now apply append_points_emit.
Qed.

Lemma us_process_emits (country_code : pyval)
      (before after : dict) (metric_name : string) (data : pyval) (s : series)
      (pre post : list pyval) (point : pyval) (r : EconomicData) :
  us_series metric_name data = Ok (s, VList (pre ++ point :: post)) ->
  Forall (fun q => raises (us_point country_code s q) = false) pre ->
  us_point country_code s point = Ok (Some r) ->
  exists out,
    us_process country_code (before ++ (metric_name, data) :: after) = Ok out /\ In r out.
Proof.
  intros Hs Hpre Hp. eexists. split; [apply us_process_returns|].
  rewrite for_each_app.
  pose proof (us_metrics_end country_code before []) as Hg.
  destruct (for_each (us_metric country_code) before []) as [s1 e1].
  cbn [snd] in Hg. subst e1. cbn [for_each].
  unfold us_metric at 1, try_except_all at 1.
  apply for_each_keeps.
  - intros x s0 H0. unfold us_metric. now apply point_loop_keeps.
  - unfold then_loop. cbn [fst snd]. rewrite Hs. cbn [fst snd py_iter].
    now apply append_points_emit.
Qed.

Lemma eu_indicator_entries (metric_name : string) :
  py_getitem (eu_indicator metric_name) "id"
  = Ok (get_default "id" VNone (entries (eu_indicator metric_name))) /\
  py_getitem (eu_indicator metric_name) "name"
  = Ok (get_default "name" VNone (entries (eu_indicator metric_name))).
Proof.
  unfold eu_indicator, get_default, eu_indicator_mapping. cbn [dict_get].
  repeat match goal with
         | |- context [String.eqb metric_name ?k] => destruct (String.eqb metric_name k)
         end; split; reflexivity.
Qed.

(** The body of the metric loop of the EU variant, for a metric in CSV form
    with points. *)
Lemma eu_metric_body_csv (country_code : pyval) (metric_name : string) (d : dict)
      (data_points : pyval) (processed : list EconomicData) :
  dict_get "format" d = Some (VStr "csv") ->
  dict_get "data" d = Some data_points ->
  truthy data_points = true ->
  eu_metric_body country_code metric_name (VDict d) processed
  = extend_with (_process_csv_data (eu_series_of country_code metric_name) data_points)
                processed.
Proof.
  intros Hf Hd Ht. unfold eu_metric_body. cbn [py_get].
  assert (G1 : get_default "format" VNone d = VStr "csv")
    by (unfold get_default; now rewrite Hf).
  assert (G2 : get_default "data" (VList []) d = data_points)
    by (unfold get_default; now rewrite Hd).
  rewrite G1, G2, Ht. cbn [negb].
  fold (eu_indicator metric_name).
  destruct (eu_indicator_entries metric_name) as [-> ->].
  reflexivity.
Qed.

Lemma eu_metric_body_table (country_code : pyval) (metric_name : string) (d : dict)
      (data_points : pyval) (processed : list EconomicData) :
  dict_get "format" d = Some (VStr "html_table") ->
  dict_get "data" d = Some data_points ->
  truthy data_points = true ->
  eu_metric_body country_code metric_name (VDict d) processed
  = extend_with (_process_table_data (eu_series_of country_code metric_name)
                                     (flatten_tables data_points))
                processed.
Proof.
  intros Hf Hd Ht. unfold eu_metric_body. cbn [py_get].
  assert (G1 : get_default "format" VNone d = VStr "html_table")
    by (unfold get_default; now rewrite Hf).
  assert (G2 : get_default "data" (VList []) d = data_points)
    by (unfold get_default; now rewrite Hd).
  rewrite G1, G2, Ht. cbn [negb].
  fold (eu_indicator metric_name).
  destruct (eu_indicator_entries metric_name) as [-> ->].
  reflexivity.
Qed.

Lemma helper_emits (step : pyval -> outcome (option EconomicData))
      (pre post : list pyval) (point : pyval) (r : EconomicData) :
  Forall (fun q => raises (step q) = false) (pre ++ point :: post) ->
  step point = Ok (Some r) ->
  exists rows,
    result_of (then_loop (py_iter (VList (pre ++ point :: post)))
                         (for_each (append_point step)) []) = Ok rows /\
    In r rows.
Proof.
  intros Hall Hp. unfold then_loop. cbn [py_iter].
  assert (Hend : forall l s, Forall (fun q => raises (step q) = false) l ->
                             snd (for_each (append_point step) l s) = None).
  { induction l as [|q l IH]; intros s0 Hl; [reflexivity|].
    inversion Hl as [|? ? Hq Hrest]; subst. cbn [for_each]. unfold append_point at 1.
    destruct (step q) as [[r0|]|e]; [now apply IH|now apply IH|discriminate]. }
  pose proof (Hend _ [] Hall) as He.
  pose proof (append_points_emit step pre post point [] r) as Hin.
  destruct (for_each (append_point step) (pre ++ point :: post) []) as [rows e].
  cbn [snd] in He. subst e. exists rows. split; [reflexivity|].
  apply Hin; [|exact Hp]. apply Forall_app in Hall. tauto.
Qed.

(** In the EU variant an exception in a helper loses the whole metric: a
    point becomes a record of the output when no point of its metric
    raises. *)
Lemma eu_process_emits_csv (country_code : pyval) (before after : dict)
      (metric_name : string) (d : dict) (pre post : list pyval) (point : pyval)
      (r : EconomicData) :
  dict_get "format" d = Some (VStr "csv") ->
  dict_get "data" d = Some (VList (pre ++ point :: post)) ->
  Forall (fun q => raises (eu_csv_point (eu_series_of country_code metric_name) q) = false)
         (pre ++ point :: post) ->
  eu_csv_point (eu_series_of country_code metric_name) point = Ok (Some r) ->
  exists out,
    eu_process country_code (before ++ (metric_name, VDict d) :: after) = Ok out /\ In r out.
Proof.
  intros Hf Hd Hall Hp. eexists. split; [apply eu_process_returns|].
  rewrite for_each_app.
  pose proof (eu_metrics_end country_code before []) as Hg.
  destruct (for_each (eu_metric country_code) before []) as [s1 e1].
  cbn [snd] in Hg. subst e1. cbn [for_each].
  unfold eu_metric at 1, try_except_all at 1.
  apply for_each_keeps; [intros x s0 H0; now apply eu_metric_keeps|].
  cbn [fst snd]. rewrite (eu_metric_body_csv _ _ _ _ _ Hf Hd) by (now destruct pre).
  destruct (helper_emits _ _ _ _ _ Hall Hp) as (rows & Hrows & Hin).
  unfold _process_csv_data. rewrite Hrows. cbn [extend_with fst].
  apply in_or_app. now right.
Qed.

Lemma flatten_rows (pre post : list pyval) (d : dict) :
  flatten_tables (VList (pre ++ VDict d :: post)) = VList (pre ++ VDict d :: post).
Proof.
  unfold flatten_tables. rewrite forallb_app. cbn [forallb is_list andb].
  now rewrite andb_false_r.
Qed.

Lemma eu_process_emits_table (country_code : pyval) (before after : dict)
      (metric_name : string) (d : dict) (pre post : list pyval) (cells : dict)
      (r : EconomicData) :
  dict_get "format" d = Some (VStr "html_table") ->
  dict_get "data" d = Some (VList (pre ++ VDict cells :: post)) ->
  Forall (fun q => raises (eu_table_point (eu_series_of country_code metric_name) q) = false)
         (pre ++ VDict cells :: post) ->
  eu_table_point (eu_series_of country_code metric_name) (VDict cells) = Ok (Some r) ->
  exists out,
    eu_process country_code (before ++ (metric_name, VDict d) :: after) = Ok out /\ In r out.
Proof.
  intros Hf Hd Hall Hp. eexists. split; [apply eu_process_returns|].
  rewrite for_each_app.
  pose proof (eu_metrics_end country_code before []) as Hg.
  destruct (for_each (eu_metric country_code) before []) as [s1 e1].
  cbn [snd] in Hg. subst e1. cbn [for_each].
  unfold eu_metric at 1, try_except_all at 1.
  apply for_each_keeps; [intros x s0 H0; now apply eu_metric_keeps|].
  cbn [fst snd]. rewrite (eu_metric_body_table _ _ _ _ _ Hf Hd) by (now destruct pre).
  rewrite flatten_rows.
  destruct (helper_emits _ _ _ _ _ Hall Hp) as (rows & Hrows & Hin).
  unfold _process_table_data. rewrite Hrows. cbn [extend_with fst].
  apply in_or_app. now right.
Qed.

(** ** Texts the parsers accept *)

Lemma contains_later (n : string) (c : ascii) (s : string) :
  contains n s = true -> contains n (String c s) = true.
Proof. intros H. cbn [contains]. rewrite H. apply orb_true_r. Qed.

(** A date in the ISO form has a dash. *)
Lemma strptime_iso_dash (ds : string) (dt : pydate) :
  strptime fmt_iso ds = Ok dt -> contains "-" ds = true.
Proof.
  unfold strptime, fmt_iso. intros H.
  destruct ds as [|c1 [|c2 [|c3 [|c4 [|c5 rest]]]]];
    cbn [list_ascii_of_string match_format alternatives first_success four_digits] in H;
    try discriminate H;
    (destruct (forallb is_digit [c1; c2; c3; c4]); cbn [literal] in H; [|discriminate H]);
    try discriminate H.
  destruct (Ascii.eqb "-" c5) eqn:He; [|discriminate H].
  apply Ascii.eqb_eq in He. subst c5.
  do 4 apply contains_later. destruct rest; reflexivity.
Qed.

Lemma strptime_iso_truthy (ds : string) (dt : pydate) :
  strptime fmt_iso ds = Ok dt -> truthy (VStr ds) = true.
Proof. destruct ds; [discriminate|reflexivity]. Qed.

Lemma float_of_string_truthy (vs : string) (f : spec_float) :
  float_of_string vs = Ok f -> truthy (VStr vs) = true.
Proof. destruct vs; [discriminate|reflexivity]. Qed.

Lemma float_of_string_value_error (s : string) (e : exn) :
  float_of_string s = Raise e -> e = ValueError.
Proof.
  unfold float_of_string.
  destruct (drop_underscores _ _) as [l|]; [|congruence].
  destruct (split_sign l) as [neg body].
  destruct (_ || _); [discriminate|].
  destruct (String.eqb _ _); [discriminate|].
  destruct (read_decimal neg body); [discriminate|congruence].
Qed.

Lemma provenance_inj (p q : pyval) (a b : string) :
  provenance p a = provenance q b -> p = q.
Proof. unfold provenance. intros H. now injection H. Qed.

Lemma us_parse_date_str (v : pyval) (dt : pydate) :
  us_parse_date v = Ok dt -> exists s, v = VStr s.
Proof.
  unfold us_parse_date. destruct (py_in "-" v) as [[|]|]; cbn [bind]; try discriminate;
    intros H; apply py_strptime_str in H; destruct H as (s & -> & _); eauto.
Qed.

Lemma eu_table_date_str (v : pyval) (dt : pydate) :
  eu_table_date v = Ok dt -> exists s, v = VStr s.
Proof.
  unfold eu_table_date.
  destruct (py_in "-" v) as [[|]|]; cbn [bind]; try discriminate;
    [intros H; apply py_strptime_str in H; destruct H as (s & -> & _); eauto|].
  destruct (py_in "/" v) as [[|]|]; cbn [bind]; try discriminate;
    intros H; apply py_strptime_str in H; destruct H as (s & -> & _); eauto.
Qed.

Lemma eu_csv_date_str (v : pyval) (dt : pydate) :
  eu_csv_date v = Ok dt -> exists s, v = VStr s.
Proof.
  unfold eu_csv_date.
  destruct (py_in "-" v) as [[|]|]; cbn [bind]; try discriminate;
    [intros H; apply py_strptime_str in H; destruct H as (s & -> & _); eauto|].
  destruct (py_in "/" v) as [[|]|]; cbn [bind]; try discriminate;
    [intros H; apply py_strptime_str in H; destruct H as (s & -> & _); eauto|].
  destruct (py_in "Q" v) as [[|]|]; cbn [bind]; try discriminate.
  - destruct v; cbn [py_quarter_date]; try discriminate. eauto.
  - intros H; apply py_strptime_str in H; destruct H as (s & -> & _); eauto.
Qed.

(** An ISO date goes through every variant's date parser the same way. *)
Lemma iso_date_everywhere (ds : string) (dt : pydate) :
  strptime fmt_iso ds = Ok dt ->
  py_strptime fmt_iso (VStr ds) = Ok dt /\
  us_parse_date (VStr ds) = Ok dt /\
  eu_csv_date (VStr ds) = Ok dt /\
  eu_table_date (VStr ds) = Ok dt.
Proof.
  intros H. pose proof (strptime_iso_dash _ _ H) as Hd.
  unfold us_parse_date, eu_csv_date, eu_table_date. cbn [py_in bind py_strptime].
  rewrite Hd. repeat split; exact H.
Qed.

(** ** A point with an ISO date and a value text, variant by variant *)

Section TextPoint.

Variable d : dict.
Variables ds vs : string.
Variable dt : pydate.

Hypothesis date_cell : dict_get "date" d = Some (VStr ds).
Hypothesis value_cell : dict_get "value" d = Some (VStr vs).
Hypothesis date_ok : strptime fmt_iso ds = Ok dt.

Lemma text_point_cells :
  get_default "date" VNone d = VStr ds /\ get_default "value" VNone d = VStr vs /\
  truthy (VStr ds) = true.
Proof.
  unfold get_default. rewrite date_cell, value_cell.
  repeat split. exact (strptime_iso_truthy _ _ date_ok).
Qed.

(** The Chilean variant: one [float], no second try. *)
Lemma cl_point_text (country_code : pyval) (s : series) :
  cl_point country_code s (VDict d) =
  match float_of_string vs with
  | Ok f => Ok (Some (cl_record country_code s (VDict d) f dt))
  | Raise _ => Ok None
  end.
Proof.
  destruct text_point_cells as (G1 & G2 & T1).
  destruct (iso_date_everywhere _ _ date_ok) as (P1 & _).
  unfold cl_point. cbn [py_get bind]. rewrite G1, G2, T1. cbn [negb orb].
  destruct (float_of_string vs) as [f|e] eqn:Hf.
  - rewrite (float_of_string_truthy _ _ Hf). cbn [negb].
    rewrite P1. cbn [or_skip py_float]. rewrite Hf. reflexivity.
  - rewrite (float_of_string_value_error _ _ Hf) in Hf.
    destruct (truthy (VStr vs)); cbn [negb]; [|reflexivity].
    rewrite P1. cbn [or_skip py_float]. now rewrite Hf.
Qed.

(** The US variant: the same. *)
Lemma us_point_text (country_code : pyval) (s : series) :
  us_point country_code s (VDict d) =
  match float_of_string vs with
  | Ok f => Ok (Some (us_record country_code s (VDict d) f dt
                                (get_default "revision" (VInt 0) d)))
  | Raise _ => Ok None
  end.
Proof.
  destruct text_point_cells as (G1 & G2 & T1).
  destruct (iso_date_everywhere _ _ date_ok) as (_ & P2 & _).
  unfold us_point. cbn [py_get bind]. rewrite G1, G2, T1. cbn [negb orb].
  destruct (float_of_string vs) as [f|e] eqn:Hf.
  - rewrite (float_of_string_truthy _ _ Hf). cbn [negb].
    rewrite P2. cbn [or_skip py_float]. rewrite Hf. reflexivity.
  - rewrite (float_of_string_value_error _ _ Hf) in Hf.
    destruct (truthy (VStr vs)); cbn [negb]; [|reflexivity].
    rewrite P2. cbn [or_skip py_float]. now rewrite Hf.
Qed.

Lemma eu_value_text : eu_value (VStr vs) = Ok (eu_value_of_text vs).
Proof.
  unfold eu_value, eu_value_of_text. cbn [py_float].
  destruct (float_of_string vs) as [f|e] eqn:Hf; [reflexivity|].
  rewrite (float_of_string_value_error _ _ Hf).
  destruct (float_of_string (clean_value vs)) as [g|e'] eqn:Hc; [reflexivity|].
  now rewrite (float_of_string_value_error _ _ Hc).
Qed.

(** The EU variant, CSV form: a second try on the cleaned text. *)
Lemma eu_csv_point_text (s : eu_series) :
  eu_columns (e_metric_name s) = ("date", "value") ->
  eu_csv_point s (VDict d) =
  match eu_value_of_text vs with
  | Some f =>
      Ok (Some (eu_record s (VDict d) f dt
                          (if contains "Q" ds then "quarterly" else "monthly")
                          (get_default "revision" (VInt 0) d)))
  | None => Ok None
  end.
Proof.
  intros Hcols.
  destruct (iso_date_everywhere _ _ date_ok) as (_ & _ & P3 & _).
  unfold eu_csv_point. rewrite Hcols. cbn [py_in py_getitem bind].
  unfold dict_has. rewrite date_cell, value_cell. cbn [negb bind].
  rewrite P3. cbn [or_skip]. rewrite eu_value_text. cbn [bind].
  destruct (eu_value_of_text vs); reflexivity.
Qed.

(** The EU variant, table form. *)
Lemma eu_table_point_text (s : eu_series) :
  scan_cells (e_metric_name s) d (VNone, VNone) = (VStr ds, VStr vs) ->
  eu_table_point s (VDict d) =
  match eu_value_of_text vs with
  | Some f =>
      Ok (Some (eu_record s (VDict d) f dt "monthly" (get_default "revision" (VInt 0) d)))
  | None => Ok None
  end.
Proof.
  intros Hscan.
  destruct text_point_cells as (_ & _ & T1).
  destruct (iso_date_everywhere _ _ date_ok) as (_ & _ & _ & P4).
  unfold eu_table_point. cbn [py_items bind]. rewrite Hscan, T1. cbn [negb orb].
  destruct (truthy (VStr vs)) eqn:T2; cbn [negb].
  - rewrite P4. cbn [or_skip]. rewrite eu_value_text. cbn [bind].
    destruct (eu_value_of_text vs); reflexivity.
  - destruct vs; [reflexivity|discriminate].
Qed.

End TextPoint.

(** ** A point with a date its variant accepts and a value [float] reads *)

Lemma us_parse_date_truthy (ds : string) (dt : pydate) :
  us_parse_date (VStr ds) = Ok dt -> truthy (VStr ds) = true.
Proof. destruct ds; [intros H; vm_compute in H; discriminate H|reflexivity]. Qed.

Lemma eu_table_date_truthy (ds : string) (dt : pydate) :
  eu_table_date (VStr ds) = Ok dt -> truthy (VStr ds) = true.
Proof. destruct ds; [intros H; vm_compute in H; discriminate H|reflexivity]. Qed.

Lemma eu_value_of_float (vs : string) (f : spec_float) :
  float_of_string vs = Ok f -> eu_value (VStr vs) = Ok (Some f).
Proof. intros H. unfold eu_value. cbn [py_float]. now rewrite H. Qed.

Lemma us_point_accepted (country_code : pyval) (s : series) (d : dict) (ds vs : string)
      (dt : pydate) (f : spec_float) :
  dict_get "date" d = Some (VStr ds) ->
  dict_get "value" d = Some (VStr vs) ->
  us_parse_date (VStr ds) = Ok dt ->
  float_of_string vs = Ok f ->
  us_point country_code s (VDict d)
  = Ok (Some (us_record country_code s (VDict d) f dt (get_default "revision" (VInt 0) d))).
Proof.
  intros Hd Hv Hdt Hf.
  assert (G1 : get_default "date" VNone d = VStr ds) by (unfold get_default; now rewrite Hd).
  assert (G2 : get_default "value" VNone d = VStr vs) by (unfold get_default; now rewrite Hv).
  unfold us_point. cbn [py_get bind].
  rewrite G1, G2, (us_parse_date_truthy _ _ Hdt), (float_of_string_truthy _ _ Hf).
  cbn [negb orb]. rewrite Hdt. cbn [or_skip py_float]. rewrite Hf. reflexivity.
Qed.

Lemma eu_csv_point_accepted (s : eu_series) (d : dict) (ds vs : string)
      (dt : pydate) (f : spec_float) :
  dict_get (fst (eu_columns (e_metric_name s))) d = Some (VStr ds) ->
  dict_get (snd (eu_columns (e_metric_name s))) d = Some (VStr vs) ->
  eu_csv_date (VStr ds) = Ok dt ->
  float_of_string vs = Ok f ->
  eu_csv_point s (VDict d)
  = Ok (Some (eu_record s (VDict d) f dt
                        (if contains "Q" ds then "quarterly" else "monthly")
                        (get_default "revision" (VInt 0) d))).
Proof.
  intros Hd Hv Hdt Hf. unfold eu_csv_point.
  destruct (eu_columns (e_metric_name s)) as [date_col value_col]. cbn [fst snd] in Hd, Hv.
  cbn [py_in py_getitem bind]. unfold dict_has. rewrite Hd, Hv. cbn [negb bind].
  rewrite Hdt. cbn [or_skip]. rewrite (eu_value_of_float _ _ Hf).
  cbn [bind py_in py_get]. reflexivity.
Qed.

Lemma eu_table_point_accepted (s : eu_series) (d : dict) (ds vs : string)
      (dt : pydate) (f : spec_float) :
  scan_cells (e_metric_name s) d (VNone, VNone) = (VStr ds, VStr vs) ->
  eu_table_date (VStr ds) = Ok dt ->
  float_of_string vs = Ok f ->
  eu_table_point s (VDict d)
  = Ok (Some (eu_record s (VDict d) f dt "monthly" (get_default "revision" (VInt 0) d))).
Proof.
  intros Hscan Hdt Hf. unfold eu_table_point. cbn [py_items bind]. rewrite Hscan.
  rewrite (eu_table_date_truthy _ _ Hdt), (float_of_string_truthy _ _ Hf).
  cbn [negb orb]. rewrite Hdt. cbn [or_skip]. rewrite (eu_value_of_float _ _ Hf).
  reflexivity.
Qed.

(** ** The preprocessors *)

(** C10.  The Chilean and the US preprocessor test the two fields of a
    point for truth: a point whose date or value is present but falsy (the
    number 0, 0.0, the empty string) is skipped without a word, the loop over
    the points goes on as if the point were not there, and no record of any
    output comes from it, although 0 converts to a finite float. *)
Theorem falsy_fields_are_dropped (indicator_metadata country_code : pyval)
        (s : series) (d : dict) (raw_data : dict) :
  truthy (get_default "date" VNone d) = false \/
  truthy (get_default "value" VNone d) = false ->
  cl_point country_code s (VDict d) = Ok None /\
  us_point country_code s (VDict d) = Ok None /\
  (forall pre post processed,
      for_each (append_point (cl_point country_code s)) (pre ++ VDict d :: post) processed
      = for_each (append_point (cl_point country_code s)) (pre ++ post) processed) /\
  (forall pre post processed,
      for_each (append_point (us_point country_code s)) (pre ++ VDict d :: post) processed
      = for_each (append_point (us_point country_code s)) (pre ++ post) processed) /\
  (forall out r,
      cl_process indicator_metadata country_code raw_data = Ok out -> In r out ->
      metadata r <> provenance (VDict d) "ChilePreprocessor") /\
  (forall out r,
      us_process country_code raw_data = Ok out -> In r out ->
      metadata r <> provenance (VDict d) "USPreprocessor") /\
  truthy (VInt 0) = false /\
  truthy (VFloat (S754_zero false)) = false /\
  truthy (VStr "") = false /\
  py_float (VInt 0) = Ok (S754_zero false) /\
  cl_process (VDict []) country_code
    (one_metric "gdp" [raw_point (VStr "2024-01-01") (VInt 0);
                       raw_point (VStr "2024-02-01") (VFloat (S754_zero false));
                       raw_point (VStr "2024-03-01") (VStr "");
                       raw_point (VInt 0) (VStr "1.5")]) = Ok [] /\
  us_process country_code
    (one_metric "gdp" [raw_point (VStr "2024-01-01") (VInt 0);
                       raw_point (VStr "2024-02-01") (VFloat (S754_zero false));
                       raw_point (VStr "2024-03-01") (VStr "");
                       raw_point (VInt 0) (VStr "1.5")]) = Ok [].
Proof.
  intros Hfalsy.
  assert (Hskip : negb (truthy (get_default "date" VNone d))
                  || negb (truthy (get_default "value" VNone d)) = true).
  { destruct Hfalsy as [-> | ->]; [reflexivity|apply orb_true_r]. }
  assert (Hcl : cl_point country_code s (VDict d) = Ok None).
  { unfold cl_point. cbn [py_get bind]. now rewrite Hskip. }
  assert (Hus : us_point country_code s (VDict d) = Ok None).
  { unfold us_point. cbn [py_get bind]. now rewrite Hskip. }
  split; [exact Hcl|]. split; [exact Hus|].
  split; [intros; now apply append_points_skip|].
  split; [intros; now apply append_points_skip|].
  split; [|split].
  - intros out r Hout Hin Hmeta.
    destruct (cl_process_origin _ _ _ _ _ Hout Hin) as (s' & p & Hp).
    destruct (cl_point_inv _ _ _ _ Hp) as (d' & dt & f & -> & T1 & T2 & _ & _ & Hm & _).
    rewrite Hm in Hmeta. apply provenance_inj in Hmeta. injection Hmeta as ->.
    destruct Hfalsy; congruence.
  - intros out r Hout Hin Hmeta.
    destruct (us_process_origin _ _ _ _ Hout Hin) as (s' & p & Hp).
    destruct (us_point_inv _ _ _ _ Hp) as (d' & dt & f & -> & T1 & T2 & _ & _ & Hm & _).
    rewrite Hm in Hmeta. apply provenance_inj in Hmeta. injection Hmeta as ->.
    destruct Hfalsy; congruence.
  - repeat split; reflexivity.
Qed.

Lemma falsy_fields_are_dropped_witness :
  (truthy (get_default "date" VNone [("date", VStr "2024-01-01"); ("value", VInt 0)]) = false \/
   truthy (get_default "value" VNone [("date", VStr "2024-01-01"); ("value", VInt 0)]) = false) /\
  cl_point (VStr "CL") (mkseries (VStr "GDP") (VStr "Gdp") (VStr "") (VStr "monthly") VNone)
           (raw_point (VStr "2024-01-01") (VInt 0)) = Ok None.
Proof.
  split; [right; reflexivity|].
  apply (falsy_fields_are_dropped (VDict []) (VStr "CL")
           (mkseries (VStr "GDP") (VStr "Gdp") (VStr "") (VStr "monthly") VNone)
           [("date", VStr "2024-01-01"); ("value", VInt 0)]
           (one_metric "gdp" [raw_point (VStr "2024-01-01") (VInt 0)])).
  right. reflexivity.
Defined.

(** C8.  No variant of [process] raises, whatever the payload, and every
    record it returns comes from a point whose date cell is a text the
    variant's date parser accepts: a point whose date matches none of the
    accepted formats, such as ["not-a-date"] or [""], is not in the output. *)
Theorem unparsable_dates_are_skipped (indicator_metadata country_code : pyval)
        (raw_data : dict) :
  (exists out,
      cl_process indicator_metadata country_code raw_data = Ok out /\
      forall r, In r out ->
        exists d ds dt,
          metadata r = provenance (VDict d) "ChilePreprocessor" /\
          get_default "date" VNone d = VStr ds /\
          strptime fmt_iso ds = Ok dt /\ date r = VDate dt) /\
  (exists out,
      us_process country_code raw_data = Ok out /\
      forall r, In r out ->
        exists d ds dt,
          metadata r = provenance (VDict d) "USPreprocessor" /\
          get_default "date" VNone d = VStr ds /\
          us_parse_date (VStr ds) = Ok dt /\ date r = VDate dt) /\
  (exists out,
      eu_process country_code raw_data = Ok out /\
      forall r, In r out ->
        exists metric_name d ds dt,
          metadata r = provenance (VDict d) "EUPreprocessor" /\
          date r = VDate dt /\
          (dict_get (fst (eu_columns metric_name)) d = Some (VStr ds) /\
           eu_csv_date (VStr ds) = Ok dt
           \/
           fst (scan_cells metric_name d (VNone, VNone)) = VStr ds /\
           eu_table_date (VStr ds) = Ok dt)) /\
  cl_process (VDict []) country_code
    (one_metric "gdp" [raw_point (VStr "not-a-date") (VStr "1.5");
                       raw_point (VStr "") (VStr "1.5")]) = Ok [] /\
  us_process country_code
    (one_metric "gdp" [raw_point (VStr "not-a-date") (VStr "1.5");
                       raw_point (VStr "") (VStr "1.5")]) = Ok [] /\
  eu_process country_code
    (one_eu_metric "rates" "csv" [raw_point (VStr "not-a-date") (VStr "1.5");
                                  raw_point (VStr "") (VStr "1.5")]) = Ok [] /\
  eu_process country_code
    (one_eu_metric "rates" "html_table" [table_row (VStr "not-a-date") (VStr "1.5");
                                         table_row (VStr "") (VStr "1.5")]) = Ok [].
Proof.
  split; [|split; [|split]].
  - eexists. split; [apply cl_process_returns|].
    intros r Hin.
    destruct (cl_process_origin _ _ _ _ _ (cl_process_returns _ _ _) Hin) as (s & p & Hp).
    destruct (cl_point_inv _ _ _ _ Hp) as (d & dt & f & -> & _ & _ & Hdt & _ & Hm & Hd & _).
    destruct (py_strptime_str _ _ _ Hdt) as (ds & Hds & Hs).
    exists d, ds, dt. repeat split; assumption.
  - eexists. split; [apply us_process_returns|].
    intros r Hin.
    destruct (us_process_origin _ _ _ _ (us_process_returns _ _) Hin) as (s & p & Hp).
    destruct (us_point_inv _ _ _ _ Hp) as (d & dt & f & -> & _ & _ & Hdt & _ & Hm & Hd & _).
    destruct (us_parse_date_str _ _ Hdt) as (ds & Hds).
    exists d, ds, dt. rewrite Hds in Hdt. repeat split; assumption.
  - eexists. split; [apply eu_process_returns|].
    intros r Hin.
    destruct (eu_process_origin _ _ _ _ (eu_process_returns _ _) Hin) as (s & p & [Hp|Hp]).
    + destruct (eu_csv_point_inv _ _ _ Hp)
        as (d & date_str & value_str & dt & f & -> & Hc & _ & Hdt & _ & Hm & Hd & _).
      destruct (eu_csv_date_str _ _ Hdt) as (ds & ->).
      exists (e_metric_name s), d, ds, dt. split; [exact Hm|]. split; [exact Hd|].
      left. split; assumption.
    + destruct (eu_table_point_inv _ _ _ Hp)
        as (d & date_str & value_str & dt & f & -> & Hc & _ & _ & Hdt & _ & Hm & Hd & _).
      destruct (eu_table_date_str _ _ Hdt) as (ds & ->).
      exists (e_metric_name s), d, ds, dt. split; [exact Hm|]. split; [exact Hd|].
      right. rewrite Hc. split; [reflexivity|assumption].
  - repeat split; reflexivity.
Qed.

(** C2, as amended.  No variant rejects a NaN or an infinity: [float]
    reads ["nan"], ["inf"], ["-Infinity"] and ["1e999"], and no variant
    tests what it returns.  In every variant a point whose date text the
    variant accepts and whose value text [float] reads, as a NaN or an
    infinity or a finite number, becomes a record with that value;
    [process] never raises, and it returns the record when the entry of the
    metric is well formed and no point raises in it: no earlier point of
    the metric in the Chilean and the US variant, no point of the metric in
    the EU variant.  The value of every record [process] returns is the
    float that [float] gave for the value of the point the record was made
    from (in the EU variant, for the cleaned text when the text itself was
    refused), finite or not. *)
Theorem non_finite_values_are_emitted (indicator_metadata country_code : pyval) :
  (float_of_string "nan" = Ok S754_nan /\
   float_of_string "inf" = Ok (S754_infinity false) /\
   float_of_string "-Infinity" = Ok (S754_infinity true) /\
   float_of_string "1e999" = Ok (S754_infinity false) /\
   float_is_finite S754_nan = false /\
   float_is_finite (S754_infinity false) = false /\
   float_is_finite (S754_infinity true) = false) /\
  (forall raw_data,
      (exists out, cl_process indicator_metadata country_code raw_data = Ok out) /\
      (exists out, us_process country_code raw_data = Ok out) /\
      (exists out, eu_process country_code raw_data = Ok out)) /\
  (forall s d ds vs dt f,
      dict_get "date" d = Some (VStr ds) ->
      dict_get "value" d = Some (VStr vs) ->
      py_strptime fmt_iso (VStr ds) = Ok dt ->
      float_of_string vs = Ok f ->
      cl_point country_code s (VDict d)
      = Ok (Some (cl_record country_code s (VDict d) f dt)) /\
      forall before after metric_name data pre post,
        cl_series indicator_metadata metric_name data
        = Ok (s, VList (pre ++ VDict d :: post)) ->
        Forall (fun q => raises (cl_point country_code s q) = false) pre ->
        exists out,
          cl_process indicator_metadata country_code (before ++ (metric_name, data) :: after)
          = Ok out /\
          In (cl_record country_code s (VDict d) f dt) out) /\
  (forall s d ds vs dt f,
      dict_get "date" d = Some (VStr ds) ->
      dict_get "value" d = Some (VStr vs) ->
      us_parse_date (VStr ds) = Ok dt ->
      float_of_string vs = Ok f ->
      us_point country_code s (VDict d)
      = Ok (Some (us_record country_code s (VDict d) f dt
                            (get_default "revision" (VInt 0) d))) /\
      forall before after metric_name data pre post,
        us_series metric_name data = Ok (s, VList (pre ++ VDict d :: post)) ->
        Forall (fun q => raises (us_point country_code s q) = false) pre ->
        exists out,
          us_process country_code (before ++ (metric_name, data) :: after) = Ok out /\
          In (us_record country_code s (VDict d) f dt (get_default "revision" (VInt 0) d))
             out) /\
  (forall metric_name d ds vs dt f,
      dict_get (fst (eu_columns metric_name)) d = Some (VStr ds) ->
      dict_get (snd (eu_columns metric_name)) d = Some (VStr vs) ->
      eu_csv_date (VStr ds) = Ok dt ->
      float_of_string vs = Ok f ->
      exists r,
        eu_csv_point (eu_series_of country_code metric_name) (VDict d) = Ok (Some r) /\
        made_from r (VDict d) "EUPreprocessor" dt f /\
        forall before after fields pre post,
          dict_get "format" fields = Some (VStr "csv") ->
          dict_get "data" fields = Some (VList (pre ++ VDict d :: post)) ->
          Forall (fun q => raises (eu_csv_point (eu_series_of country_code metric_name) q)
                           = false)
                 (pre ++ VDict d :: post) ->
          exists out,
            eu_process country_code (before ++ (metric_name, VDict fields) :: after) = Ok out /\
            In r out) /\
  (forall metric_name d ds vs dt f,
      scan_cells metric_name d (VNone, VNone) = (VStr ds, VStr vs) ->
      eu_table_date (VStr ds) = Ok dt ->
      float_of_string vs = Ok f ->
      exists r,
        eu_table_point (eu_series_of country_code metric_name) (VDict d) = Ok (Some r) /\
        made_from r (VDict d) "EUPreprocessor" dt f /\
        forall before after fields pre post,
          dict_get "format" fields = Some (VStr "html_table") ->
          dict_get "data" fields = Some (VList (pre ++ VDict d :: post)) ->
          Forall (fun q => raises (eu_table_point (eu_series_of country_code metric_name) q)
                           = false)
                 (pre ++ VDict d :: post) ->
          exists out,
            eu_process country_code (before ++ (metric_name, VDict fields) :: after) = Ok out /\
            In r out) /\
  (forall raw_data out r,
      cl_process indicator_metadata country_code raw_data = Ok out -> In r out ->
      exists d dt f,
        py_float (get_default "value" VNone d) = Ok f /\
        made_from r (VDict d) "ChilePreprocessor" dt f) /\
  (forall raw_data out r,
      us_process country_code raw_data = Ok out -> In r out ->
      exists d dt f,
        py_float (get_default "value" VNone d) = Ok f /\
        made_from r (VDict d) "USPreprocessor" dt f) /\
  (forall raw_data out r,
      eu_process country_code raw_data = Ok out -> In r out ->
      exists metric_name d value_str dt f,
        (dict_get (snd (eu_columns metric_name)) d = Some value_str \/
         snd (scan_cells metric_name d (VNone, VNone)) = value_str) /\
        eu_reads value_str f /\
        made_from r (VDict d) "EUPreprocessor" dt f).
Proof.
  split; [repeat split; reflexivity|].
  split; [|split; [|split; [|split; [|split; [|split; [|split]]]]]].
  - intros raw_data. repeat split; eexists;
      [apply cl_process_returns|apply us_process_returns|apply eu_process_returns].
  - intros s d ds vs dt f Hd Hv Hdt Hf. cbn [py_strptime] in Hdt.
    pose proof (cl_point_text d ds vs dt Hd Hv Hdt country_code s) as Hp.
    rewrite Hf in Hp. split; [exact Hp|].
    intros before after metric_name data pre post Hs Hpre.
    exact (cl_process_emits _ _ before after _ _ _ _ _ _ _ Hs Hpre Hp).
  - intros s d ds vs dt f Hd Hv Hdt Hf.
    pose proof (us_point_accepted country_code s d ds vs dt f Hd Hv Hdt Hf) as Hp.
    split; [exact Hp|].
    intros before after metric_name data pre post Hs Hpre.
    exact (us_process_emits _ before after _ _ _ _ _ _ _ Hs Hpre Hp).
  - intros metric_name d ds vs dt f Hd Hv Hdt Hf.
    pose proof (eu_csv_point_accepted (eu_series_of country_code metric_name)
                  d ds vs dt f Hd Hv Hdt Hf) as Hp.
    eexists. split; [exact Hp|]. split; [repeat split|].
    intros before after fields pre post Hfmt Hdata Hall.
    exact (eu_process_emits_csv _ before after _ _ _ _ _ _ Hfmt Hdata Hall Hp).
  - intros metric_name d ds vs dt f Hscan Hdt Hf.
    pose proof (eu_table_point_accepted (eu_series_of country_code metric_name)
                  d ds vs dt f Hscan Hdt Hf) as Hp.
    eexists. split; [exact Hp|]. split; [repeat split|].
    intros before after fields pre post Hfmt Hdata Hall.
    exact (eu_process_emits_table _ before after _ _ _ _ _ _ Hfmt Hdata Hall Hp).
  - intros raw_data out r Hout Hin.
    destruct (cl_process_origin _ _ _ _ _ Hout Hin) as (s & p & Hp).
    destruct (cl_point_inv _ _ _ _ Hp) as (d & dt & f & -> & _ & _ & _ & Hf & Hm).
    now exists d, dt, f.
  - intros raw_data out r Hout Hin.
    destruct (us_process_origin _ _ _ _ Hout Hin) as (s & p & Hp).
    destruct (us_point_inv _ _ _ _ Hp) as (d & dt & f & -> & _ & _ & _ & Hf & Hm).
    now exists d, dt, f.
  - intros raw_data out r Hout Hin.
    destruct (eu_process_origin _ _ _ _ Hout Hin) as (s & p & [Hp|Hp]).
    + destruct (eu_csv_point_inv _ _ _ Hp)
        as (d & date_str & value_str & dt & f & -> & _ & Hv & _ & Hf & Hm).
      exists (e_metric_name s), d, value_str, dt, f. split; [now left|]. now split.
    + destruct (eu_table_point_inv _ _ _ Hp)
        as (d & date_str & value_str & dt & f & -> & Hscan & _ & _ & _ & Hf & Hm).
      exists (e_metric_name s), d, value_str, dt, f.
      split; [right; now rewrite Hscan|]. now split.
Qed.

Lemma non_finite_values_are_emitted_witness :
  cl_point (VStr "CL") plain_series (raw_point (VStr "2024-01-01") (VStr "nan"))
  = Ok (Some (cl_record (VStr "CL") plain_series
                        (raw_point (VStr "2024-01-01") (VStr "nan"))
                        S754_nan (mkdate 2024 1 1))) /\
  us_point (VStr "CL") plain_series (raw_point (VStr "20240101") (VStr "inf"))
  = Ok (Some (us_record (VStr "CL") plain_series
                        (raw_point (VStr "20240101") (VStr "inf"))
                        (S754_infinity false) (mkdate 2024 1 1) (VInt 0))) /\
  (exists r,
      eu_csv_point (eu_series_of (VStr "CL") "gdp")
                   (VDict [("Period", VStr "2024Q1"); ("Value", VStr "-Infinity")])
      = Ok (Some r) /\
      value r = VFloat (S754_infinity true)) /\
  (exists r,
      eu_table_point (eu_series_of (VStr "CL") "rates")
                     (table_row (VStr "01/02/2024") (VStr "1e999"))
      = Ok (Some r) /\
      value r = VFloat (S754_infinity false)).
Proof.
  destruct (non_finite_values_are_emitted (VDict []) (VStr "CL"))
    as (_ & _ & Hcl & Hus & Hcsv & Htab & _).
  split; [|split; [|split]].
  - apply (Hcl plain_series [("date", VStr "2024-01-01"); ("value", VStr "nan")]
               "2024-01-01" "nan" (mkdate 2024 1 1) S754_nan); reflexivity.
  - apply (Hus plain_series [("date", VStr "20240101"); ("value", VStr "inf")]
               "20240101" "inf" (mkdate 2024 1 1) (S754_infinity false)); reflexivity.
  - destruct (Hcsv "gdp" [("Period", VStr "2024Q1"); ("Value", VStr "-Infinity")]
                   "2024Q1" "-Infinity" (mkdate 2024 1 1) (S754_infinity true))
      as (r & Hr & (_ & _ & Hval) & _); try reflexivity.
    exists r. split; [exact Hr|exact Hval].
  - destruct (Htab "rates" [("Date", VStr "01/02/2024"); ("Value", VStr "1e999")]
                   "01/02/2024" "1e999" (mkdate 2024 2 1) (S754_infinity false))
      as (r & Hr & (_ & _ & Hval) & _); try reflexivity.
    exists r. split; [exact Hr|exact Hval].
Defined.

(** C2, as stated, fails: each variant returns a record whose value is a
    NaN or an infinity. *)
Lemma nan_value_is_not_dropped :
  (exists r,
      cl_process (VDict []) (VStr "CL")
                 (one_metric "gdp" [raw_point (VStr "2024-01-01") (VStr "nan")]) = Ok [r] /\
      value r = VFloat S754_nan) /\
  (exists r,
      us_process (VStr "US")
                 (one_metric "gdp" [raw_point (VStr "2024-01-01") (VStr "inf")]) = Ok [r] /\
      value r = VFloat (S754_infinity false)) /\
  (exists r,
      eu_process (VStr "EU")
                 (one_eu_metric "rates" "csv" [raw_point (VStr "2024-01-01") (VStr "nan")])
      = Ok [r] /\
      value r = VFloat S754_nan) /\
  float_is_finite S754_nan = false /\
  float_is_finite (S754_infinity false) = false.
Proof.
  repeat split; try reflexivity; eexists; (split; [vm_compute; reflexivity|reflexivity]).
Qed.

(** C3, as amended.  Only the EU variant has a cleanup pass.  When [float]
    rejects the value text of a point, the EU variant removes the commas and
    the percent signs, strips the text and tries [float] once more, and
    skips the point only if that fails too: ["1,234.5%"] gives a record with
    value 1234.5.  The Chilean and the US variant try [float] once and skip
    the point: ["1,234.5%"] gives no record. *)
Theorem value_cleanup_is_eu_only (country_code : pyval) (s : series)
        (metric_name : string) (d : dict) (ds vs : string) (dt : pydate) :
  dict_get "date" d = Some (VStr ds) ->
  dict_get "value" d = Some (VStr vs) ->
  eu_columns metric_name = ("date", "value") ->
  scan_cells metric_name d (VNone, VNone) = (VStr ds, VStr vs) ->
  strptime fmt_iso ds = Ok dt ->
  raises (float_of_string vs) = true ->
  cl_point country_code s (VDict d) = Ok None /\
  us_point country_code s (VDict d) = Ok None /\
  (forall indicator_metadata raw_data out r,
      cl_process indicator_metadata country_code raw_data = Ok out -> In r out ->
      metadata r <> provenance (VDict d) "ChilePreprocessor") /\
  (forall raw_data out r,
      us_process country_code raw_data = Ok out -> In r out ->
      metadata r <> provenance (VDict d) "USPreprocessor") /\
  (forall f,
      float_of_string (clean_value vs) = Ok f ->
      (exists r, eu_csv_point (eu_series_of country_code metric_name) (VDict d) = Ok (Some r) /\
                 value r = VFloat f) /\
      (exists r, eu_table_point (eu_series_of country_code metric_name) (VDict d) = Ok (Some r) /\
                 value r = VFloat f) /\
      (forall before after fields pre post,
          dict_get "format" fields = Some (VStr "csv") ->
          dict_get "data" fields = Some (VList (pre ++ VDict d :: post)) ->
          Forall (fun q => raises (eu_csv_point (eu_series_of country_code metric_name) q)
                           = false)
                 (pre ++ VDict d :: post) ->
          exists out r,
            eu_process country_code (before ++ (metric_name, VDict fields) :: after) = Ok out /\
            In r out /\ value r = VFloat f)) /\
  (raises (float_of_string (clean_value vs)) = true ->
   eu_csv_point (eu_series_of country_code metric_name) (VDict d) = Ok None /\
   eu_table_point (eu_series_of country_code metric_name) (VDict d) = Ok None) /\
  float_of_string "1,234.5%" = Raise ValueError /\
  clean_value "1,234.5%" = "1234.5" /\
  float_of_string "1234.5" = Ok f1234_5 /\
  Qeq (Q_of_binary 5429388417957888 (-42)) (2469 # 2) /\
  (exists r, eu_process country_code
               (one_eu_metric "rates" "csv" [raw_point (VStr "2024-01-01") (VStr "1,234.5%")])
             = Ok [r] /\ value r = VFloat f1234_5) /\
  (exists r, eu_process country_code
               (one_eu_metric "rates" "html_table"
                              [table_row (VStr "2024-01-01") (VStr "1,234.5%")])
             = Ok [r] /\ value r = VFloat f1234_5) /\
  cl_process (VDict []) country_code
    (one_metric "gdp" [raw_point (VStr "2024-01-01") (VStr "1,234.5%")]) = Ok [] /\
  us_process country_code
    (one_metric "gdp" [raw_point (VStr "2024-01-01") (VStr "1,234.5%")]) = Ok [].
Proof.
  intros Hd Hv Hcols Hscan Hdt Hbad.
  assert (Hcl : forall s', cl_point country_code s' (VDict d) = Ok None).
  { intros s'. rewrite (cl_point_text d ds vs dt Hd Hv Hdt).
    destruct (float_of_string vs); [discriminate|reflexivity]. }
  assert (Hus : forall s', us_point country_code s' (VDict d) = Ok None).
  { intros s'. rewrite (us_point_text d ds vs dt Hd Hv Hdt).
    destruct (float_of_string vs); [discriminate|reflexivity]. }
  pose proof (eu_csv_point_text d ds vs dt Hd Hv Hdt
                (eu_series_of country_code metric_name) Hcols) as Hcsv.
  pose proof (eu_table_point_text d ds vs dt Hd Hv Hdt
                (eu_series_of country_code metric_name) Hscan) as Htab.
  unfold eu_value_of_text in Hcsv, Htab.
  destruct (float_of_string vs) as [|e] eqn:Hraise; [discriminate|].
  split; [apply Hcl|]. split; [apply Hus|].
  split; [|split; [|split; [|split]]].
  - intros md raw_data out r Hout Hin Hmeta.
    destruct (cl_process_origin _ _ _ _ _ Hout Hin) as (s' & p & Hp).
    destruct (cl_point_inv _ _ _ _ Hp) as (d' & dt' & f & -> & _ & _ & _ & _ & Hm & _).
    rewrite Hm in Hmeta. apply provenance_inj in Hmeta. injection Hmeta as ->.
    rewrite Hcl in Hp. discriminate.
  - intros raw_data out r Hout Hin Hmeta.
    destruct (us_process_origin _ _ _ _ Hout Hin) as (s' & p & Hp).
    destruct (us_point_inv _ _ _ _ Hp) as (d' & dt' & f & -> & _ & _ & _ & _ & Hm & _).
    rewrite Hm in Hmeta. apply provenance_inj in Hmeta. injection Hmeta as ->.
    rewrite Hus in Hp. discriminate.
  - intros f Hclean. rewrite Hclean in Hcsv, Htab.
    split; [eexists; split; [exact Hcsv|reflexivity]|].
    split; [eexists; split; [exact Htab|reflexivity]|].
    intros before after fields pre post Hfmt Hdata Hall.
    destruct (eu_process_emits_csv _ before after _ _ _ _ _ _ Hfmt Hdata Hall Hcsv)
      as (out & Hout & Hin).
    exists out. eexists. split; [exact Hout|]. split; [exact Hin|reflexivity].
  - intros Hbad2.
    destruct (float_of_string (clean_value vs)); [discriminate|]. split; assumption.
  - repeat split; try reflexivity; eexists; (split; [vm_compute; reflexivity|reflexivity]).
Qed.

Lemma value_cleanup_is_eu_only_witness :
  raises (float_of_string "1,234.5%") = true /\
  cl_point (VStr "CL") plain_series (raw_point (VStr "2024-01-01") (VStr "1,234.5%"))
  = Ok None /\
  us_point (VStr "US") plain_series (raw_point (VStr "2024-01-01") (VStr "1,234.5%"))
  = Ok None.
Proof.
  split; [reflexivity|].
  split;
    [apply (value_cleanup_is_eu_only (VStr "CL") plain_series "rates"
              [("date", VStr "2024-01-01"); ("value", VStr "1,234.5%")]
              "2024-01-01" "1,234.5%" (mkdate 2024 1 1)); reflexivity
    |apply (value_cleanup_is_eu_only (VStr "US") plain_series "rates"
              [("date", VStr "2024-01-01"); ("value", VStr "1,234.5%")]
              "2024-01-01" "1,234.5%" (mkdate 2024 1 1)); reflexivity].
Defined.

(** C3, as stated, fails: the Chilean and the US variant have no cleanup
    pass, and a point whose value is ["1,234.5%"] gives no record, although
    the cleaned text is a number. *)
Lemma no_cleanup_outside_eu :
  float_of_string (clean_value "1,234.5%") = Ok f1234_5 /\
  cl_process (VDict []) (VStr "CL")
    (one_metric "gdp" [raw_point (VStr "2024-01-01") (VStr "1,234.5%")]) = Ok [] /\
  us_process (VStr "US")
    (one_metric "gdp" [raw_point (VStr "2024-01-01") (VStr "1,234.5%")]) = Ok [].
Proof. repeat split; reflexivity. Qed.

(** * Further properties *)

(** ** The mapper *)

Lemma keys_dict_set (k : string) (v : pyval) (d : dict) :
  keys (dict_set k v d)
  = if existsb (String.eqb k) (keys d) then keys d else keys d ++ [k].
Proof.
  induction d as [|[k' v'] d IH]; cbn [dict_set keys map fst existsb]; [reflexivity|].
  destruct (String.eqb k k') eqn:E; cbn [orb keys map fst]; [reflexivity|].
  fold (keys (dict_set k v d)). fold (keys d). rewrite IH.
  destruct (existsb (String.eqb k) (keys d)); reflexivity.
Qed.

Lemma existsb_eqb_in (k : string) (l : list string) :
  existsb (String.eqb k) l = true <-> In k l.
Proof.
  rewrite existsb_exists. split.
  - intros (x & Hin & E). apply String.eqb_eq in E. now subst.
  - intros Hin. exists k. split; [exact Hin|apply String.eqb_refl].
Qed.

(** Writing entries into a dict whose keys begin with the standard names
    leaves those in place and adds only other names, each once. *)
Lemma keys_dict_update_standard (m acc : dict) (rest : list string) :
  keys acc = standard_fields ++ rest ->
  Forall (fun k => is_standard k = false) rest ->
  NoDup rest ->
  exists rest',
    keys (dict_update acc m) = standard_fields ++ rest' /\
    Forall (fun k => is_standard k = false) rest' /\
    NoDup rest'.
Proof.
  revert acc rest. induction m as [|[k v] m IH]; intros acc rest Hk Hs Hn.
  - exists rest. now repeat split.
  - unfold dict_update. cbn [fold_left fst snd].
    fold (dict_update (dict_set k v acc) m).
    destruct (existsb (String.eqb k) (keys acc)) eqn:E.
    + apply (IH _ rest); [|exact Hs|exact Hn].
      now rewrite keys_dict_set, E.
    + apply (IH _ (rest ++ [k])).
      * rewrite keys_dict_set, E, Hk. now rewrite app_assoc.
      * apply Forall_app. split; [exact Hs|]. constructor; [|constructor].
        unfold is_standard. destruct (existsb (String.eqb k) standard_fields) eqn:Es;
          [|reflexivity].
        rewrite Hk, existsb_app, Es in E. discriminate.
      * apply NoDup_app; [exact Hn|repeat constructor; intros []|].
        intros x Hx [<-|[]].
        assert (Hin : existsb (String.eqb k) (keys acc) = true).
        { apply existsb_eqb_in. rewrite Hk. apply in_or_app. now right. }
        congruence.
Qed.

(** X1.  [to_db_item] returns an item exactly when the date of the record
    is a date object and its metadata is falsy or a dict.  Whatever the
    metadata holds, the item has every standard attribute once, first and
    in a fixed order; the keys after them are metadata keys that are not
    standard names, each once. *)
Theorem to_db_item_attributes (repr_of : pyval -> string) (r : EconomicData) :
  ((exists item, to_db_item repr_of r = Ok item) <->
   (exists d, date r = VDate d) /\
   (truthy (metadata r) = false \/ exists m, metadata r = VDict m)) /\
  (forall item,
      to_db_item repr_of r = Ok item ->
      exists rest,
        keys item = standard_fields ++ rest /\
        Forall (fun k => is_standard k = false) rest /\
        NoDup rest /\
        NoDup (keys item)).
Proof.
  split.
  - unfold to_db_item, _format_date, date_part, metadata_mapping. split.
    + intros (item & H).
      destruct (date r) as [| | | | |d| |] eqn:Ed; try discriminate H.
      split; [now exists d|]. cbn [bind] in H.
      destruct (truthy (metadata r)) eqn:Et; [|now left].
      right. destruct (metadata r) as [| | | | | | |m]; try discriminate H.
      now exists m.
    + intros ((d & ->) & Hm). cbn [bind].
      destruct Hm as [->|(m & ->)]; cbn [bind]; [eauto|].
      destruct (truthy (VDict m)); cbn [bind]; eauto.
  - intros item H. unfold to_db_item in H.
    destruct (_format_date (date r)) as [iso|]; [|discriminate H]. cbn [bind] in H.
    destruct (date_part year (date r)) as [y|]; [|discriminate H]. cbn [bind] in H.
    destruct (date_part month (date r)) as [m|]; [|discriminate H]. cbn [bind] in H.
    destruct (date_part day (date r)) as [dd|]; [|discriminate H]. cbn [bind] in H.
    destruct (metadata_mapping (metadata r)) as [extra|]; [|discriminate H].
    cbn [bind] in H. injection H as <-.
    match goal with
    | |- context [dict_update ?base extra] =>
        destruct (keys_dict_update_standard extra base [])
          as (rest & Hk & Hs & Hn); [reflexivity|constructor|constructor|]
    end.
    exists rest. repeat split; try assumption.
    rewrite Hk. apply NoDup_app; [|exact Hn|].
    + unfold standard_fields.
      repeat (constructor; [cbn; intuition discriminate|]). constructor.
    + intros x Hx Hr. rewrite Forall_forall in Hs. specialize (Hs x Hr).
      apply existsb_eqb_in in Hx. unfold is_standard in Hs. congruence.
Qed.

(** X2.  Encoding is stable under a decode: for a record with a valid date
    and metadata that is absent or a mapping without standard names, the
    record decoded from its item encodes to the same item again; and when
    the metadata is a dict, the decoded record is the record itself. *)
Theorem to_db_item_stable (repr_of : pyval -> string) (r : EconomicData)
        (d : pydate) (extra : dict) :
  date r = VDate d ->
  valid_date d = true ->
  metadata_mapping (metadata r) = Ok extra ->
  Forall (fun k => is_standard k = false) (keys extra) ->
  NoDup (keys extra) ->
  exists item r',
    to_db_item repr_of r = Ok item /\
    from_db_item item = Ok r' /\
    to_db_item repr_of r' = Ok item /\
    (forall m, metadata r = VDict m -> r' = r).
Proof.
  intros Hd Hv Hm Hex Hnd.
  assert (Hup : dict_update [] extra = extra) by (now apply dict_update_nodup).
  eexists. eexists. split; [|split; [|split]].
  - apply to_db_item_shape; eassumption.
  - apply from_db_item_of_shape. exact Hv.
  - rewrite Hup, (extra_attributes_all extra Hex).
    rewrite (to_db_item_shape repr_of _ d extra); cbn [date metadata]; try reflexivity.
    + cbn [country_code indicator_id country_name indicator_name value unit
           frequency source revision_number currency]. now rewrite Hup.
    + unfold metadata_mapping. destruct extra; reflexivity.
    + exact Hex.
  - intros m Hmeta. rewrite Hup, (extra_attributes_all extra Hex).
    assert (extra = m).
    { rewrite Hmeta in Hm. unfold metadata_mapping in Hm.
      destruct m; cbn in Hm; now injection Hm. }
    subst extra. destruct r; cbn in *. now subst.
Qed.

Lemma to_db_item_stable_witness :
  exists item r',
    to_db_item no_repr (sample_record (VDict [("processor", VStr "USPreprocessor")]))
    = Ok item /\
    from_db_item item = Ok r' /\
    to_db_item no_repr r' = Ok item /\
    (forall m, metadata (sample_record (VDict [("processor", VStr "USPreprocessor")]))
               = VDict m ->
               r' = sample_record (VDict [("processor", VStr "USPreprocessor")])).
Proof.
  apply (to_db_item_stable no_repr
           (sample_record (VDict [("processor", VStr "USPreprocessor")]))
           (mkdate 2024 1 15) [("processor", VStr "USPreprocessor")]).
  - reflexivity.
  - reflexivity.
  - reflexivity.
  - repeat constructor.
  - repeat constructor. intros [].
Defined.

Lemma dict_get_dict_set_other (k k' : string) (v : pyval) (d : dict) :
  k' <> k -> dict_get k' (dict_set k v d) = dict_get k' d.
Proof.
  intros Hne. induction d as [|[k0 v0] d IH]; cbn [dict_set dict_get].
  - destruct (String.eqb_spec k' k); [contradiction|reflexivity].
  - destruct (String.eqb_spec k k0) as [->|Hk]; cbn [dict_get].
    + destruct (String.eqb_spec k' k0); [contradiction|reflexivity].
    + destruct (String.eqb k' k0); [reflexivity|exact IH].
Qed.

Lemma extra_attributes_dict_set (k : string) (v : pyval) (d : dict) :
  is_standard k = true -> extra_attributes (dict_set k v d) = extra_attributes d.
Proof.
  intros Hs. unfold extra_attributes.
  induction d as [|[k0 v0] d IH]; cbn [dict_set filter fst].
  - now rewrite Hs.
  - destruct (String.eqb_spec k k0) as [->|Hk]; cbn [filter fst].
    + now rewrite Hs.
    + now rewrite IH.
Qed.

(** X3.  When an item has a text date, [from_db_item] never reads its
    [PK], [SK], [year], [month] or [day]: whatever is written under one of
    these names, the item decodes to the same record, or fails the same
    way. *)
Theorem from_db_item_unread_attributes (item : dict) (s k : string) (v : pyval) :
  dict_get "date" item = Some (VStr s) ->
  In k unread_attributes ->
  from_db_item (dict_set k v item) = from_db_item item.
Proof.
  intros Hdate Hk.
  assert (Hs : is_standard k = true).
  { cbn in Hk. decompose [or] Hk; subst; try reflexivity; contradiction. }
  assert (Hget : forall k', In k' ["country_code"; "country_name"; "indicator_id";
                                   "indicator_name"; "value"; "date"; "unit";
                                   "frequency"; "source"; "revision_number"; "currency"] ->
                            dict_get k' (dict_set k v item) = dict_get k' item).
  { intros k' Hk'. apply dict_get_dict_set_other.
    cbn in Hk, Hk'. decompose [or] Hk; decompose [or] Hk'; subst;
      try contradiction; discriminate. }
  unfold from_db_item, item_date, get_default.
  rewrite (extra_attributes_dict_set k v item Hs).
  rewrite (Hget "date") by (cbn; auto 15). rewrite Hdate.
  rewrite !Hget by (cbn; auto 15).
  reflexivity.
Qed.

Lemma from_db_item_unread_attributes_witness :
  from_db_item (dict_set "year" (VInt 1999)
                         [("date", VStr "2024-01-15"); ("year", VInt 2024)])
  = from_db_item [("date", VStr "2024-01-15"); ("year", VInt 2024)].
Proof.
  apply (from_db_item_unread_attributes
           [("date", VStr "2024-01-15"); ("year", VInt 2024)] "2024-01-15" "year" (VInt 1999)).
  - reflexivity.
  - cbn. tauto.
Defined.

Lemma dict_get_foreign (k : string) (item : dict) :
  is_standard k = true ->
  Forall (fun k' => is_standard k' = false) (keys item) ->
  dict_get k item = None.
Proof.
  intros Hs. induction item as [|[k0 v0] item IH]; intros H; [reflexivity|].
  inversion H as [|? ? Hk Hrest]; subst. cbn [dict_get fst] in *.
  destruct (String.eqb_spec k k0) as [->|Hne]; [congruence|now apply IH].
Qed.

(** X4.  An item with none of the standard attributes decodes without an
    error: every field takes its default (the date is 2000-01-01, the value
    0.0, the frequency "monthly"), and the whole item becomes the
    metadata. *)
Theorem from_db_item_foreign_item (item : dict) :
  Forall (fun k => is_standard k = false) (keys item) ->
  from_db_item item = Ok (default_record item).
Proof.
  intros H. unfold from_db_item, item_date, get_default.
  rewrite !(dict_get_foreign _ item) by (reflexivity || exact H).
  cbn [as_index bind make_date]. rewrite (extra_attributes_all item H).
  reflexivity.
Qed.

Lemma from_db_item_foreign_item_witness :
  from_db_item [("note", VStr "revised")] = Ok (default_record [("note", VStr "revised")]).
Proof.
  apply (from_db_item_foreign_item [("note", VStr "revised")]).
  repeat constructor.
Defined.

(** ** The key-value uploader *)

Lemma slice_length {A : Type} (l : list A) (i n : nat) :
  List.length (slice l i (i + n)) = Nat.min n (List.length l - i).
Proof.
  unfold slice. rewrite length_firstn, length_skipn. f_equal. lia.
Qed.

Lemma py_range_bound (n k : nat) :
  In k (seq 0 ((n + batch_size - 1) / batch_size)) -> (k * batch_size < n)%nat.
Proof.
  unfold batch_size. rewrite in_seq. intros [_ Hk].
  pose proof (Nat.div_mod_eq (n + 25 - 1) 25).
  pose proof (Nat.mod_upper_bound (n + 25 - 1) 25 ltac:(lia)).
  lia.
Qed.

Lemma chunks_sizes (items : list dict) :
  Forall (fun b => (1 <= List.length b <= 25)%nat) (chunks items).
Proof.
  unfold chunks, py_range. rewrite map_map. apply Forall_forall.
  intros b Hb. apply in_map_iff in Hb. destruct Hb as (k & <- & Hk).
  apply py_range_bound in Hk. rewrite slice_length. unfold batch_size in *. lia.
Qed.

Lemma chunks_full (items : list dict) :
  Forall (fun b => List.length b = 25%nat) (removelast (chunks items)).
Proof.
  unfold chunks, py_range. rewrite map_map.
  remember ((List.length items + batch_size - 1) / batch_size)%nat as c eqn:Ec.
  destruct c as [|c]; [constructor|].
  rewrite seq_S, map_app. cbn [map Nat.add]. rewrite removelast_last.
  apply Forall_forall. intros b Hb. apply in_map_iff in Hb.
  destruct Hb as (k & <- & Hk). apply in_seq in Hk.
  rewrite slice_length. unfold batch_size in *.
  pose proof (Nat.div_mod_eq (List.length items + 25 - 1) 25).
  pose proof (Nat.mod_upper_bound (List.length items + 25 - 1) 25 ltac:(lia)).
  lia.
Qed.

Lemma chunks_count (items : list dict) :
  List.length (chunks items) = ((List.length items + 24) / 25)%nat.
Proof.
  unfold chunks, py_range, batch_size. rewrite !length_map, length_seq.
  f_equal. lia.
Qed.

(** X5.  Whatever the number of records, [upload] sends the items in input
    order in batches of at most 25: the batches put end to end are the
    items, none is empty, all but the last hold exactly 25, and there are
    [ceil(n / 25)] of them. *)
Theorem aws_upload_batches (repr_of : pyval -> string) (remote : Type)
        (batch_writer : list dict -> remote -> remote * option exn)
        (data : list EconomicData) (items : list dict) (c : client remote) :
  data <> [] ->
  traverse (to_db_item repr_of) data = Ok items ->
  exists ok c',
    aws_upload repr_of remote batch_writer data c = (Ok ok, c') /\
    batch_calls c' = batch_calls c ++ chunks items /\
    List.concat (chunks items) = items /\
    List.length (chunks items) = ((List.length data + 24) / 25)%nat /\
    Forall (fun b => (1 <= List.length b <= 25)%nat) (chunks items) /\
    Forall (fun b => List.length b = 25%nat) (removelast (chunks items)).
Proof.
  intros Hne Ht.
  destruct (aws_upload_calls repr_of remote batch_writer data items c Hne Ht)
    as (ok & c' & Hup & Hcalls).
  exists ok, c'. split; [exact Hup|]. split; [exact Hcalls|].
  split; [apply concat_chunks|].
  split; [rewrite chunks_count, (traverse_length _ _ _ Ht); reflexivity|].
  split; [apply chunks_sizes|apply chunks_full].
Qed.

Lemma aws_upload_batches_witness :
  exists items ok c',
    traverse (to_db_item no_repr) (repeat (sample_record VNone) 60) = Ok items /\
    aws_upload no_repr Datatypes.unit always_written
               (repeat (sample_record VNone) 60) (mkclient tt []) = (Ok ok, c') /\
    batch_calls c' = chunks items /\
    List.length (chunks items) = 3%nat.
Proof.
  assert (Ht : exists items,
             traverse (to_db_item no_repr) (repeat (sample_record VNone) 60) = Ok items).
  { eexists. vm_compute. reflexivity. }
  destruct Ht as (items & Ht). exists items.
  destruct (aws_upload_batches no_repr Datatypes.unit always_written
              (repeat (sample_record VNone) 60) items (mkclient tt []))
    as (ok & c' & Hup & Hcalls & _ & Hn & _).
  - discriminate.
  - exact Ht.
  - exists ok, c'. split; [exact Ht|]. split; [exact Hup|]. split; [exact Hcalls|].
    rewrite Hn. reflexivity.
Defined.

Section KeyValueOutcome.

Variable repr_of : pyval -> string.
Variable remote : Type.
Variable batch_writer : list dict -> remote -> remote * option exn.

Lemma upload_loop_failed (db_items : list dict) (idx : list nat) (c : client remote) :
  fst (fold_left (upload_batch remote batch_writer db_items) idx (false, c)) = false.
Proof.
  revert c. induction idx as [|i idx IH]; intros c; [reflexivity|].
  cbn [fold_left]. unfold upload_batch at 2.
  destruct (batch_write_items remote batch_writer _ c) as [[[|]|e] c']; apply IH.
Qed.

Lemma upload_loop_all_written (db_items : list dict) (idx : list nat)
      (success : bool) (c : client remote) :
  (forall b t, snd (batch_writer b t) = None) ->
  fst (fold_left (upload_batch remote batch_writer db_items) idx (success, c)) = success.
Proof.
  intros Hok. revert c. induction idx as [|i idx IH]; intros c; [reflexivity|].
  cbn [fold_left]. unfold upload_batch at 2, batch_write_items, write_batch.
  destruct (slice db_items i (i + batch_size)) as [|x b]; [apply IH|].
  pose proof (Hok (x :: b) (table c)) as H.
  destruct (batch_writer (x :: b) (table c)) as [t' [e|]]; [discriminate H|apply IH].
Qed.

Lemma upload_loop_one_failed (db_items : list dict) (idx : list nat) (i : nat)
      (success : bool) (c : client remote) :
  In i idx ->
  slice db_items i (i + batch_size) <> [] ->
  (forall t, snd (batch_writer (slice db_items i (i + batch_size)) t) <> None) ->
  fst (fold_left (upload_batch remote batch_writer db_items) idx (success, c)) = false.
Proof.
  intros Hin Hne Hbad. revert success c.
  induction idx as [|j idx IH]; intros success c; [destruct Hin|].
  cbn [fold_left]. destruct Hin as [->|Hin].
  - unfold upload_batch at 2, batch_write_items, write_batch.
    destruct (slice db_items i (i + batch_size)) as [|x b] eqn:Es; [congruence|].
    pose proof (Hbad (table c)) as H.
    destruct (batch_writer (x :: b) (table c)) as [t' [e|]];
      [destruct e; apply upload_loop_failed|now destruct H].
  - destruct (upload_batch remote batch_writer db_items (success, c) j) as [s' c'].
    now apply IH.
Qed.

End KeyValueOutcome.

(** X6.  The upload is best effort.  It returns [True] when the table takes
    every batch.  When the table refuses a batch, with a [ClientError] or
    any other exception, it returns [False], yet every batch has been sent:
    a failure does not stop the batches after it. *)
Theorem aws_upload_best_effort (repr_of : pyval -> string) (remote : Type)
        (batch_writer : list dict -> remote -> remote * option exn)
        (data : list EconomicData) (items : list dict) (c : client remote) :
  data <> [] ->
  traverse (to_db_item repr_of) data = Ok items ->
  ((forall b t, snd (batch_writer b t) = None) ->
   exists c', aws_upload repr_of remote batch_writer data c = (Ok true, c') /\
              batch_calls c' = batch_calls c ++ chunks items) /\
  (forall bad,
      In bad (chunks items) ->
      (forall t, snd (batch_writer bad t) <> None) ->
      exists c', aws_upload repr_of remote batch_writer data c = (Ok false, c') /\
                 batch_calls c' = batch_calls c ++ chunks items).
Proof.
  intros Hne Ht.
  destruct (aws_upload_calls repr_of remote batch_writer data items c Hne Ht)
    as (ok & c' & Hup & Hcalls).
  assert (Hflag : ok = fst (fold_left (upload_batch remote batch_writer items)
                                      (py_range (List.length items) batch_size) (true, c))).
  { unfold aws_upload in Hup. destruct data; [congruence|]. rewrite Ht in Hup.
    destruct (fold_left _ _ _) as [s c0]. injection Hup as <- _. reflexivity. }
  split.
  - intros Hok. exists c'. split; [|exact Hcalls].
    rewrite Hup, Hflag. now rewrite upload_loop_all_written.
  - intros bad Hin Hbad. exists c'. split; [|exact Hcalls].
    rewrite Hup, Hflag. unfold chunks in Hin. apply in_map_iff in Hin.
    destruct Hin as (i & <- & Hi).
    rewrite (upload_loop_one_failed remote batch_writer items _ i); auto.
    pose proof (chunks_sizes items) as Hs. rewrite Forall_forall in Hs.
    intros E. specialize (Hs (slice items i (i + batch_size))).
    rewrite E in Hs. cbn in Hs.
    assert (1 <= 0)%nat; [|lia]. apply Hs.
    unfold chunks. apply in_map_iff. exists i. split; [exact E|exact Hi].
Qed.

Lemma aws_upload_best_effort_witness :
  exists c',
    aws_upload no_repr Datatypes.unit always_written [sample_record VNone] (mkclient tt [])
    = (Ok true, c').
Proof.
  assert (Ht : exists items, traverse (to_db_item no_repr) [sample_record VNone] = Ok items).
  { eexists. vm_compute. reflexivity. }
  destruct Ht as (items & Ht).
  destruct (aws_upload_best_effort no_repr Datatypes.unit always_written
              [sample_record VNone] items (mkclient tt [])) as [Hall _].
  - discriminate.
  - exact Ht.
  - destruct Hall as (c' & Hup & _); [reflexivity|]. now exists c'.
Defined.

Lemma traverse_raise {A B : Type} (f : A -> outcome B) (pre : list A) (bs : list B)
      (bad : A) (post : list A) (e : exn) :
  traverse f pre = Ok bs -> f bad = Raise e ->
  traverse f (pre ++ bad :: post) = Raise e.
Proof.
  revert bs. induction pre as [|a pre IH]; intros bs Hpre Hbad; cbn [app traverse].
  - now rewrite Hbad.
  - cbn [traverse] in Hpre. destruct (f a); cbn [bind] in *; [|discriminate].
    destruct (traverse f pre) as [bs'|]; cbn [bind] in *; [|discriminate].
    now rewrite (IH bs').
Qed.

(** X7.  The items are all built before anything is sent: when the mapper
    refuses a record, [upload] raises that exception and the table has not
    been touched, even for the records before the refused one.  A record
    whose date is not a date object is refused with [AttributeError]. *)
Theorem aws_upload_mapper_failure (repr_of : pyval -> string) (remote : Type)
        (batch_writer : list dict -> remote -> remote * option exn)
        (pre : list EconomicData) (items : list dict) (bad : EconomicData)
        (post : list EconomicData) (e : exn) (c : client remote) :
  traverse (to_db_item repr_of) pre = Ok items ->
  to_db_item repr_of bad = Raise e ->
  aws_upload repr_of remote batch_writer (pre ++ bad :: post) c = (Raise e, c) /\
  (forall r, (forall d, date r <> VDate d) -> to_db_item repr_of r = Raise AttributeError).
Proof.
  intros Hpre Hbad. split.
  - unfold aws_upload. rewrite (traverse_raise _ _ _ _ _ _ Hpre Hbad).
    destruct pre; reflexivity.
  - intros r Hd. unfold to_db_item, _format_date.
    destruct (date r) as [| | | | |d| |]; try reflexivity. now destruct (Hd d).
Qed.

Lemma aws_upload_mapper_failure_witness :
  aws_upload no_repr Datatypes.unit always_written
             ([sample_record VNone]
                ++ record_of_row (trade_row "imports" "Imports" "2024-02-01" 20) :: [])
             (mkclient tt [])
  = (Raise AttributeError, mkclient tt []).
Proof.
  assert (Ht : exists items, traverse (to_db_item no_repr) [sample_record VNone] = Ok items).
  { eexists. vm_compute. reflexivity. }
  destruct Ht as (items & Ht).
  apply (aws_upload_mapper_failure no_repr Datatypes.unit always_written
           [sample_record VNone] items
           (record_of_row (trade_row "imports" "Imports" "2024-02-01" 20)) []
           AttributeError (mkclient tt [])).
  - exact Ht.
  - reflexivity.
Defined.

(** ** The relational uploader *)

Lemma insert_all_snoc (rows : list EconomicRow.t) (r : EconomicRow.t)
      (table : list EconomicRow.t) :
  insert_all (rows ++ [r]) table = insert_or_replace r (insert_all rows table).
Proof. unfold insert_all. now rewrite fold_left_app. Qed.

Lemma insert_or_replace_in (q r : EconomicRow.t) (table : list EconomicRow.t) :
  In q (insert_or_replace r table) <-> (In q table /\ same_key q r = false) \/ q = r.
Proof.
  unfold insert_or_replace. rewrite in_app_iff, filter_In, negb_true_iff.
  cbn [In]. intuition.
Qed.

Lemma last_of_key_snoc (q r : EconomicRow.t) (rows : list EconomicRow.t) :
  last_of_key q (rows ++ [r]) <-> (last_of_key q rows /\ same_key q r = false) \/ q = r.
Proof.
  unfold last_of_key, key_free. split.
  - intros (pre & post & E & Hfree).
    destruct post as [|x post _] using rev_ind.
    + apply app_inj_tail in E. right. now destruct E.
    + rewrite app_comm_cons, app_assoc in E. apply app_inj_tail in E.
      destruct E as [-> ->]. apply Forall_app in Hfree. destruct Hfree as [Hp Hx].
      left. split; [now exists pre, post|]. now inversion Hx.
  - intros [[(pre & post & -> & Hfree) Hr]| ->].
    + exists pre, (post ++ [r]). split; [now rewrite <- app_assoc|].
      apply Forall_app. split; [exact Hfree|now repeat constructor].
    + exists rows, []. split; [reflexivity|constructor].
Qed.

(** What a run of [INSERT OR REPLACE] leaves in the table. *)
Lemma insert_all_in (rows table : list EconomicRow.t) (q : EconomicRow.t) :
  In q (insert_all rows table) <->
  (In q table /\ key_free q rows) \/ last_of_key q rows.
Proof.
  induction rows as [|r rows IH] using rev_ind.
  - cbn [insert_all fold_left]. unfold key_free, last_of_key. split.
    + intros H. left. split; [exact H|constructor].
    + intros [[H _]|(pre & post & E & _)]; [exact H|now destruct pre].
  - rewrite insert_all_snoc, insert_or_replace_in, IH, last_of_key_snoc.
    unfold key_free. rewrite Forall_app. split.
    + intros [[[[Hq Hfree]|Hlast] Hr]| ->].
      * left. split; [exact Hq|]. split; [exact Hfree|now repeat constructor].
      * right. left. now split.
      * right. now right.
    + intros [[Hq [Hfree Hr]]|[[Hlast Hr]| ->]].
      * left. split; [|now inversion Hr]. left. now split.
      * left. split; [now right|exact Hr].
      * now right.
Qed.

Lemma same_key_sym (a b : EconomicRow.t) : same_key a b = same_key b a.
Proof.
  unfold same_key.
  assert (Hs : forall x y, sqlval_eqb x y = sqlval_eqb y x).
  { intros [| | |] [| | |]; cbn; try reflexivity; [apply Z.eqb_sym|apply String.eqb_sym]. }
  now rewrite (Hs (EconomicRow.pk a)), (Hs (EconomicRow.sk a)).
Qed.

Lemma insert_or_replace_distinct (r : EconomicRow.t) (table : list EconomicRow.t) :
  keys_distinct table -> keys_distinct (insert_or_replace r table).
Proof.
  unfold keys_distinct, insert_or_replace.
  induction 1 as [|a t Ha Ht IH]; cbn [filter app].
  - repeat constructor.
  - destruct (negb (same_key a r)) eqn:E; [|exact IH].
    cbn [app]. constructor; [|exact IH].
    apply Forall_app. split.
    + apply Forall_forall. intros x Hx. apply filter_In in Hx.
      rewrite Forall_forall in Ha. now apply Ha.
    + repeat constructor. now apply negb_true_iff.
Qed.

Lemma insert_all_distinct (rows table : list EconomicRow.t) :
  keys_distinct table -> keys_distinct (insert_all rows table).
Proof.
  revert table. induction rows as [|r rows IH]; intros table H; [exact H|].
  cbn [insert_all fold_left]. apply IH. now apply insert_or_replace_distinct.
Qed.

Section RelationalOutcome.

Variable repr_of : pyval -> string.

Lemma upload_rows_success (data : list EconomicData) (rows : list EconomicRow.t)
      (conn : connection) :
  traverse (insert_parameters repr_of) data = Ok rows ->
  upload_rows repr_of data conn = (None, execute_all rows conn).
Proof.
  revert rows conn. induction data as [|r data IH]; intros rows conn H.
  - cbn in H. injection H as <-. reflexivity.
  - cbn [traverse] in H. cbn [upload_rows].
    destruct (insert_parameters repr_of r) as [row|]; cbn [bind] in H; [|discriminate].
    destruct (traverse (insert_parameters repr_of) data) as [rows'|];
      cbn [bind] in H; [|discriminate].
    injection H as <-. cbn [execute_all fold_left]. now apply IH.
Qed.

Lemma sqlite_upload_success (data : list EconomicData) (rows : list EconomicRow.t)
      (db : database) :
  data <> [] ->
  traverse (insert_parameters repr_of) data = Ok rows ->
  sqlite_upload repr_of data db =
  (Ok true,
   {| stored := insert_all rows (stored db);
      journal := journal db ++ [Connected] ++ repeat Executed (List.length data)
                            ++ [Committed] |}).
Proof.
  intros Hne H. unfold sqlite_upload. destruct data as [|r data]; [congruence|].
  unfold with_connection. rewrite (upload_rows_success _ rows _ H).
  unfold commit. rewrite execute_all_pending, execute_all_file.
  cbn [connect file pending record_event stored journal].
  rewrite (traverse_length _ _ _ H), <- !app_assoc. reflexivity.
Qed.

(** The rows an upload executes: those of the records before the first
    one that cannot be bound. *)
Lemma upload_rows_executed (data : list EconomicData) (conn : connection) :
  exists rows, snd (upload_rows repr_of data conn) = execute_all rows conn.
Proof.
  revert conn. induction data as [|r data IH]; intros conn.
  - now exists [].
  - cbn [upload_rows]. destruct (insert_parameters repr_of r) as [row|e].
    + destruct (IH (execute_insert row conn)) as (rows & E).
      exists (row :: rows). exact E.
    + now exists [].
Qed.

Lemma sqlite_upload_stored (data : list EconomicData) (db : database) :
  exists rows, stored (snd (sqlite_upload repr_of data db)) = insert_all rows (stored db).
Proof.
  unfold sqlite_upload. destruct data as [|r data]; [now exists []|].
  unfold with_connection.
  destruct (upload_rows_executed (r :: data) (connect db)) as (rows & E).
  exists rows. destruct (upload_rows repr_of (r :: data) (connect db)) as [[b|] conn'];
    cbn [snd] in *; subst conn'; cbn [commit stored]; now rewrite execute_all_pending.
Qed.

Lemma insert_parameters_key (item : EconomicData) (row : EconomicRow.t) :
  insert_parameters repr_of item = Ok row -> same_key row row = true.
Proof.
  unfold insert_parameters. intros H.
  destruct (_format_date (date item)) as [iso|]; [|discriminate H].
  cbn [bind bind_param] in H.
  repeat match type of H with
         | bind ?c _ = Ok _ => destruct c; cbn [bind] in H; [|discriminate H]
         end.
  injection H as <-. unfold same_key. cbn. now rewrite !String.eqb_refl.
Qed.

End RelationalOutcome.

(** X8.  When every record can be bound, [upload] returns [True] and the
    table then holds: the rows that were there and whose key no record
    has; and for every key among the records, the row of the last record
    with that key.  The connection is opened once, one statement is
    executed per record, and the whole is committed once. *)
Theorem sqlite_upload_contents (repr_of : pyval -> string)
        (data : list EconomicData) (rows : list EconomicRow.t) (db : database) :
  data <> [] ->
  traverse (insert_parameters repr_of) data = Ok rows ->
  exists db',
    sqlite_upload repr_of data db = (Ok true, db') /\
    (forall q, In q (stored db') <->
               (In q (stored db) /\ key_free q rows) \/ last_of_key q rows) /\
    journal db' = journal db ++ [Connected] ++ repeat Executed (List.length data)
                             ++ [Committed].
Proof.
  intros Hne H. eexists. split; [exact (sqlite_upload_success repr_of data rows db Hne H)|].
  split; [|reflexivity]. intros q. cbn [stored]. apply insert_all_in.
Qed.

Lemma sqlite_upload_contents_witness :
  exists rows db',
    traverse (insert_parameters no_repr) [sample_record VNone; nan_record] = Ok rows /\
    sqlite_upload no_repr [sample_record VNone; nan_record] empty_db = (Ok true, db') /\
    journal db' = [Connected; Executed; Executed; Committed].
Proof.
  assert (Ht : exists rows,
             traverse (insert_parameters no_repr) [sample_record VNone; nan_record]
             = Ok rows).
  { eexists. vm_compute. reflexivity. }
  destruct Ht as (rows & Ht). exists rows.
  destruct (sqlite_upload_contents no_repr [sample_record VNone; nan_record] rows empty_db)
    as (db' & Hup & _ & Hj).
  - discriminate.
  - exact Ht.
  - exists db'. split; [exact Ht|]. split; [exact Hup|exact Hj].
Defined.

(** X9.  [upload] keeps the primary key a key: if no two rows of the table
    share [(pk, sk)] before the call, none do after it, whether the call
    returns [True] or stops at a record it cannot bind. *)
Theorem sqlite_upload_keeps_keys_distinct (repr_of : pyval -> string)
        (data : list EconomicData) (db : database) :
  keys_distinct (stored db) ->
  keys_distinct (stored (snd (sqlite_upload repr_of data db))).
Proof.
  intros H. destruct (sqlite_upload_stored repr_of data db) as (rows & ->).
  now apply insert_all_distinct.
Qed.

Lemma sqlite_upload_keeps_keys_distinct_witness :
  keys_distinct
    (stored (snd (sqlite_upload no_repr [sample_record VNone; sample_record VNone]
                                empty_db))).
Proof.
  apply (sqlite_upload_keeps_keys_distinct
           no_repr [sample_record VNone; sample_record VNone] empty_db).
  constructor.
Defined.

Lemma traverse_in {A B : Type} (f : A -> outcome B) (l : list A) (bs : list B) (b : B) :
  traverse f l = Ok bs -> In b bs -> exists a, In a l /\ f a = Ok b.
Proof.
  revert bs. induction l as [|a l IH]; intros bs H Hb; cbn [traverse] in H.
  - injection H as <-. destruct Hb.
  - destruct (f a) as [b0|] eqn:Ea; cbn [bind] in H; [|discriminate].
    destruct (traverse f l) as [bs'|]; cbn [bind] in H; [|discriminate].
    injection H as <-. destruct Hb as [<-|Hb].
    + exists a. split; [now left|exact Ea].
    + destruct (IH bs' eq_refl Hb) as (a' & Hin & E). exists a'. split; [now right|exact E].
Qed.

Lemma filter_filter {A : Type} (f g : A -> bool) (l : list A) :
  filter f (filter g l) = filter (fun x => g x && f x) l.
Proof.
  induction l as [|x l IH]; [reflexivity|]. cbn [filter].
  destruct (g x); cbn [filter andb]; [destruct (f x); now rewrite IH|exact IH].
Qed.

(** A run of [INSERT OR REPLACE] first clears the table of the keys it
    writes, then adds its rows. *)
Lemma insert_all_split (rows table : list EconomicRow.t) :
  insert_all rows table
  = filter (fun old => negb (existsb (same_key old) rows)) table ++ insert_all rows [].
Proof.
  revert table. induction rows as [|r rows IH]; intros table.
  - cbn [insert_all fold_left existsb negb]. rewrite app_nil_r.
    induction table as [|x t IHt]; [reflexivity|]. cbn [filter]. now rewrite <- IHt.
  - cbn [insert_all fold_left]. fold (insert_all rows (insert_or_replace r table)).
    fold (insert_all rows (insert_or_replace r [])).
    rewrite (IH (insert_or_replace r table)), (IH (insert_or_replace r [])).
    unfold insert_or_replace. cbn [filter app]. rewrite !filter_app, filter_filter.
    rewrite <- app_assoc. f_equal.
    apply filter_ext. intros old. cbn [existsb]. now rewrite negb_orb.
Qed.

Lemma filter_none {A : Type} (f : A -> bool) (l : list A) :
  (forall x, In x l -> f x = false) -> filter f l = [].
Proof.
  induction l as [|x l IH]; intros H; [reflexivity|]. cbn [filter].
  rewrite (H x (or_introl eq_refl)). apply IH. intros y Hy. apply H. now right.
Qed.

(** X10.  Uploading the same records a second time changes nothing: when
    every record can be bound, both calls return [True] and the table after
    the second call holds exactly the rows it held after the first. *)
Theorem sqlite_upload_idempotent (repr_of : pyval -> string)
        (data : list EconomicData) (rows : list EconomicRow.t) (db : database) :
  data <> [] ->
  traverse (insert_parameters repr_of) data = Ok rows ->
  exists db1 db2,
    sqlite_upload repr_of data db = (Ok true, db1) /\
    sqlite_upload repr_of data db1 = (Ok true, db2) /\
    stored db2 = stored db1.
Proof.
  intros Hne H. eexists. eexists.
  split; [exact (sqlite_upload_success repr_of data rows db Hne H)|].
  split; [exact (sqlite_upload_success repr_of data rows _ Hne H)|].
  cbn [stored].
  rewrite (insert_all_split rows (insert_all rows (stored db))).
  rewrite (insert_all_split rows (stored db)) at 2.
  f_equal. rewrite (insert_all_split rows (stored db)), filter_app, filter_filter.
  rewrite (filter_none _ (insert_all rows [])).
  - rewrite app_nil_r. apply filter_ext. intros old. apply andb_diag.
  - intros q Hq. apply insert_all_in in Hq.
    destruct Hq as [[[] _]|(pre & post & E & _)].
    assert (Hin : In q rows) by (rewrite E; apply in_or_app; right; now left).
    destruct (traverse_in _ _ _ _ H Hin) as (a & _ & Ha).
    apply negb_false_iff, existsb_exists. exists q. split; [exact Hin|].
    exact (insert_parameters_key repr_of a q Ha).
Qed.

Lemma sqlite_upload_idempotent_witness :
  exists db1 db2,
    sqlite_upload no_repr [sample_record VNone; nan_record] empty_db = (Ok true, db1) /\
    sqlite_upload no_repr [sample_record VNone; nan_record] db1 = (Ok true, db2) /\
    stored db2 = stored db1.
Proof.
  assert (Ht : exists rows,
             traverse (insert_parameters no_repr) [sample_record VNone; nan_record]
             = Ok rows).
  { eexists. vm_compute. reflexivity. }
  destruct Ht as (rows & Ht).
  apply (sqlite_upload_idempotent no_repr [sample_record VNone; nan_record] rows empty_db).
  - discriminate.
  - exact Ht.
Defined.

(** ** The read path *)

Section SortedDescOutcome.

Variable A : Type.
Variable lt : A -> A -> outcome bool.

Lemma insert_desc_perm (x : A) (l out : list A) :
  insert_desc lt x l = Ok out -> Permutation out (x :: l).
Proof.
  revert out. induction l as [|y l IH]; intros out H; cbn [insert_desc] in H.
  - injection H as <-. reflexivity.
  - destruct (lt x y) as [[|]|]; cbn [bind] in H; try discriminate H.
    + destruct (insert_desc lt x l) as [rest'|]; cbn [bind] in H; [|discriminate H].
      injection H as <-. rewrite (IH rest' eq_refl). apply perm_swap.
    + injection H as <-. reflexivity.
Qed.

Lemma sorted_desc_perm (l out : list A) :
  sorted_desc lt l = Ok out -> Permutation out l.
Proof.
  revert out. induction l as [|x l IH]; intros out H; cbn [sorted_desc] in H.
  - injection H as <-. reflexivity.
  - destruct (sorted_desc lt l) as [rest'|]; cbn [bind] in H; [|discriminate H].
    rewrite (insert_desc_perm _ _ _ H). constructor. now apply IH.
Qed.

Lemma insert_desc_raise (x : A) (l : list A) (e : exn) :
  insert_desc lt x l = Raise e -> exists y, In y l /\ lt x y = Raise e.
Proof.
  induction l as [|y l IH]; intros H; cbn [insert_desc] in H; [discriminate H|].
  destruct (lt x y) as [[|]|e'] eqn:E; cbn [bind] in H.
  - destruct (insert_desc lt x l) as [rest'|e'']; cbn [bind] in H; [discriminate H|].
    destruct (IH H) as (z & Hz & Ez). exists z. split; [now right|exact Ez].
  - discriminate H.
  - injection H as <-. exists y. split; [now left|exact E].
Qed.

Lemma sorted_desc_raise (l : list A) (e : exn) :
  sorted_desc lt l = Raise e -> exists x y, In x l /\ In y l /\ lt x y = Raise e.
Proof.
  induction l as [|x l IH]; intros H; cbn [sorted_desc] in H; [discriminate H|].
  destruct (sorted_desc lt l) as [rest'|e'] eqn:E; cbn [bind] in H.
  - destruct (insert_desc_raise _ _ _ H) as (y & Hy & Ey).
    exists x, y. split; [now left|]. split; [|exact Ey].
    right. apply (Permutation_in _ (sorted_desc_perm _ _ E) Hy).
  - injection H as <-. destruct (IH eq_refl) as (a & b & Ha & Hb & Eab).
    exists a, b. split; [now right|]. split; [now right|exact Eab].
Qed.

End SortedDescOutcome.

Lemma value_lt_raises (a b : pyval) (e : exn) : value_lt a b = Raise e -> e = TypeError.
Proof. destruct a, b; cbn; congruence. Qed.

Lemma latest_results_origin (country_code keyword : string) (db : database)
      (kv : sqlval * EconomicData) :
  In kv (latest_results country_code keyword db) ->
  exists row,
    In row (stored db) /\ selected country_code keyword row = true /\
    kv = (EconomicRow.indicator_id row, record_of_row row).
Proof.
  intros H. unfold latest_results in H.
  destruct (collect_first_origin _ _ _ H) as [[]|(row & -> & _ & (pre & post & E & _))].
  exists row. split; [|split; [|reflexivity]].
  - assert (Hin : In row (run_query country_code keyword db))
      by (rewrite E; apply in_or_app; right; now left).
    unfold run_query in Hin. rewrite sort_by_in, filter_In in Hin. tauto.
  - assert (Hin : In row (run_query country_code keyword db))
      by (rewrite E; apply in_or_app; right; now left).
    unfold run_query in Hin. rewrite sort_by_in, filter_In in Hin. tauto.
Qed.

(** X11.  Whatever the keyword and whatever the table holds, a list that
    [get_latest_by_indicator_name] returns has only records read from
    stored rows of the country asked for, whose name is a text; they carry
    no metadata; and no two of them are of the same indicator.  The one
    exception the method raises is the [TypeError] of two values that
    [sorted] cannot compare.  A country without rows gives the empty
    list. *)
Theorem get_latest_only_rows_of_country (country_code keyword : string) (db : database) :
  (forall out,
      get_latest_by_indicator_name country_code keyword db = Ok out ->
      Permutation out (map snd (latest_results country_code keyword db)) /\
      distinct_keys (latest_results country_code keyword db) /\
      forall r, In r out ->
        exists row name,
          In row (stored db) /\ r = record_of_row row /\
          EconomicRow.country_code row = SText country_code /\
          EconomicRow.indicator_name row = SText name /\
          metadata r = VNone) /\
  (forall e,
      get_latest_by_indicator_name country_code keyword db = Raise e ->
      e = TypeError /\
      exists a b,
        In a (map snd (latest_results country_code keyword db)) /\
        In b (map snd (latest_results country_code keyword db)) /\
        value_lt (value a) (value b) = Raise TypeError) /\
  (Forall (fun row => EconomicRow.country_code row <> SText country_code) (stored db) ->
   get_latest_by_indicator_name country_code keyword db = Ok []).
Proof.
  split; [|split].
  - intros out H. unfold get_latest_by_indicator_name in H.
    fold (latest_results country_code keyword db) in H.
    pose proof (sorted_desc_perm _ _ _ _ H) as Hp.
    split; [exact Hp|]. split; [apply collect_first_distinct; constructor|].
    intros r Hr. apply (Permutation_in _ Hp) in Hr. apply in_map_iff in Hr.
    destruct Hr as (kv & <- & Hkv).
    destruct (latest_results_origin _ _ _ _ Hkv) as (row & Hin & Hsel & ->).
    unfold selected in Hsel. apply andb_prop in Hsel. destruct Hsel as [Hc Hn].
    unfold sql_equals_text in Hc. unfold lower_like in Hn.
    destruct (EconomicRow.country_code row) as [| | |c] eqn:Ec; try discriminate Hc.
    destruct (EconomicRow.indicator_name row) as [| | |name] eqn:En; try discriminate Hn.
    apply String.eqb_eq in Hc. subst c.
    exists row, name. repeat split; assumption.
  - intros e H. unfold get_latest_by_indicator_name in H.
    fold (latest_results country_code keyword db) in H.
    destruct (sorted_desc_raise _ _ _ _ H) as (a & b & Ha & Hb & E).
    pose proof (value_lt_raises _ _ _ E). subst e.
    split; [reflexivity|]. now exists a, b.
  - intros Hnone. unfold get_latest_by_indicator_name, run_query.
    rewrite (filter_none _ (stored db)); [reflexivity|].
    intros row Hrow. rewrite Forall_forall in Hnone. specialize (Hnone row Hrow).
    unfold selected, sql_equals_text.
    destruct (EconomicRow.country_code row) as [| | |c]; try reflexivity.
    destruct (String.eqb_spec c country_code) as [->|]; [now destruct Hnone|reflexivity].
Qed.

Lemma column_value_not_date (v : sqlval) (d : pydate) : column_value v <> VDate d.
Proof. destruct v; discriminate. Qed.

Lemma record_of_row_refused (repr_of : pyval -> string) (row : EconomicRow.t) :
  insert_parameters repr_of (record_of_row row) = Raise AttributeError /\
  to_db_item repr_of (record_of_row row) = Raise AttributeError.
Proof.
  unfold insert_parameters, to_db_item, _format_date. cbn [date record_of_row].
  destruct (EconomicRow.date row); split; reflexivity.
Qed.

(** X12.  What the repository returns cannot be uploaded again: the date of
    a record it returns is the text of the column, not a date object, so
    both uploaders fail on its [isoformat].  The relational uploader
    returns [False] and leaves the table as it was; the key-value uploader
    raises [AttributeError] before it sends anything. *)
Theorem read_records_are_not_uploadable (repr_of : pyval -> string) (remote : Type)
        (batch_writer : list dict -> remote -> remote * option exn)
        (country_code keyword : string) (db : database)
        (out : list EconomicData) (target : database) (c : client remote) :
  get_latest_by_indicator_name country_code keyword db = Ok out ->
  out <> [] ->
  (forall r, In r out -> forall d, date r <> VDate d) /\
  fst (sqlite_upload repr_of out target) = Ok false /\
  stored (snd (sqlite_upload repr_of out target)) = stored target /\
  aws_upload repr_of remote batch_writer out c = (Raise AttributeError, c).
Proof.
  intros H Hne.
  assert (Hrows : forall r, In r out -> exists row, r = record_of_row row).
  { intros r Hr. unfold get_latest_by_indicator_name in H.
    apply (Permutation_in _ (sorted_desc_perm _ _ _ _ H)) in Hr.
    apply in_map_iff in Hr. destruct Hr as (kv & <- & Hkv).
    destruct (collect_first_origin _ _ _ Hkv) as [[]|(row & -> & _)]. now exists row. }
  split; [|split; [|split]].
  - intros r Hr d. destruct (Hrows r Hr) as (row & ->). apply column_value_not_date.
  - destruct out as [|r out]; [congruence|].
    destruct (Hrows r (or_introl eq_refl)) as (row & ->).
    unfold sqlite_upload, with_connection. cbn [upload_rows].
    now rewrite (proj1 (record_of_row_refused repr_of row)).
  - destruct out as [|r out]; [congruence|].
    destruct (Hrows r (or_introl eq_refl)) as (row & ->).
    unfold sqlite_upload, with_connection. cbn [upload_rows].
    now rewrite (proj1 (record_of_row_refused repr_of row)).
  - destruct out as [|r out]; [congruence|].
    destruct (Hrows r (or_introl eq_refl)) as (row & ->).
    unfold aws_upload. cbn [traverse].
    now rewrite (proj2 (record_of_row_refused repr_of row)).
Qed.

Lemma read_records_are_not_uploadable_witness :
  fst (sqlite_upload no_repr
         [record_of_row (trade_row "exports" "Exports" "2024-01-15" 50);
          record_of_row (trade_row "imports" "Imports" "2024-02-01" 20)] empty_db)
  = Ok false.
Proof.
  apply (read_records_are_not_uploadable no_repr Datatypes.unit always_written
           "US" "port" trade_db
           [record_of_row (trade_row "exports" "Exports" "2024-01-15" 50);
            record_of_row (trade_row "imports" "Imports" "2024-02-01" 20)]
           empty_db (mkclient tt [])).
  - vm_compute. reflexivity.
  - discriminate.
Defined.

Lemma filter_selected_replace (country_code keyword : string)
      (row : EconomicRow.t) (table : list EconomicRow.t) :
  Forall (fun old => selected country_code keyword old = false) table ->
  filter (selected country_code keyword) (insert_or_replace row table)
  = filter (selected country_code keyword) [row].
Proof.
  intros H. unfold insert_or_replace. rewrite filter_app, filter_none; [reflexivity|].
  intros x Hx. apply filter_In in Hx. rewrite Forall_forall in H. now apply H.
Qed.

(** A record that holds what its annotations say, uploaded alone to
    the relational backend and asked for by its country and a keyword its
    name contains, comes back as the one result, equal to the record in
    every standard field but the date, which is now its ISO text; the
    metadata is not stored and comes back as [None]. *)
Theorem upload_then_read_back (repr_of : pyval -> string) (r : EconomicData)
        (code name keyword : string) (db : database) :
  storable r = true ->
  country_code r = VStr code ->
  indicator_name r = VStr name ->
  ascii_text keyword = true ->
  ascii_text name = true ->
  no_wildcard keyword = true ->
  contains (lower keyword) (lower name) = true ->
  Forall (fun row => selected code keyword row = false) (stored db) ->
  exists db',
    sqlite_upload repr_of [r] db = (Ok true, db') /\
    get_latest_by_indicator_name code keyword db' = Ok [read_back r].
Proof.
  intros Hst Hc Hn _ _ Hw Hk Hdb.
  destruct r as [cc cn id nm v dt fr un sr rv cu md].
  cbn [country_code indicator_name] in Hc, Hn. subst cc nm.
  unfold storable in Hst.
  cbn [country_code country_name indicator_id indicator_name value date frequency
       unit source revision_number currency] in Hst.
  repeat (apply andb_prop in Hst; destruct Hst as [Hst ?]).
  destruct cn as [| | | |cn| | |]; try discriminate.
  destruct id as [| | | |id| | |]; try discriminate.
  destruct dt as [| | | | |dt| |]; try discriminate.
  destruct fr as [| | | |fr| | |]; try discriminate.
  destruct un as [| | | |un| | |]; try discriminate.
  destruct sr as [| | | |sr| | |]; try discriminate.
  assert (Hv : exists c, bind_param v = Ok c /\ column_value c = v).
  { destruct v as [| | |[[|]| | |]| | | |]; try discriminate; eexists; split; reflexivity. }
  assert (Hrv : exists c, bind_param rv = Ok c /\ column_value c = rv).
  { destruct rv as [| |z| | | | |]; try discriminate.
    - eexists; split; reflexivity.
    - cbn [is_optional_int64] in *. exists (SInteger z). cbn [bind_param].
      match goal with E : fits_int64 z = true |- _ => rewrite E end. now split. }
  assert (Hcu : exists c, bind_param cu = Ok c /\ column_value c = cu).
  { destruct cu as [| | | |cu| | |]; try discriminate; eexists; split; reflexivity. }
  destruct Hv as (cv & Ev & Rv), Hrv as (crv & Erv & Rrv), Hcu as (ccu & Ecu & Rcu).
  eexists. split.
  - unfold sqlite_upload, with_connection. cbn [upload_rows].
    unfold insert_parameters.
    cbn [country_code country_name indicator_id indicator_name value date frequency
         unit source revision_number currency _format_date bind bind_param py_str].
    rewrite Ev, Erv, Ecu. cbn [bind upload_rows]. reflexivity.
  - unfold get_latest_by_indicator_name, run_query.
    cbn [commit stored execute_insert pending connect].
    rewrite (filter_selected_replace code keyword _ _ Hdb).
    cbn [filter]. unfold selected at 1.
    cbn [EconomicRow.country_code EconomicRow.indicator_name sql_equals_text lower_like].
    rewrite String.eqb_refl.
    rewrite like_contains; [|now rewrite no_wildcard_lower|apply lowered_lower..].
    rewrite Hk. cbn [andb sort_by insert_by collect_first key_in existsb app map snd
                     sorted_desc insert_desc bind].
    unfold record_of_row, read_back.
    cbn [EconomicRow.country_code EconomicRow.country_name EconomicRow.indicator_id
         EconomicRow.indicator_name EconomicRow.value EconomicRow.date
         EconomicRow.frequency EconomicRow.unit EconomicRow.source
         EconomicRow.revision_number EconomicRow.currency column_value
         country_code country_name indicator_id indicator_name value date frequency
         unit source revision_number currency].
    now rewrite Rv, Rrv, Rcu.
Qed.

Lemma upload_then_read_back_witness :
  exists db',
    sqlite_upload no_repr [sample_record VNone] empty_db = (Ok true, db') /\
    get_latest_by_indicator_name "US" "domestic" db' = Ok [read_back (sample_record VNone)].
Proof.
  apply (upload_then_read_back no_repr (sample_record VNone)
           "US" "Gross Domestic Product" "domestic" empty_db);
    try reflexivity.
  constructor.
Defined.

(** ** The preprocessors: how the loops compose *)

Section PointLoopOutput.

Variable step : pyval -> outcome (option EconomicData).

(** The loop over the points only appends, and what it appends does not
    depend on what is there. *)
Lemma append_points_acc (points : list pyval) (processed : list EconomicData) :
  for_each (append_point step) points processed
  = (processed ++ records_of step points,
     snd (for_each (append_point step) points [])).
Proof.
  unfold records_of. revert processed.
  induction points as [|p points IH]; intros processed.
  - cbn. now rewrite app_nil_r.
  - cbn [for_each]. unfold append_point at 1 3 5.
    destruct (step p) as [[r|]|e].
    + rewrite (IH (processed ++ [r])), (IH ([] ++ [r])). cbn [fst snd app].
      now rewrite <- app_assoc.
    + rewrite (IH processed). reflexivity.
    + cbn. now rewrite app_nil_r.
Qed.

Lemma records_of_app (pre post : list pyval) :
  records_of step (pre ++ post)
  = match snd (for_each (append_point step) pre []) with
    | None => records_of step pre ++ records_of step post
    | Some _ => records_of step pre
    end.
Proof.
  unfold records_of at 1. rewrite for_each_app, (append_points_acc pre []).
  cbn [app]. destruct (snd (for_each (append_point step) pre [])); [reflexivity|].
  now rewrite append_points_acc.
Qed.

(** The loop stops at a point that raises. *)
Lemma append_points_stop (pre post : list pyval) (bad : pyval) (e : exn) :
  step bad = Raise e ->
  records_of step (pre ++ bad :: post) = records_of step pre /\
  exists e', snd (for_each (append_point step) (pre ++ bad :: post) []) = Some e'.
Proof.
  intros Hbad. unfold records_of. rewrite for_each_app.
  destruct (for_each (append_point step) pre []) as [s' [e1|]]; cbn [fst snd].
  - split; [reflexivity|now exists e1].
  - cbn [for_each]. unfold append_point at 1 3. rewrite Hbad. cbn [fst snd].
    split; [reflexivity|now exists e].
Qed.

End PointLoopOutput.

Lemma point_loop_acc {X : Type} (setup : outcome (X * pyval))
      (make : X -> pyval -> outcome (option EconomicData))
      (processed : list EconomicData) :
  fst (then_loop setup
         (fun sp => then_loop (py_iter (snd sp))
                      (for_each (append_point (make (fst sp))))) processed)
  = processed ++
    fst (then_loop setup
           (fun sp => then_loop (py_iter (snd sp))
                        (for_each (append_point (make (fst sp))))) []).
Proof.
  unfold then_loop. destruct setup as [[x pts]|e]; [|now rewrite app_nil_r].
  cbn [fst snd]. destruct (py_iter pts) as [points|e]; [|now rewrite app_nil_r].
  rewrite (append_points_acc _ points processed), (append_points_acc _ points []).
  reflexivity.
Qed.

Lemma cl_metric_acc (indicator_metadata country_code : pyval) (metric : string * pyval)
      (processed : list EconomicData) :
  cl_metric indicator_metadata country_code metric processed
  = (processed ++ cl_records indicator_metadata country_code metric, None).
Proof.
  unfold cl_records, cl_metric, try_except_all. cbn [fst]. f_equal. apply point_loop_acc.
Qed.

Lemma us_metric_acc (country_code : pyval) (metric : string * pyval)
      (processed : list EconomicData) :
  us_metric country_code metric processed
  = (processed ++ us_records country_code metric, None).
Proof.
  unfold us_records, us_metric, try_except_all. cbn [fst]. f_equal. apply point_loop_acc.
Qed.

Lemma eu_metric_acc (country_code : pyval) (metric : string * pyval)
      (processed : list EconomicData) :
  eu_metric country_code metric processed
  = (processed ++ eu_records country_code metric, None).
Proof.
  unfold eu_records, eu_metric, try_except_all, eu_metric_body. cbn [fst]. f_equal.
  destruct (py_get (snd metric) "format" VNone) as [fmt|]; [|now rewrite app_nil_r].
  destruct (py_get (snd metric) "data" (VList [])) as [pts|]; [|now rewrite app_nil_r].
  destruct (negb (truthy pts)); [now rewrite app_nil_r|].
  destruct (py_getitem _ "id") as [id|]; [|now rewrite app_nil_r].
  destruct (py_getitem _ "name") as [name|]; [|now rewrite app_nil_r].
  unfold extend_with.
  destruct (is_str "csv" fmt).
  - destruct (_process_csv_data _ pts); cbn [fst app]; [reflexivity|now rewrite app_nil_r].
  - destruct (is_str "html_table" fmt); [|now rewrite app_nil_r].
    destruct (_process_table_data _ _); cbn [fst app]; [reflexivity|now rewrite app_nil_r].
Qed.

(** A loop whose turns only append returns what they append, in order. *)
Lemma for_each_appends {X E : Type} (body : X -> action (list E)) (added : X -> list E)
      (l : list X) (s : list E) :
  (forall x s0, body x s0 = (s0 ++ added x, None)) ->
  for_each body l s = (s ++ flat_map added l, None).
Proof.
  intros Hbody. revert s. induction l as [|x l IH]; intros s.
  - cbn. now rewrite app_nil_r.
  - cbn [for_each flat_map]. rewrite Hbody, IH, <- app_assoc. reflexivity.
Qed.

Lemma cl_process_flat (indicator_metadata country_code : pyval) (raw_data : dict) :
  cl_process indicator_metadata country_code raw_data
  = Ok (flat_map (cl_records indicator_metadata country_code) raw_data).
Proof.
  unfold cl_process.
  rewrite (for_each_appends _ (cl_records indicator_metadata country_code));
    [reflexivity|apply cl_metric_acc].
Qed.

Lemma us_process_flat (country_code : pyval) (raw_data : dict) :
  us_process country_code raw_data = Ok (flat_map (us_records country_code) raw_data).
Proof.
  unfold us_process.
  rewrite (for_each_appends _ (us_records country_code)); [reflexivity|apply us_metric_acc].
Qed.

Lemma eu_process_flat (country_code : pyval) (raw_data : dict) :
  eu_process country_code raw_data = Ok (flat_map (eu_records country_code) raw_data).
Proof.
  unfold eu_process.
  rewrite (for_each_appends _ (eu_records country_code)); [reflexivity|apply eu_metric_acc].
Qed.

(** X13.  The metrics of a payload are processed one by one and
    independently: for each variant, what [process] returns for a payload
    made of two parts is what it returns for the first part followed by
    what it returns for the second.  No metric, however broken, changes
    what the others contribute. *)
Theorem process_of_two_parts (indicator_metadata country_code : pyval)
        (first second : dict) :
  (exists a b,
      cl_process indicator_metadata country_code first = Ok a /\
      cl_process indicator_metadata country_code second = Ok b /\
      cl_process indicator_metadata country_code (first ++ second) = Ok (a ++ b)) /\
  (exists a b,
      us_process country_code first = Ok a /\
      us_process country_code second = Ok b /\
      us_process country_code (first ++ second) = Ok (a ++ b)) /\
  (exists a b,
      eu_process country_code first = Ok a /\
      eu_process country_code second = Ok b /\
      eu_process country_code (first ++ second) = Ok (a ++ b)).
Proof.
  split; [|split]; eexists; eexists.
  - rewrite !cl_process_flat, flat_map_app. repeat split.
  - rewrite !us_process_flat, flat_map_app. repeat split.
  - rewrite !eu_process_flat, flat_map_app. repeat split.
Qed.

Lemma cl_records_of (indicator_metadata country_code : pyval) (metric_name : string)
      (data : pyval) (s : series) (points : list pyval) :
  cl_series indicator_metadata metric_name data = Ok (s, VList points) ->
  cl_records indicator_metadata country_code (metric_name, data)
  = records_of (cl_point country_code s) points.
Proof.
  intros Hs. unfold cl_records, cl_metric, try_except_all, then_loop.
  cbn [fst snd]. rewrite Hs. reflexivity.
Qed.

Lemma us_records_of (country_code : pyval) (metric_name : string)
      (data : pyval) (s : series) (points : list pyval) :
  us_series metric_name data = Ok (s, VList points) ->
  us_records country_code (metric_name, data)
  = records_of (us_point country_code s) points.
Proof.
  intros Hs. unfold us_records, us_metric, try_except_all, then_loop.
  cbn [fst snd]. rewrite Hs. reflexivity.
Qed.

(** X14.  In the Chilean and the US variant a point that raises ends its
    metric: the records of the points before it stay in the output, the
    points after it are never looked at, and the other metrics are
    processed as usual.  A point raises when it is not a dict
    ([AttributeError]), or when its date and its value are truthy and the
    date is not a text ([TypeError]). *)
Theorem raising_point_ends_metric (indicator_metadata country_code : pyval)
        (before after : dict) (metric_name : string) (data : pyval) (s : series)
        (pre post : list pyval) (bad : pyval) :
  (forall e,
      cl_series indicator_metadata metric_name data = Ok (s, VList (pre ++ bad :: post)) ->
      cl_point country_code s bad = Raise e ->
      exists out_before out_after,
        cl_process indicator_metadata country_code before = Ok out_before /\
        cl_process indicator_metadata country_code after = Ok out_after /\
        cl_process indicator_metadata country_code (before ++ (metric_name, data) :: after)
        = Ok (out_before ++ records_of (cl_point country_code s) pre ++ out_after)) /\
  (forall e,
      us_series metric_name data = Ok (s, VList (pre ++ bad :: post)) ->
      us_point country_code s bad = Raise e ->
      exists out_before out_after,
        us_process country_code before = Ok out_before /\
        us_process country_code after = Ok out_after /\
        us_process country_code (before ++ (metric_name, data) :: after)
        = Ok (out_before ++ records_of (us_point country_code s) pre ++ out_after)) /\
  ((forall d, bad <> VDict d) ->
   cl_point country_code s bad = Raise AttributeError /\
   us_point country_code s bad = Raise AttributeError) /\
  (forall d,
      bad = VDict d ->
      truthy (get_default "date" VNone d) = true ->
      truthy (get_default "value" VNone d) = true ->
      is_text (get_default "date" VNone d) = false ->
      cl_point country_code s bad = Raise TypeError /\
      us_point country_code s bad = Raise TypeError).
Proof.
  split; [|split; [|split]].
  - intros e Hs Hbad. eexists. eexists.
    rewrite !cl_process_flat, flat_map_app. cbn [flat_map].
    rewrite (cl_records_of _ _ _ _ _ _ Hs).
    rewrite (proj1 (append_points_stop _ pre post bad e Hbad)).
    repeat split.
  - intros e Hs Hbad. eexists. eexists.
    rewrite !us_process_flat, flat_map_app. cbn [flat_map].
    rewrite (us_records_of _ _ _ _ _ Hs).
    rewrite (proj1 (append_points_stop _ pre post bad e Hbad)).
    repeat split.
  - intros Hd. unfold cl_point, us_point.
    destruct bad as [| | | | | | |d]; try (split; reflexivity). now destruct (Hd d).
  - intros d -> Td Tv Hn. unfold cl_point, us_point, us_parse_date.
    cbn [py_get bind]. rewrite Td, Tv. cbn [negb orb].
    destruct (get_default "date" VNone d) as [| | | | | |l|m];
      try discriminate; cbn [py_strptime py_in bind or_skip]; try (split; reflexivity).
    + destruct (existsb (is_str "-") l); split; reflexivity.
    + destruct (dict_has "-" m); split; reflexivity.
Qed.

Lemma append_points_raise (step : pyval -> outcome (option EconomicData))
      (points : list pyval) (bad : pyval) :
  In bad points -> raises (step bad) = true ->
  exists e, snd (for_each (append_point step) points []) = Some e.
Proof.
  intros Hin Hbad. apply in_split in Hin. destruct Hin as (pre & post & ->).
  destruct (step bad) as [|e] eqn:E; [discriminate Hbad|].
  exact (proj2 (append_points_stop step pre post bad e E)).
Qed.

Lemma helper_raises (step : pyval -> outcome (option EconomicData))
      (points : list pyval) (bad : pyval) :
  In bad points -> raises (step bad) = true ->
  exists e,
    result_of (then_loop (py_iter (VList points)) (for_each (append_point step)) [])
    = Raise e.
Proof.
  intros Hin Hbad. destruct (append_points_raise step points bad Hin Hbad) as (e & He).
  exists e. unfold then_loop. cbn [py_iter].
  destruct (for_each (append_point step) points []) as [out oe]. cbn [snd] in He.
  now subst oe.
Qed.

(** X15.  In the EU variant a point that raises costs the whole metric:
    the helper returns nothing, so not even the records of the points
    before it reach the output.  The other metrics are processed as usual.
    A CSV point that has both columns and whose date cell is a number, not
    a text, is such a point: testing it for a dash is a [TypeError]. *)
Theorem raising_point_drops_eu_metric (country_code : pyval) (before after : dict)
        (metric_name : string) (d : dict) (points rows : list pyval) (bad : pyval) :
  dict_get "data" d = Some (VList points) ->
  (dict_get "format" d = Some (VStr "csv") /\ rows = points /\
   raises (eu_csv_point (eu_series_of country_code metric_name) bad) = true)
  \/
  (dict_get "format" d = Some (VStr "html_table") /\
   flatten_tables (VList points) = VList rows /\
   raises (eu_table_point (eu_series_of country_code metric_name) bad) = true) ->
  In bad rows ->
  (exists out_before out_after,
      eu_process country_code before = Ok out_before /\
      eu_process country_code after = Ok out_after /\
      eu_process country_code (before ++ (metric_name, VDict d) :: after)
      = Ok (out_before ++ out_after)) /\
  (forall s cells v,
      dict_get (fst (eu_columns (e_metric_name s))) cells = Some v ->
      dict_has (snd (eu_columns (e_metric_name s))) cells = true ->
      (exists z, v = VInt z) \/ (exists f, v = VFloat f) ->
      eu_csv_point s (VDict cells) = Raise TypeError).
Proof.
  intros Hdata Hcase Hin. split.
  - eexists. eexists. rewrite !eu_process_flat, flat_map_app. cbn [flat_map].
    assert (Hnone : eu_records country_code (metric_name, VDict d) = []).
    { assert (Htruthy : truthy (VList points) = true).
      { destruct Hcase as [(_ & -> & _)|(_ & Hf & _)].
        - destruct points; [destruct Hin|reflexivity].
        - destruct points; [|reflexivity]. cbn in Hf. injection Hf as <-. destruct Hin. }
      unfold eu_records, eu_metric, try_except_all. cbn [fst snd].
      destruct Hcase as [(Hfmt & -> & Hbad)|(Hfmt & Hflat & Hbad)].
      - rewrite (eu_metric_body_csv _ _ _ _ _ Hfmt Hdata Htruthy).
        unfold extend_with, _process_csv_data.
        destruct (helper_raises _ points bad Hin Hbad) as (e & ->). reflexivity.
      - rewrite (eu_metric_body_table _ _ _ _ _ Hfmt Hdata Htruthy), Hflat.
        unfold extend_with, _process_table_data.
        destruct (helper_raises _ rows bad Hin Hbad) as (e & ->). reflexivity. }
    rewrite Hnone. cbn [app]. repeat split.
  - intros s cells v Hv Hhas Hnum. unfold eu_csv_point.
    destruct (eu_columns (e_metric_name s)) as [date_col value_col].
    cbn [fst snd] in Hv, Hhas. cbn [py_in bind].
    unfold dict_has at 1. rewrite Hv, Hhas. cbn [negb py_getitem bind].
    rewrite Hv.
    destruct (dict_get value_col cells) as [w|] eqn:Ew;
      [|unfold dict_has in Hhas; rewrite Ew in Hhas; discriminate Hhas].
    cbn [bind]. destruct Hnum as [(z & ->)|(f & ->)]; reflexivity.
Qed.

Lemma raising_point_drops_eu_metric_witness :
  exists out_before out_after,
    eu_process (VStr "EU") [] = Ok out_before /\
    eu_process (VStr "EU") [] = Ok out_after /\
    eu_process (VStr "EU")
      ([] ++ ("rates", VDict [("format", VStr "csv");
                              ("data", VList [raw_point (VStr "2024-01-01") (VStr "1.5");
                                              raw_point (VInt 202402) (VStr "2.5")])])
          :: [])
    = Ok (out_before ++ out_after).
Proof.
  apply (raising_point_drops_eu_metric (VStr "EU") [] [] "rates"
           [("format", VStr "csv");
            ("data", VList [raw_point (VStr "2024-01-01") (VStr "1.5");
                            raw_point (VInt 202402) (VStr "2.5")])]
           [raw_point (VStr "2024-01-01") (VStr "1.5"); raw_point (VInt 202402) (VStr "2.5")]
           [raw_point (VStr "2024-01-01") (VStr "1.5"); raw_point (VInt 202402) (VStr "2.5")]
           (raw_point (VInt 202402) (VStr "2.5"))).
  - reflexivity.
  - left. repeat split; reflexivity.
  - right. now left.
Defined.

(** X16.  The EU variant takes nothing from a metric whose entry is not a
    dict, whose data is missing or empty, or whose format is neither
    ["csv"] nor ["html_table"]: such a metric is passed over, without an
    error, whatever its data holds. *)
Theorem eu_metric_without_records (country_code : pyval) (before after : dict)
        (metric_name : string) (data : pyval) :
  (forall d, data <> VDict d)
  \/ (exists d, data = VDict d /\ truthy (get_default "data" (VList []) d) = false)
  \/ (exists d, data = VDict d /\
                is_str "csv" (get_default "format" VNone d) = false /\
                is_str "html_table" (get_default "format" VNone d) = false) ->
  exists out_before out_after,
    eu_process country_code before = Ok out_before /\
    eu_process country_code after = Ok out_after /\
    eu_process country_code (before ++ (metric_name, data) :: after)
    = Ok (out_before ++ out_after).
Proof.
  intros Hcase. eexists. eexists. rewrite !eu_process_flat, flat_map_app. cbn [flat_map].
  assert (Hnone : eu_records country_code (metric_name, data) = []).
  { unfold eu_records, eu_metric, try_except_all, eu_metric_body. cbn [fst snd].
    destruct Hcase as [Hd|[(d & -> & Hempty)|(d & -> & Hcsv & Htable)]].
    - destruct data as [| | | | | | |d]; try reflexivity. now destruct (Hd d).
    - cbn [py_get]. now rewrite Hempty.
    - cbn [py_get]. rewrite Hcsv, Htable.
      destruct (negb (truthy (get_default "data" (VList []) d))); [reflexivity|].
      destruct (py_getitem _ "id"); [|reflexivity].
      destruct (py_getitem _ "name"); reflexivity. }
  rewrite Hnone. cbn [app]. repeat split.
Qed.

Lemma eu_metric_without_records_witness :
  exists out_before out_after,
    eu_process (VStr "EU") [] = Ok out_before /\
    eu_process (VStr "EU") [] = Ok out_after /\
    eu_process (VStr "EU")
      ([] ++ ("rates", VDict [("format", VStr "json");
                              ("data", VList [raw_point (VStr "2024-01-01") (VStr "1.5")])])
          :: [])
    = Ok (out_before ++ out_after).
Proof.
  apply (eu_metric_without_records (VStr "EU") [] [] "rates"
           (VDict [("format", VStr "json");
                   ("data", VList [raw_point (VStr "2024-01-01") (VStr "1.5")])])).
  right. right. eexists. repeat split; reflexivity.
Defined.

(** ** The preprocessors: what a record is *)

Lemma strptime_valid (fmt : list directive) (s : string) (dt : pydate) :
  strptime fmt s = Ok dt -> valid_date dt = true.
Proof.
  unfold strptime. destruct (match_format fmt _ _) as [[p [|c rest]]|]; try discriminate.
  destruct (valid_ymd _ _ _) eqn:E; [|discriminate].
  intros H. injection H as <-. exact E.
Qed.

Lemma py_strptime_valid (fmt : list directive) (v : pyval) (dt : pydate) :
  py_strptime fmt v = Ok dt -> valid_date dt = true.
Proof.
  intros H. destruct (py_strptime_str _ _ _ H) as (s & _ & Hs).
  exact (strptime_valid _ _ _ Hs).
Qed.

Lemma make_date_valid (y m d : Z) (dt : pydate) :
  make_date y m d = Ok dt -> valid_date dt = true.
Proof.
  unfold make_date. destruct (negb _); [discriminate|].
  destruct (valid_ymd y m d) eqn:E; [|discriminate].
  intros H. injection H as <-. exact E.
Qed.

Lemma us_parse_date_valid (v : pyval) (dt : pydate) :
  us_parse_date v = Ok dt -> valid_date dt = true.
Proof.
  unfold us_parse_date. destruct (py_in "-" v) as [[|]|]; cbn [bind]; try discriminate;
    apply py_strptime_valid.
Qed.

Lemma eu_csv_date_valid (v : pyval) (dt : pydate) :
  eu_csv_date v = Ok dt -> valid_date dt = true.
Proof.
  unfold eu_csv_date.
  destruct (py_in "-" v) as [[|]|]; cbn [bind]; try discriminate;
    [apply py_strptime_valid|].
  destruct (py_in "/" v) as [[|]|]; cbn [bind]; try discriminate;
    [apply py_strptime_valid|].
  destruct (py_in "Q" v) as [[|]|]; cbn [bind]; try discriminate;
    [|apply py_strptime_valid].
  unfold py_quarter_date, eu_quarter_date. destruct v; try discriminate.
  destruct (int_of_string (take 4 s)); cbn [bind]; [|discriminate].
  destruct (int_of_string (drop 5 s)); cbn [bind]; [|discriminate].
  apply make_date_valid.
Qed.

Lemma eu_table_date_valid (v : pyval) (dt : pydate) :
  eu_table_date v = Ok dt -> valid_date dt = true.
Proof.
  unfold eu_table_date.
  destruct (py_in "-" v) as [[|]|]; cbn [bind]; try discriminate;
    [apply py_strptime_valid|].
  destruct (py_in "/" v) as [[|]|]; cbn [bind]; try discriminate;
    apply py_strptime_valid.
Qed.

Lemma cl_point_stamped (country_code : pyval) (s : series) (point : pyval)
      (r : EconomicData) :
  cl_point country_code s point = Ok (Some r) ->
  stamped r country_code "Chile" "Banco Central de Chile" "ChilePreprocessor" /\
  revision_number r = VInt 0.
Proof.
  intros H. destruct (cl_point_inv _ _ _ _ H) as (d & dt & f & -> & _ & _ & Hdt & _ & Hm).
  destruct Hm as (Hmeta & Hdate & Hvalue).
  unfold cl_point in H. invert_step H. injection H as <-.
  split; [|reflexivity].
  exists dt, f, (VDict d). repeat split; try assumption; try reflexivity.
  exact (py_strptime_valid _ _ _ Hdt).
Qed.

Lemma us_point_stamped (country_code : pyval) (s : series) (point : pyval)
      (r : EconomicData) :
  us_point country_code s point = Ok (Some r) ->
  stamped r country_code "United States" "US Federal Reserve" "USPreprocessor".
Proof.
  intros H. destruct (us_point_inv _ _ _ _ H) as (d & dt & f & -> & _ & _ & Hdt & _ & Hm).
  destruct Hm as (Hmeta & Hdate & Hvalue).
  unfold us_point in H. invert_step H. injection H as <-.
  exists dt, f, (VDict d). repeat split; try assumption; try reflexivity.
  exact (us_parse_date_valid _ _ Hdt).
Qed.

Lemma eu_csv_point_stamped (s : eu_series) (point : pyval) (r : EconomicData) :
  eu_csv_point s point = Ok (Some r) ->
  (exists dt f,
      date r = VDate dt /\ valid_date dt = true /\ value r = VFloat f /\
      metadata r = provenance point "EUPreprocessor") /\
  country_code r = e_country_code s /\
  country_name r = e_country_name s /\
  source r = VStr "European Central Bank" /\
  (frequency r = VStr "monthly" \/ frequency r = VStr "quarterly").
Proof.
  intros H.
  destruct (eu_csv_point_inv _ _ _ H)
    as (d & ds & vs & dt & f & -> & _ & _ & Hdt & _ & Hmeta & Hdate & Hvalue).
  split.
  - exists dt, f. repeat split; try assumption. exact (eu_csv_date_valid _ _ Hdt).
  - unfold eu_csv_point in H. destruct (eu_columns (e_metric_name s)) as [dc vc].
    destruct (py_in dc (VDict d)) as [[|]|]; cbn [bind negb] in H; try discriminate.
    destruct (py_in vc (VDict d)) as [[|]|]; cbn [bind negb] in H; try discriminate.
    destruct (py_getitem (VDict d) dc) as [ds'|]; cbn [bind] in H; [|discriminate].
    destruct (py_getitem (VDict d) vc) as [vs'|]; cbn [bind] in H; [|discriminate].
    destruct (eu_csv_date ds') as [dt'|[]]; cbn [or_skip] in H; try discriminate.
    destruct (eu_value vs') as [[f'|]|]; cbn [bind] in H; try discriminate.
    destruct (py_in "Q" ds') as [q|]; cbn [bind] in H; [|discriminate].
    cbn [py_get bind] in H. injection H as <-.
    repeat split. destruct q; [now right|now left].
Qed.

Lemma eu_table_point_stamped (s : eu_series) (point : pyval) (r : EconomicData) :
  eu_table_point s point = Ok (Some r) ->
  (exists dt f,
      date r = VDate dt /\ valid_date dt = true /\ value r = VFloat f /\
      metadata r = provenance point "EUPreprocessor") /\
  country_code r = e_country_code s /\
  country_name r = e_country_name s /\
  source r = VStr "European Central Bank" /\
  (frequency r = VStr "monthly" \/ frequency r = VStr "quarterly").
Proof.
  intros H.
  destruct (eu_table_point_inv _ _ _ H)
    as (d & ds & vs & dt & f & -> & Hscan & _ & _ & Hdt & _ & Hmeta & Hdate & Hvalue).
  split.
  - exists dt, f. repeat split; try assumption. exact (eu_table_date_valid _ _ Hdt).
  - unfold eu_table_point in H. cbn [py_items bind] in H. rewrite Hscan in H.
    destruct (negb (truthy ds) || negb (truthy vs)); [discriminate|].
    destruct (eu_table_date ds) as [dt'|[]]; cbn [or_skip] in H; try discriminate.
    destruct (eu_value vs) as [[f'|]|]; cbn [bind] in H; try discriminate.
    cbn [py_get bind] in H. injection H as <-.
    repeat split. now left.
Qed.

Lemma eu_process_stamped (country_code : pyval) (raw_data : dict)
      (out : list EconomicData) (r : EconomicData) :
  eu_process country_code raw_data = Ok out ->
  In r out ->
  stamped r country_code "European Union" "European Central Bank" "EUPreprocessor" /\
  (frequency r = VStr "monthly" \/ frequency r = VStr "quarterly").
Proof.
  rewrite eu_process_returns. intros H Hin. injection H as <-.
  unfold eu_metric in Hin.
  apply (for_each_guarded_origin _
           (fun _ r =>
              stamped r country_code "European Union" "European Central Bank"
                      "EUPreprocessor" /\
              (frequency r = VStr "monthly" \/ frequency r = VStr "quarterly")))
    in Hin.
  - destruct Hin as [[]|(_ & _ & H)]. exact H.
  - intros metric s0 _. unfold eu_metric_body.
    destruct (py_get (snd metric) "format" VNone) as [fmt|]; [|now left].
    destruct (py_get (snd metric) "data" (VList [])) as [pts|]; [|now left].
    destruct (negb (truthy pts)); [now left|].
    destruct (py_getitem _ "id") as [id|]; [|now left].
    destruct (py_getitem _ "name") as [name|]; [|now left].
    destruct (is_str "csv" fmt).
    + unfold extend_with.
      destruct (_process_csv_data _ pts) as [rows|] eqn:Hrows; [|now left].
      cbn [fst]. intros H. apply in_app_or in H. destruct H as [H|H]; [now left|].
      right. unfold _process_csv_data in Hrows.
      destruct (helper_origin _ _ _ _ Hrows H) as (p & Hp).
      destruct (eu_csv_point_stamped _ _ _ Hp)
        as ((dt & f & Hd & Hv & Hf & Hm) & Hc & Hn & Hs & Hfreq).
      split; [|exact Hfreq]. exists dt, f, p. repeat split; assumption.
    + destruct (is_str "html_table" fmt); [|now left].
      unfold extend_with.
      destruct (_process_table_data _ _) as [rows|] eqn:Hrows; [|now left].
      cbn [fst]. intros H. apply in_app_or in H. destruct H as [H|H]; [now left|].
      right. unfold _process_table_data in Hrows.
      destruct (helper_origin _ _ _ _ Hrows H) as (p & Hp).
      destruct (eu_table_point_stamped _ _ _ Hp)
        as ((dt & f & Hd & Hv & Hf & Hm) & Hc & Hn & Hs & Hfreq).
      split; [|exact Hfreq]. exists dt, f, p. repeat split; assumption.
Qed.

(** X17.  Every record a variant returns is well formed, whatever the
    payload: its date is a date of the calendar and its value a float; it
    carries the country code [process] was given, the variant's country
    name and source, and in its metadata the point it was made from.  The
    Chilean variant sets the revision number to 0; the EU variant sets the
    frequency to ["monthly"] or ["quarterly"]. *)
Theorem processed_records_are_stamped (indicator_metadata country_code : pyval)
        (raw_data : dict) (r : EconomicData) :
  (forall out,
      cl_process indicator_metadata country_code raw_data = Ok out -> In r out ->
      stamped r country_code "Chile" "Banco Central de Chile" "ChilePreprocessor" /\
      revision_number r = VInt 0) /\
  (forall out,
      us_process country_code raw_data = Ok out -> In r out ->
      stamped r country_code "United States" "US Federal Reserve" "USPreprocessor") /\
  (forall out,
      eu_process country_code raw_data = Ok out -> In r out ->
      stamped r country_code "European Union" "European Central Bank" "EUPreprocessor" /\
      (frequency r = VStr "monthly" \/ frequency r = VStr "quarterly")).
Proof.
  split; [|split].
  - intros out H Hin. destruct (cl_process_origin _ _ _ _ _ H Hin) as (s & p & Hp).
    exact (cl_point_stamped _ _ _ _ Hp).
  - intros out H Hin. destruct (us_process_origin _ _ _ _ H Hin) as (s & p & Hp).
    exact (us_point_stamped _ _ _ _ Hp).
  - intros out H Hin. exact (eu_process_stamped _ _ _ _ H Hin).
Qed.

(** A record with a valid date and a dict of metadata without standard
    names is decoded from its item exactly. *)
Lemma mapper_exact (repr_of : pyval -> string) (r : EconomicData)
      (d : pydate) (m : dict) :
  date r = VDate d ->
  valid_date d = true ->
  metadata r = VDict m ->
  Forall (fun k => is_standard k = false) (keys m) ->
  NoDup (keys m) ->
  exists item, to_db_item repr_of r = Ok item /\ from_db_item item = Ok r.
Proof.
  intros Hd Hv Hm Hex Hnd.
  assert (Hup : dict_update [] m = m) by (now apply dict_update_nodup).
  assert (Hmap : metadata_mapping (metadata r) = Ok m).
  { rewrite Hm. unfold metadata_mapping. destruct m; reflexivity. }
  eexists. split.
  - apply (to_db_item_shape repr_of r d m Hd Hmap Hex).
  - rewrite from_db_item_of_shape by exact Hv.
    rewrite Hup, (extra_attributes_all m Hex).
    destruct r; cbn in *. now subst.
Qed.

Lemma stamped_survives_mapper (repr_of : pyval -> string) (r : EconomicData)
      (code : pyval) (country origin processor : string) :
  stamped r code country origin processor ->
  exists item, to_db_item repr_of r = Ok item /\ from_db_item item = Ok r.
Proof.
  intros (dt & f & point & Hd & Hv & _ & _ & _ & _ & Hm).
  apply (mapper_exact repr_of r dt _ Hd Hv Hm).
  - repeat constructor.
  - repeat constructor; cbn; intuition discriminate.
Qed.

(** X18.  Every record a variant returns goes through the mapper
    unharmed: [to_db_item] accepts it, so the key-value upload of the
    output of [process] never raises in the mapper, and [from_db_item]
    gives the very record back from the item, the metadata included. *)
Theorem processed_records_survive_mapper (repr_of : pyval -> string)
        (indicator_metadata country_code : pyval) (raw_data : dict) :
  (forall out r,
      cl_process indicator_metadata country_code raw_data = Ok out -> In r out ->
      exists item, to_db_item repr_of r = Ok item /\ from_db_item item = Ok r) /\
  (forall out r,
      us_process country_code raw_data = Ok out -> In r out ->
      exists item, to_db_item repr_of r = Ok item /\ from_db_item item = Ok r) /\
  (forall out r,
      eu_process country_code raw_data = Ok out -> In r out ->
      exists item, to_db_item repr_of r = Ok item /\ from_db_item item = Ok r) /\
  (forall out,
      cl_process indicator_metadata country_code raw_data = Ok out
      \/ us_process country_code raw_data = Ok out
      \/ eu_process country_code raw_data = Ok out ->
      exists items, traverse (to_db_item repr_of) out = Ok items).
Proof.
  assert (Hall : forall out : list EconomicData,
             (forall r, In r out ->
                        exists item, to_db_item repr_of r = Ok item /\ from_db_item item = Ok r) ->
             exists items, traverse (to_db_item repr_of) out = Ok items).
  { induction out as [|r out IH]; intros H; [now exists []|].
    destruct (H r (or_introl eq_refl)) as (item & Hitem & _).
    destruct IH as (items & Hitems); [intros r' Hr'; apply H; now right|].
    exists (item :: items). cbn [traverse]. now rewrite Hitem, Hitems. }
  assert (Hcl : forall out r,
             cl_process indicator_metadata country_code raw_data = Ok out -> In r out ->
             exists item, to_db_item repr_of r = Ok item /\ from_db_item item = Ok r).
  { intros out r H Hin. destruct (cl_process_origin _ _ _ _ _ H Hin) as (s & p & Hp).
    exact (stamped_survives_mapper _ _ _ _ _ _ (proj1 (cl_point_stamped _ _ _ _ Hp))). }
  assert (Hus : forall out r,
             us_process country_code raw_data = Ok out -> In r out ->
             exists item, to_db_item repr_of r = Ok item /\ from_db_item item = Ok r).
  { intros out r H Hin. destruct (us_process_origin _ _ _ _ H Hin) as (s & p & Hp).
    exact (stamped_survives_mapper _ _ _ _ _ _ (us_point_stamped _ _ _ _ Hp)). }
  assert (Heu : forall out r,
             eu_process country_code raw_data = Ok out -> In r out ->
             exists item, to_db_item repr_of r = Ok item /\ from_db_item item = Ok r).
  { intros out r H Hin.
    exact (stamped_survives_mapper _ _ _ _ _ _ (proj1 (eu_process_stamped _ _ _ _ H Hin))). }
  split; [exact Hcl|]. split; [exact Hus|]. split; [exact Heu|].
  intros out [H|[H|H]]; apply Hall; intros r Hr; eauto.
Qed.

(** ** Dates read from text *)

Lemma list_ascii_app (s t : string) :
  list_ascii_of_string (s ++ t) = list_ascii_of_string s ++ list_ascii_of_string t.
Proof. induction s as [|c s IH]; cbn; [reflexivity|now rewrite IH]. Qed.

Lemma Z_in_range (z lo : Z) (n : nat) :
  lo <= z < lo + Z.of_nat n -> In z (map (fun k => lo + Z.of_nat k) (seq 0 n)).
Proof.
  intros Hz. apply in_map_iff. exists (Z.to_nat (z - lo)). split; [lia|].
  apply in_seq. lia.
Qed.

Lemma match_year (fmt : list directive) (y : Z) (rest : list ascii) (acc : parsed) :
  0 <= y < 10000 ->
  match_format (DYear :: fmt) (list_ascii_of_string (pad4 y) ++ rest) acc
  = match_format fmt rest (store DYear y acc).
Proof.
  intros Hy. unfold pad4, pad2.
  cbn [list_ascii_of_string app match_format alternatives first_success four_digits forallb].
  rewrite !is_digit_digit_of. cbn [andb]. rewrite (num4_pad y Hy).
  destruct (match_format fmt rest (store DYear y acc)); reflexivity.
Qed.

Lemma match_literal (fmt : list directive) (c : ascii) (rest : list ascii) (acc : parsed) :
  match_format (DLit c :: fmt) (c :: rest) acc = match_format fmt rest acc.
Proof.
  cbn [match_format alternatives first_success literal store]. rewrite Ascii.eqb_refl.
  destruct (match_format fmt rest acc); reflexivity.
Qed.

(** Evaluation of the alternatives of a directive on a text that begins
    with given characters. *)
Ltac run_alternatives H :=
  match goal with
  | |- context [list_ascii_of_string (pad2 ?z)] =>
      let l := eval vm_compute in (list_ascii_of_string (pad2 z)) in
      change (list_ascii_of_string (pad2 z)) with l
  end;
  cbn [app match_format alternatives first_success two_chars one_char blank_then];
  repeat match goal with
         | |- context [in_range ?a ?b ?c] =>
             let v := eval vm_compute in (in_range a b c) in
             change (in_range a b c) with v
         | |- context [num2 ?a ?b] =>
             let v := eval vm_compute in (num2 a b) in
             change (num2 a b) with v
         | |- context [digit_val ?a] =>
             let v := eval vm_compute in (digit_val a) in
             change (digit_val a) with v
         | |- context [Ascii.eqb ?a ?b] =>
             let v := eval vm_compute in (Ascii.eqb a b) in
             change (Ascii.eqb a b) with v
         end;
  cbn [andb]; cbn iota; rewrite ?H; cbn iota.

Lemma match_month (fmt : list directive) (m : Z) (rest : list ascii) (acc : parsed)
      (found : parsed * list ascii) :
  1 <= m <= 12 ->
  match_format fmt rest (store DMonth m acc) = Some found ->
  match_format (DMonth :: fmt) (list_ascii_of_string (pad2 m) ++ rest) acc = Some found.
Proof.
  intros Hm H. assert (Hin := Z_in_range m 1 12 ltac:(lia)).
  vm_compute in Hin.
  repeat (destruct Hin as [<-|Hin]; [now run_alternatives H|]).
  destruct Hin.
Qed.

Lemma match_day (fmt : list directive) (d : Z) (rest : list ascii) (acc : parsed)
      (found : parsed * list ascii) :
  1 <= d <= 31 ->
  match_format fmt rest (store DDay d acc) = Some found ->
  match_format (DDay :: fmt) (list_ascii_of_string (pad2 d) ++ rest) acc = Some found.
Proof.
  intros Hd H. assert (Hin := Z_in_range d 1 31 ltac:(lia)).
  vm_compute in Hin.
  repeat (destruct Hin as [<-|Hin]; [now run_alternatives H|]).
  destruct Hin.
Qed.

Lemma strptime_found (fmt : list directive) (s : string) (y m d : Z) :
  match_format fmt (list_ascii_of_string s) (mkparsed 1900 1 1)
  = Some (mkparsed y m d, []) ->
  valid_ymd y m d = true ->
  strptime fmt s = Ok (mkdate y m d).
Proof. intros H Hv. unfold strptime. rewrite H. cbn [p_year p_month p_day]. now rewrite Hv. Qed.

Lemma strptime_isoformat (d : pydate) :
  valid_date d = true -> strptime fmt_iso (isoformat d) = Ok d.
Proof.
  intros Hv. destruct d as [y m dd]. unfold valid_date in Hv. cbn [year month day] in Hv.
  destruct (valid_ymd_bounds _ _ _ Hv) as (Hy & Hm & Hd).
  apply strptime_found; [|exact Hv].
  unfold isoformat, fmt_iso. cbn [year month day].
  rewrite !list_ascii_app. cbn [list_ascii_of_string app].
  rewrite match_year by lia. rewrite match_literal.
  apply match_month; [lia|]. rewrite match_literal.
  rewrite <- (app_nil_r (list_ascii_of_string (pad2 dd))).
  apply match_day; [lia|]. reflexivity.
Qed.

Lemma strptime_compact (d : pydate) :
  valid_date d = true -> strptime fmt_compact (compact_text d) = Ok d.
Proof.
  intros Hv. destruct d as [y m dd]. unfold valid_date in Hv. cbn [year month day] in Hv.
  destruct (valid_ymd_bounds _ _ _ Hv) as (Hy & Hm & Hd).
  apply strptime_found; [|exact Hv].
  unfold compact_text, fmt_compact. cbn [year month day].
  rewrite !list_ascii_app.
  rewrite match_year by lia.
  apply match_month; [lia|].
  rewrite <- (app_nil_r (list_ascii_of_string (pad2 dd))).
  apply match_day; [lia|]. reflexivity.
Qed.

Lemma strptime_slashed (d : pydate) :
  valid_date d = true -> strptime fmt_slashes (slashed_text d) = Ok d.
Proof.
  intros Hv. destruct d as [y m dd]. unfold valid_date in Hv. cbn [year month day] in Hv.
  destruct (valid_ymd_bounds _ _ _ Hv) as (Hy & Hm & Hd).
  apply strptime_found; [|exact Hv].
  unfold slashed_text, fmt_slashes. cbn [year month day].
  rewrite !list_ascii_app. cbn [list_ascii_of_string app].
  apply match_day; [lia|]. rewrite match_literal.
  apply match_month; [lia|]. rewrite match_literal.
  rewrite <- (app_nil_r (list_ascii_of_string (pad4 y))).
  rewrite match_year by lia. reflexivity.
Qed.

Lemma strptime_month (d : pydate) :
  valid_date d = true -> strptime fmt_year_month (month_text d) = Ok (first_of_month d).
Proof.
  intros Hv. destruct d as [y m dd]. unfold valid_date in Hv. cbn [year month day] in Hv.
  destruct (valid_ymd_bounds _ _ _ Hv) as (Hy & Hm & Hd).
  unfold first_of_month. cbn [year month].
  apply strptime_found.
  - unfold month_text, fmt_year_month. cbn [year month day].
    rewrite !list_ascii_app.
    rewrite match_year by lia.
    rewrite <- (app_nil_r (list_ascii_of_string (pad2 m))).
    apply match_month; [lia|]. reflexivity.
  - unfold valid_ymd in *.
    repeat (apply andb_prop in Hv; destruct Hv as [Hv ?]).
    repeat (apply andb_true_intro; split); try assumption; try reflexivity.
    apply Z.leb_le. unfold days_in_month.
    destruct (m =? 2); [destruct (is_leap y); lia|].
    destruct ((m =? 4) || (m =? 6) || (m =? 9) || (m =? 11)); lia.
Qed.

Lemma contains_char (c : ascii) (s : string) :
  contains (String c EmptyString) s = has_char c s.
Proof.
  induction s as [|d s IH]; [reflexivity|].
  cbn [contains has_char prefix]. rewrite IH.
  destruct (ascii_dec c d) as [->|Hne].
  - rewrite Ascii.eqb_refl. cbn. now destruct s.
  - destruct (Ascii.eqb_spec c d); [contradiction|reflexivity].
Qed.

Lemma has_char_app (c : ascii) (s t : string) :
  has_char c (s ++ t) = has_char c s || has_char c t.
Proof.
  induction s as [|d s IH]; [reflexivity|]. cbn [append has_char].
  now rewrite IH, orb_assoc.
Qed.

Lemma eqb_digit_of (c : ascii) (z : Z) :
  is_digit c = false -> Ascii.eqb c (digit_of z) = false.
Proof.
  intros Hc. destruct (Ascii.eqb_spec c (digit_of z)) as [->|]; [|reflexivity].
  now rewrite is_digit_digit_of in Hc.
Qed.

Lemma has_char_pad2 (c : ascii) (z : Z) : is_digit c = false -> has_char c (pad2 z) = false.
Proof. intros Hc. unfold pad2. cbn [has_char]. now rewrite !eqb_digit_of. Qed.

Lemma has_char_pad4 (c : ascii) (z : Z) : is_digit c = false -> has_char c (pad4 z) = false.
Proof. intros Hc. unfold pad4, pad2. cbn [has_char]. now rewrite !eqb_digit_of. Qed.

(** X19.  Each variant reads back the text of a date written with leading
    zeros in a format it accepts: the ISO form in every variant, the
    compact form ["%Y%m%d"] in the US variant, the form ["%d/%m/%Y"] in the
    EU variant; the form ["%Y%m"] gives the first day of the month there.
    In particular the date text the mapper writes parses back to the date
    it came from. *)
Theorem accepted_date_texts_read_back (d : pydate) :
  valid_date d = true ->
  py_strptime fmt_iso (VStr (isoformat d)) = Ok d /\
  us_parse_date (VStr (isoformat d)) = Ok d /\
  us_parse_date (VStr (compact_text d)) = Ok d /\
  eu_csv_date (VStr (isoformat d)) = Ok d /\
  eu_csv_date (VStr (slashed_text d)) = Ok d /\
  eu_csv_date (VStr (month_text d)) = Ok (first_of_month d) /\
  eu_table_date (VStr (isoformat d)) = Ok d /\
  eu_table_date (VStr (slashed_text d)) = Ok d /\
  eu_table_date (VStr (month_text d)) = Ok (first_of_month d).
Proof.
  intros Hv.
  pose proof (strptime_isoformat d Hv) as Hiso.
  pose proof (strptime_compact d Hv) as Hcompact.
  pose proof (strptime_slashed d Hv) as Hslashed.
  pose proof (strptime_month d Hv) as Hmonth.
  destruct (iso_date_everywhere _ _ Hiso) as (H1 & H2 & H3 & H4).
  assert (Hdc : contains "-" (compact_text d) = false).
  { rewrite contains_char. unfold compact_text.
    now rewrite !has_char_app, has_char_pad4, !has_char_pad2. }
  assert (Hds : contains "-" (slashed_text d) = false).
  { rewrite contains_char. unfold slashed_text.
    rewrite !has_char_app, has_char_pad4, !has_char_pad2 by reflexivity. reflexivity. }
  assert (Hss : contains "/" (slashed_text d) = true).
  { rewrite contains_char. unfold slashed_text.
    rewrite !has_char_app. cbn [has_char]. rewrite Ascii.eqb_refl.
    now rewrite !orb_true_r. }
  assert (Hdm : contains "-" (month_text d) = false).
  { rewrite contains_char. unfold month_text.
    now rewrite !has_char_app, has_char_pad4, !has_char_pad2. }
  assert (Hsm : contains "/" (month_text d) = false).
  { rewrite contains_char. unfold month_text.
    now rewrite !has_char_app, has_char_pad4, !has_char_pad2. }
  assert (Hqm : contains "Q" (month_text d) = false).
  { rewrite contains_char. unfold month_text.
    now rewrite !has_char_app, has_char_pad4, !has_char_pad2. }
  repeat split; try assumption.
  - unfold us_parse_date. cbn [py_in bind]. rewrite Hdc. exact Hcompact.
  - unfold eu_csv_date. cbn [py_in bind]. rewrite Hds. cbn [bind]. rewrite Hss.
    exact Hslashed.
  - unfold eu_csv_date. cbn [py_in bind]. rewrite Hdm. cbn [bind]. rewrite Hsm.
    cbn [bind]. rewrite Hqm. exact Hmonth.
  - unfold eu_table_date. cbn [py_in bind]. rewrite Hds. cbn [bind]. rewrite Hss.
    exact Hslashed.
  - unfold eu_table_date. cbn [py_in bind]. rewrite Hdm. cbn [bind]. rewrite Hsm.
    exact Hmonth.
Qed.

Lemma accepted_date_texts_read_back_witness :
  us_parse_date (VStr "20240115") = Ok (mkdate 2024 1 15) /\
  eu_csv_date (VStr "15/01/2024") = Ok (mkdate 2024 1 15) /\
  eu_table_date (VStr "202401") = Ok (mkdate 2024 1 1).
Proof.
  destruct (accepted_date_texts_read_back (mkdate 2024 1 15))
    as (_ & _ & H1 & _ & H2 & _ & _ & _ & H3); [reflexivity|].
  split; [exact H1|]. split; [exact H2|exact H3].
Defined.

(** ** Whole numbers read from text *)

Lemma digit_is_plain (c : ascii) :
  is_digit c = true ->
  is_c_space c = false /\ Ascii.eqb c "_" = false /\
  Ascii.eqb c "-" = false /\ Ascii.eqb c "+" = false.
Proof.
  intros Hc. unfold is_digit in Hc. apply andb_prop in Hc. destruct Hc as [H1 H2].
  apply Nat.leb_le in H1, H2. repeat split.
  - unfold is_c_space. cbn zeta.
    destruct (Nat.leb_spec 9 (nat_of_ascii c)), (Nat.leb_spec (nat_of_ascii c) 13),
      (Nat.eqb_spec (nat_of_ascii c) 32); cbn; try reflexivity; lia.
  - destruct (Ascii.eqb_spec c "_") as [->|]; [cbn in H2; lia|reflexivity].
  - destruct (Ascii.eqb_spec c "-") as [->|]; [cbn in H1; lia|reflexivity].
  - destruct (Ascii.eqb_spec c "+") as [->|]; [cbn in H1; lia|reflexivity].
Qed.

Lemma rstrip_digits (s : string) : all_digits s = true -> rstrip is_c_space s = s.
Proof.
  induction s as [|c s IH]; [reflexivity|]. cbn [all_digits rstrip]. intros H.
  apply andb_prop in H. destruct H as [Hc Hs]. rewrite (IH Hs).
  destruct s; [|reflexivity]. now rewrite (proj1 (digit_is_plain c Hc)).
Qed.

Lemma trimmed_digits (s : string) :
  all_digits s = true -> trimmed s = list_ascii_of_string s.
Proof.
  intros H. unfold trimmed. f_equal.
  destruct s as [|c s]; [reflexivity|]. cbn [lstrip].
  cbn [all_digits] in H. pose proof H as H'. apply andb_prop in H'. destruct H' as [Hc _].
  rewrite (proj1 (digit_is_plain c Hc)). now apply rstrip_digits.
Qed.

Lemma drop_underscores_digits (s : string) (prev : ascii) :
  all_digits s = true -> Ascii.eqb prev "_" = false ->
  drop_underscores prev (list_ascii_of_string s) = Some (list_ascii_of_string s).
Proof.
  revert prev. induction s as [|c s IH]; intros prev H Hp.
  - cbn. now rewrite Hp.
  - cbn [all_digits] in H. apply andb_prop in H. destruct H as [Hc Hs].
    destruct (digit_is_plain c Hc) as (_ & Hu & _).
    cbn [list_ascii_of_string drop_underscores]. rewrite Hu, Hp. cbn [andb].
    now rewrite (IH c Hs Hu).
Qed.

Lemma span_digits_all (s : string) :
  all_digits s = true -> span_digits (list_ascii_of_string s) = (list_ascii_of_string s, []).
Proof.
  induction s as [|c s IH]; [reflexivity|]. cbn [all_digits]. intros H.
  apply andb_prop in H. destruct H as [Hc Hs].
  cbn [list_ascii_of_string span_digits]. now rewrite Hc, (IH Hs).
Qed.

(** [int] of a run of digits is the number they spell. *)
Lemma int_of_digits (s : string) :
  s <> EmptyString -> all_digits s = true -> (String.length s <= 4300)%nat ->
  int_of_string s = Ok (Z_of_digits (list_ascii_of_string s)).
Proof.
  intros Hne Hd Hlen. unfold int_of_string.
  rewrite (trimmed_digits s Hd), (drop_underscores_digits s _ Hd) by reflexivity.
  destruct s as [|c s]; [congruence|].
  pose proof Hd as Hd'. cbn [all_digits] in Hd'. apply andb_prop in Hd'.
  destruct Hd' as [Hc _]. destruct (digit_is_plain c Hc) as (_ & _ & Hm & Hp).
  cbn [list_ascii_of_string split_sign]. rewrite Hm, Hp.
  change (c :: list_ascii_of_string s) with (list_ascii_of_string (String c s)).
  rewrite (span_digits_all _ Hd). cbn [list_ascii_of_string].
  assert (Hl : List.length (c :: list_ascii_of_string s) = String.length (String c s)).
  { clear. cbn. f_equal. induction s as [|d s IH]; cbn; [reflexivity|now rewrite IH]. }
  rewrite Hl. destruct (Nat.ltb_spec 4300 (String.length (String c s))); [lia|reflexivity].
Qed.

Lemma int_of_pad4 (y : Z) : 0 <= y < 10000 -> int_of_string (pad4 y) = Ok y.
Proof.
  intros Hy. rewrite int_of_digits.
  - f_equal. unfold pad4, pad2, Z_of_digits. cbn [list_ascii_of_string fold_left].
    rewrite !digit_val_digit_of.
    destruct (four_digits_of y Hy) as (E & _). lia.
  - discriminate.
  - unfold pad4, pad2. cbn [all_digits]. now rewrite !is_digit_digit_of.
  - cbn. lia.
Qed.

(** X20.  A quarter written as the year (0001 to 9999, four digits), a [Q]
    and one digit is a date for
    the CSV helper of the EU variant when the digit is 1 to 4: the first
    day of the quarter; with any other digit the point is skipped, the
    month being out of range.  The helper for tables has no such case and
    skips every such row.  A CSV point dated by a quarter is marked
    ["quarterly"]. *)
Theorem eu_quarter_texts (y q : Z) :
  1 <= y <= 9999 ->
  0 <= q <= 9 ->
  eu_csv_date (VStr (quarter_text y q))
  = (if (1 <=? q) && (q <=? 4) then Ok (mkdate y (3 * (q - 1) + 1) 1)
     else Raise ValueError) /\
  eu_table_date (VStr (quarter_text y q)) = Raise ValueError /\
  (forall s cells vs f,
      eu_columns (e_metric_name s) = ("date", "value") ->
      dict_get "date" cells = Some (VStr (quarter_text y q)) ->
      dict_get "value" cells = Some (VStr vs) ->
      float_of_string vs = Ok f ->
      eu_csv_point s (VDict cells)
      = (if (1 <=? q) && (q <=? 4)
         then Ok (Some (eu_record s (VDict cells) f (mkdate y (3 * (q - 1) + 1) 1)
                                  "quarterly" (get_default "revision" (VInt 0) cells)))
         else Ok None)).
Proof.
  intros Hy Hq.
  assert (Hdash : contains "-" (quarter_text y q) = false).
  { rewrite contains_char. unfold quarter_text.
    rewrite !has_char_app, has_char_pad4 by reflexivity. cbn [has_char orb].
    now rewrite eqb_digit_of. }
  assert (Hslash : contains "/" (quarter_text y q) = false).
  { rewrite contains_char. unfold quarter_text.
    rewrite !has_char_app, has_char_pad4 by reflexivity. cbn [has_char orb].
    now rewrite eqb_digit_of. }
  assert (Hquarter : contains "Q" (quarter_text y q) = true).
  { rewrite contains_char. unfold quarter_text.
    rewrite !has_char_app. cbn [has_char]. rewrite Ascii.eqb_refl. now rewrite orb_true_r. }
  assert (Htake : take 4 (quarter_text y q) = pad4 y) by reflexivity.
  assert (Hdrop : drop 5 (quarter_text y q) = String (digit_of q) EmptyString)
    by reflexivity.
  assert (Hint : int_of_string (String (digit_of q) EmptyString) = Ok q).
  { rewrite int_of_digits.
    - unfold Z_of_digits. cbn [list_ascii_of_string fold_left].
      rewrite digit_val_digit_of. f_equal. rewrite Z.mod_small; lia.
    - discriminate.
    - cbn [all_digits]. now rewrite is_digit_digit_of.
    - cbn. lia. }
  assert (Hcsv : eu_csv_date (VStr (quarter_text y q))
                 = (if (1 <=? q) && (q <=? 4) then Ok (mkdate y (3 * (q - 1) + 1) 1)
                    else Raise ValueError)).
  { unfold eu_csv_date. cbn [py_in bind]. rewrite Hdash. cbn [bind]. rewrite Hslash.
    cbn [bind]. rewrite Hquarter. unfold py_quarter_date, eu_quarter_date.
    rewrite Htake, Hdrop, (int_of_pad4 y) by lia. cbn [bind]. rewrite Hint. cbn [bind].
    unfold make_date, fits_c_int.
    replace ((q - 1) * 3 + 1) with (3 * (q - 1) + 1) by lia.
    assert (Hfit : ((-2147483648 <=? y) && (y <=? 2147483647)
                    && ((-2147483648 <=? 3 * (q - 1) + 1) && (3 * (q - 1) + 1 <=? 2147483647))
                    && ((-2147483648 <=? 1) && (1 <=? 2147483647))) = true).
    { repeat (apply andb_true_intro; split); apply Z.leb_le; lia. }
    rewrite Hfit. cbn [negb]. unfold valid_ymd.
    assert (Hdays : (1 <=? days_in_month y (3 * (q - 1) + 1)) = true).
    { apply Z.leb_le. unfold days_in_month.
      destruct (_ =? 2); [destruct (is_leap y); lia|].
      destruct (_ || _); lia. }
    rewrite Hdays.
    destruct (Z.leb_spec 1 y), (Z.leb_spec y 9999); try lia. cbn [andb].
    destruct (Z.leb_spec 1 q), (Z.leb_spec q 4),
      (Z.leb_spec 1 (3 * (q - 1) + 1)), (Z.leb_spec (3 * (q - 1) + 1) 12);
      cbn [andb]; try reflexivity; lia. }
  split; [exact Hcsv|]. split.
  - unfold eu_table_date. cbn [py_in bind]. rewrite Hdash. cbn [bind]. rewrite Hslash.
    cbn [py_strptime]. unfold strptime, quarter_text, fmt_year_month.
    rewrite !list_ascii_app. rewrite match_year by lia.
    assert (Hin := Z_in_range q 0 10 ltac:(lia)). vm_compute in Hin.
    repeat (destruct Hin as [<-|Hin]; [reflexivity|]). destruct Hin.
  - intros s cells vs f Hcols Hd Hvs Hf. unfold eu_csv_point. rewrite Hcols.
    cbn [py_in bind]. unfold dict_has. rewrite Hd, Hvs. cbn [negb py_getitem bind].
    rewrite Hd, Hvs. cbn [bind]. rewrite Hcsv.
    destruct ((1 <=? q) && (q <=? 4)); [|reflexivity].
    cbn [or_skip]. unfold eu_value. cbn [py_float]. rewrite Hf. cbn [bind py_in].
    rewrite Hquarter. reflexivity.
Qed.

Lemma eu_quarter_texts_witness :
  eu_csv_date (VStr "2023Q3") = Ok (mkdate 2023 7 1) /\
  eu_table_date (VStr "2023Q3") = Raise ValueError.
Proof.
  destruct (eu_quarter_texts 2023 3) as (H1 & H2 & _); [lia|lia|].
  split; [exact H1|exact H2].
Defined.

(** ** Points with text cells *)

Lemma strptime_value_error (fmt : list directive) (s : string) (e : exn) :
  strptime fmt s = Raise e -> e = ValueError.
Proof.
  unfold strptime. destruct (match_format fmt _ _) as [[p [|c rest]]|]; try congruence.
  destruct (valid_ymd _ _ _); congruence.
Qed.

Lemma us_parse_date_value_error (s : string) (e : exn) :
  us_parse_date (VStr s) = Raise e -> e = ValueError.
Proof.
  unfold us_parse_date. cbn [py_in bind py_strptime].
  destruct (contains "-" s); apply strptime_value_error.
Qed.

Lemma cl_point_of_text (country_code : pyval) (s : series) (d : dict) :
  has_text_cells d ->
  cl_point country_code s (VDict d)
  = Ok (match parsed_cells (py_strptime fmt_iso) d with
        | Some (dt, f) => Some (cl_record country_code s (VDict d) f dt)
        | None => None
        end).
Proof.
  intros (ds & vs & Hd & Hv). unfold cl_point, parsed_cells.
  cbn [py_get bind]. unfold get_default. rewrite Hd, Hv. cbn [py_strptime py_float truthy].
  destruct (strptime fmt_iso ds) as [dt|e] eqn:Ed.
  - pose proof (strptime_iso_truthy _ _ Ed) as Td. cbn [truthy] in Td. rewrite Td.
    cbn [negb orb].
    destruct (float_of_string vs) as [f|e] eqn:Ef.
    + pose proof (float_of_string_truthy _ _ Ef) as Tv. cbn [truthy] in Tv. rewrite Tv.
      reflexivity.
    + rewrite (float_of_string_value_error _ _ Ef).
      destruct (negb (negb (String.eqb vs ""))); reflexivity.
  - rewrite (strptime_value_error _ _ _ Ed).
    destruct (negb (negb (String.eqb ds "")) || negb (negb (String.eqb vs "")));
      reflexivity.
Qed.

Lemma us_point_of_text (country_code : pyval) (s : series) (d : dict) :
  has_text_cells d ->
  us_point country_code s (VDict d)
  = Ok (match parsed_cells us_parse_date d with
        | Some (dt, f) =>
            Some (us_record country_code s (VDict d) f dt
                            (get_default "revision" (VInt 0) d))
        | None => None
        end).
Proof.
  intros (ds & vs & Hd & Hv).
  assert (G1 : get_default "date" VNone d = VStr ds) by (unfold get_default; now rewrite Hd).
  assert (G2 : get_default "value" VNone d = VStr vs) by (unfold get_default; now rewrite Hv).
  unfold us_point, parsed_cells. cbn [py_get bind]. rewrite G1, G2, Hd, Hv.
  cbn [py_float truthy].
  destruct (us_parse_date (VStr ds)) as [dt|e] eqn:Ed.
  - assert (Td : negb (String.eqb ds "") = true) by (destruct ds; [discriminate Ed|reflexivity]).
    rewrite Td. cbn [negb orb].
    destruct (float_of_string vs) as [f|e] eqn:Ef.
    + pose proof (float_of_string_truthy _ _ Ef) as Tv. cbn [truthy] in Tv. rewrite Tv.
      reflexivity.
    + rewrite (float_of_string_value_error _ _ Ef).
      destruct (negb (negb (String.eqb vs ""))); reflexivity.
  - rewrite (us_parse_date_value_error _ _ Ed).
    destruct (negb (negb (String.eqb ds "")) || negb (negb (String.eqb vs "")));
      reflexivity.
Qed.

Lemma records_of_quiet (step : pyval -> outcome (option EconomicData))
      (made : pyval -> option EconomicData) (points : list pyval) :
  (forall p, In p points -> step p = Ok (made p)) ->
  records_of step points
  = flat_map (fun p => match made p with Some r => [r] | None => [] end) points.
Proof.
  unfold records_of. induction points as [|p points IH]; intros H; [reflexivity|].
  cbn [for_each flat_map]. unfold append_point at 1.
  rewrite (H p (or_introl eq_refl)).
  destruct (made p) as [r|].
  - rewrite append_points_acc. cbn [fst app]. f_equal.
    apply IH. intros q Hq. apply H. now right.
  - cbn [app]. apply IH. intros q Hq. apply H. now right.
Qed.

(** The output of [process] for one metric of such points. *)
Lemma cl_process_text_points (indicator_metadata country_code : pyval)
      (metric_name : string) (data : pyval) (s : series) (points : list dict) :
  Forall has_text_cells points ->
  cl_series indicator_metadata metric_name data = Ok (s, VList (map VDict points)) ->
  cl_process indicator_metadata country_code [(metric_name, data)]
  = Ok (cl_records_of_points country_code s points).
Proof.
  intros Htext Hs. rewrite Forall_forall in Htext.
  rewrite cl_process_flat. cbn [flat_map]. rewrite app_nil_r.
  rewrite (cl_records_of _ _ _ _ _ _ Hs).
  rewrite (records_of_quiet _
             (fun p => match p with
                       | VDict d =>
                           match parsed_cells (py_strptime fmt_iso) d with
                           | Some (dt, f) => Some (cl_record country_code s (VDict d) f dt)
                           | None => None
                           end
                       | _ => None
                       end)).
  - unfold cl_records_of_points. rewrite !flat_map_concat_map, map_map.
    do 2 f_equal. apply map_ext. intros d.
    destruct (parsed_cells (py_strptime fmt_iso) d) as [[dt f]|]; reflexivity.
  - intros p Hp. apply in_map_iff in Hp. destruct Hp as (d & <- & Hd).
    now apply cl_point_of_text, Htext.
Qed.

Lemma us_process_text_points (country_code : pyval)
      (metric_name : string) (data : pyval) (s : series) (points : list dict) :
  Forall has_text_cells points ->
  us_series metric_name data = Ok (s, VList (map VDict points)) ->
  us_process country_code [(metric_name, data)]
  = Ok (us_records_of_points country_code s points).
Proof.
  intros Htext Hs. rewrite Forall_forall in Htext.
  rewrite us_process_flat. cbn [flat_map]. rewrite app_nil_r.
  rewrite (us_records_of _ _ _ _ _ Hs).
  rewrite (records_of_quiet _
             (fun p => match p with
                       | VDict d =>
                           match parsed_cells us_parse_date d with
                           | Some (dt, f) =>
                               Some (us_record country_code s (VDict d) f dt
                                               (get_default "revision" (VInt 0) d))
                           | None => None
                           end
                       | _ => None
                       end)).
  - unfold us_records_of_points. rewrite !flat_map_concat_map, map_map.
    do 2 f_equal. apply map_ext. intros d.
    destruct (parsed_cells us_parse_date d) as [[dt f]|]; reflexivity.
  - intros p Hp. apply in_map_iff in Hp. destruct Hp as (d & <- & Hd).
    now apply us_point_of_text, Htext.
Qed.

(** X21.  In the Chilean and the US variant, a metric whose points all
    carry a text date and a text value gives one record for each point
    whose date and value both parse, and nothing for the others, each
    point on its own and in the order of the payload: no point is lost,
    doubled or moved, and a point that does not parse costs no other
    point its record. *)
Theorem text_points_give_their_records (indicator_metadata country_code : pyval)
        (metric_name : string) (data : pyval) (s : series) (points : list dict) :
  Forall has_text_cells points ->
  (cl_series indicator_metadata metric_name data = Ok (s, VList (map VDict points)) ->
   cl_process indicator_metadata country_code [(metric_name, data)]
   = Ok (cl_records_of_points country_code s points)) /\
  (us_series metric_name data = Ok (s, VList (map VDict points)) ->
   us_process country_code [(metric_name, data)]
   = Ok (us_records_of_points country_code s points)).
Proof.
  intros Htext. split; intros Hs.
  - now apply cl_process_text_points.
  - now apply us_process_text_points.
Qed.

Lemma text_points_give_their_records_witness :
  cl_process (VDict []) (VStr "CL")
    [("gdp", VDict [("data", VList (map VDict
                                        [[("date", VStr "2024-01-01"); ("value", VStr "1.5")];
                                         [("date", VStr "soon"); ("value", VStr "2.5")];
                                         [("date", VStr "2024-03-01"); ("value", VStr "1.5")]]))])]
  = Ok (cl_records_of_points (VStr "CL")
          (mkseries (VStr "GDP") (VStr "Gdp") (VStr "") (VStr "monthly") VNone)
          [[("date", VStr "2024-01-01"); ("value", VStr "1.5")];
           [("date", VStr "soon"); ("value", VStr "2.5")];
           [("date", VStr "2024-03-01"); ("value", VStr "1.5")]]).
Proof.
  apply (text_points_give_their_records (VDict []) (VStr "CL") "gdp"
           (VDict [("data", VList (map VDict
                                       [[("date", VStr "2024-01-01"); ("value", VStr "1.5")];
                                        [("date", VStr "soon"); ("value", VStr "2.5")];
                                        [("date", VStr "2024-03-01"); ("value", VStr "1.5")]]))])
           (mkseries (VStr "GDP") (VStr "Gdp") (VStr "") (VStr "monthly") VNone)
           [[("date", VStr "2024-01-01"); ("value", VStr "1.5")];
            [("date", VStr "soon"); ("value", VStr "2.5")];
            [("date", VStr "2024-03-01"); ("value", VStr "1.5")]]).
  - repeat constructor; eexists; eexists; split; reflexivity.
  - reflexivity.
Defined.

(** ** Rows of a scraped table *)

Lemma last_cons {A : Type} (x : A) (l : list A) (d : A) : last (x :: l) d = last l x.
Proof.
  revert x d. induction l as [|y l IH]; intros x d; [reflexivity|].
  change (last (x :: y :: l) d) with (last (y :: l) d). now rewrite !IH.
Qed.

Lemma scan_cells_last (metric_name : string) (cells : dict) (found : pyval * pyval) :
  scan_cells metric_name cells found
  = (last (cells_under date_heading cells) (fst found),
     last (cells_under (value_heading metric_name) cells) (snd found)).
Proof.
  unfold cells_under. revert found.
  induction cells as [|[key val] cells IH]; intros [d0 v0]; [reflexivity|].
  cbn [scan_cells filter fst snd]. rewrite IH.
  unfold value_heading at 2. fold (date_heading key).
  destruct (date_heading key); cbn [negb andb map snd fst].
  - now rewrite last_cons.
  - destruct (any_in _ (lower key)); cbn [map snd fst]; [now rewrite last_cons|reflexivity].
Qed.

(** X22.  In a row of a scraped table the date is the cell under the last
    heading that contains [date], [period] or [time], letter case apart,
    and the value the cell under the last heading that contains [value],
    [rate], [figure] or the name of the metric and is not a date heading.
    A row without a date heading, or without a value heading, is
    skipped. *)
Theorem table_row_cells (s : eu_series) (cells : dict) :
  scan_cells (e_metric_name s) cells (VNone, VNone)
  = (last (cells_under date_heading cells) VNone,
     last (cells_under (value_heading (e_metric_name s)) cells) VNone) /\
  (cells_under date_heading cells = [] \/
   cells_under (value_heading (e_metric_name s)) cells = [] ->
   eu_table_point s (VDict cells) = Ok None).
Proof.
  split; [apply scan_cells_last|].
  intros Hnone. unfold eu_table_point. cbn [py_items bind].
  rewrite scan_cells_last. cbn [fst snd].
  destruct Hnone as [-> | ->]; cbn [last truthy negb orb]; [reflexivity|].
  now rewrite orb_true_r.
Qed.

(** ** From the upload to the read path *)

Lemma append_eqb (p a b : string) : String.eqb (p ++ a) (p ++ b) = String.eqb a b.
Proof.
  induction p as [|c p IH]; [reflexivity|]. cbn [append String.eqb].
  now rewrite Ascii.eqb_refl.
Qed.

Lemma sqlval_eqb_trans (a b c : sqlval) :
  sqlval_eqb a b = true -> sqlval_eqb b c = true -> sqlval_eqb a c = true.
Proof.
  destruct a, b, c; cbn; try discriminate.
  - rewrite !Z.eqb_eq. congruence.
  - rewrite !String.eqb_eq. congruence.
Qed.

Lemma same_key_trans (a b c : EconomicRow.t) :
  same_key a b = true -> same_key b c = true -> same_key a c = true.
Proof.
  unfold same_key. rewrite !andb_true_iff. intros [H1 H2] [H3 H4]. split.
  - exact (sqlval_eqb_trans _ _ _ H1 H3).
  - exact (sqlval_eqb_trans _ _ _ H2 H4).
Qed.

(** Every key among the rows has a last row. *)
Lemma last_of_key_exists (rows : list EconomicRow.t) (row : EconomicRow.t) :
  Forall (fun r => same_key r r = true) rows ->
  In row rows ->
  exists q, last_of_key q rows /\ same_key row q = true.
Proof.
  revert row. induction rows as [|a rows IH]; intros row Hrefl Hin; [destruct Hin|].
  inversion Hrefl as [|? ? Ha Hrest]; subst.
  destruct (existsb (same_key row) rows) eqn:E.
  - apply existsb_exists in E. destruct E as (row' & Hin' & Hsame).
    destruct (IH row' Hrest Hin') as (q & (pre & post & -> & Hfree) & Hq).
    exists q. split; [|exact (same_key_trans _ _ _ Hsame Hq)].
    exists (a :: pre), post. split; [reflexivity|exact Hfree].
  - destruct Hin as [->|Hin].
    + exists row. split; [|exact Ha]. exists [], rows. split; [reflexivity|].
      unfold key_free. apply Forall_forall. intros r Hr.
      destruct (same_key row r) eqn:Es; [|reflexivity].
      assert (existsb (same_key row) rows = true)
        by (apply existsb_exists; now exists r).
      congruence.
    + assert (existsb (same_key row) rows = true).
      { apply existsb_exists. exists row. split; [exact Hin|].
        rewrite Forall_forall in Hrest. now apply Hrest. }
      congruence.
Qed.

Lemma traverse_out {A B : Type} (f : A -> outcome B) (l : list A) (bs : list B) (a : A) :
  traverse f l = Ok bs -> In a l -> exists b, In b bs /\ f a = Ok b.
Proof.
  revert bs. induction l as [|x l IH]; intros bs H Ha; [destruct Ha|].
  cbn [traverse] in H.
  destruct (f x) as [b0|] eqn:Ex; cbn [bind] in H; [|discriminate].
  destruct (traverse f l) as [bs'|]; cbn [bind] in H; [|discriminate].
  injection H as <-. destruct Ha as [->|Ha].
  - exists b0. split; [now left|exact Ex].
  - destruct (IH bs' eq_refl Ha) as (b & Hb & E). exists b. split; [now right|exact E].
Qed.

(** The row of a record that holds what its annotations say. *)
Lemma storable_row (repr_of : pyval -> string) (r : EconomicData) (code : string) :
  storable r = true ->
  country_code r = VStr code ->
  exists row d id name,
    insert_parameters repr_of r = Ok row /\
    record_of_row row = read_back r /\
    date r = VDate d /\ valid_date d = true /\
    indicator_id r = VStr id /\ indicator_name r = VStr name /\
    EconomicRow.pk row = SText ("COUNTRY#" ++ code)%string /\
    EconomicRow.sk row = SText ("INDICATOR#" ++ id ++ "#" ++ isoformat d)%string /\
    EconomicRow.country_code row = SText code /\
    EconomicRow.indicator_id row = SText id /\
    EconomicRow.indicator_name row = SText name /\
    EconomicRow.date row = SText (isoformat d).
Proof.
  intros Hst Hc.
  destruct r as [cc cn id nm v dt fr un sr rv cu md].
  cbn [country_code] in Hc. subst cc.
  unfold storable in Hst.
  cbn [country_code country_name indicator_id indicator_name value date frequency
       unit source revision_number currency] in Hst.
  repeat (apply andb_prop in Hst; destruct Hst as [Hst ?]).
  destruct cn as [| | | |cn| | |]; try discriminate.
  destruct id as [| | | |id| | |]; try discriminate.
  destruct nm as [| | | |nm| | |]; try discriminate.
  destruct dt as [| | | | |dt| |]; try discriminate.
  destruct fr as [| | | |fr| | |]; try discriminate.
  destruct un as [| | | |un| | |]; try discriminate.
  destruct sr as [| | | |sr| | |]; try discriminate.
  assert (Hv : exists c, bind_param v = Ok c /\ column_value c = v).
  { destruct v as [| | |[[|]| | |]| | | |]; try discriminate; eexists; split; reflexivity. }
  assert (Hrv : exists c, bind_param rv = Ok c /\ column_value c = rv).
  { destruct rv as [| |z| | | | |]; try discriminate.
    - eexists; split; reflexivity.
    - cbn [is_optional_int64] in *. exists (SInteger z). cbn [bind_param].
      match goal with E : fits_int64 z = true |- _ => rewrite E end. now split. }
  assert (Hcu : exists c, bind_param cu = Ok c /\ column_value c = cu).
  { destruct cu as [| | | |cu| | |]; try discriminate; eexists; split; reflexivity. }
  destruct Hv as (cv & Ev & Rv), Hrv as (crv & Erv & Rrv), Hcu as (ccu & Ecu & Rcu).
  eexists. exists dt, id, nm. split.
  - unfold insert_parameters.
    cbn [country_code country_name indicator_id indicator_name value date frequency
         unit source revision_number currency _format_date bind bind_param py_str].
    rewrite Ev, Erv, Ecu. cbn [bind]. reflexivity.
  - split.
    + unfold record_of_row, read_back.
      cbn [EconomicRow.country_code EconomicRow.country_name EconomicRow.indicator_id
           EconomicRow.indicator_name EconomicRow.value EconomicRow.date
           EconomicRow.frequency EconomicRow.unit EconomicRow.source
           EconomicRow.revision_number EconomicRow.currency column_value
           country_code country_name indicator_id indicator_name value date frequency
           unit source revision_number currency].
      now rewrite Rv, Rrv, Rcu.
    + cbn [date indicator_id indicator_name is_calendar_date] in *.
      repeat split; try reflexivity; assumption.
Qed.

Lemma traverse_all {A B : Type} (f : A -> outcome B) (l : list A) :
  (forall a, In a l -> exists b, f a = Ok b) -> exists bs, traverse f l = Ok bs.
Proof.
  induction l as [|a l IH]; intros H; [now exists []|].
  destruct (H a (or_introl eq_refl)) as (b & Hb).
  destruct IH as (bs & Hbs); [intros x Hx; apply H; now right|].
  exists (b :: bs). cbn [traverse]. now rewrite Hb, Hbs.
Qed.

Lemma filter_all {A : Type} (f : A -> bool) (l : list A) :
  (forall x, In x l -> f x = true) -> filter f l = l.
Proof.
  induction l as [|x l IH]; intros H; [reflexivity|]. cbn [filter].
  rewrite (H x (or_introl eq_refl)). f_equal. apply IH. intros y Hy. apply H. now right.
Qed.

Lemma collect_first_same (rows : list EconomicRow.t) (k : sqlval) (v : EconomicData) :
  same_dict_key k k = true ->
  Forall (fun row => EconomicRow.indicator_id row = k) rows ->
  collect_first rows [(k, v)] = [(k, v)].
Proof.
  intros Hk. induction 1 as [|row rows Hrow Hrest IH]; [reflexivity|].
  cbn [collect_first key_in existsb fst]. now rewrite Hrow, Hk.
Qed.

(** Records of one indicator of one country, uploaded and read back. *)
Lemma read_latest_after_upload (repr_of : pyval -> string) (data : list EconomicData)
      (code id keyword : string) (db : database) :
  data <> [] ->
  Forall (fun r => storable r = true /\ country_code r = VStr code /\
                   indicator_id r = VStr id /\ named_like keyword r) data ->
  no_wildcard keyword = true ->
  Forall (fun row => selected code keyword row = false) (stored db) ->
  exists db' r d,
    sqlite_upload repr_of data db = (Ok true, db') /\
    In r data /\ date r = VDate d /\
    (forall r' d', In r' data -> date r' = VDate d' -> not_after d' d = true) /\
    get_latest_by_indicator_name code keyword db' = Ok [read_back r].
Proof.
  intros Hne Hall Hw Hdb. rewrite Forall_forall in Hall.
  assert (Hfacts : forall r row,
             In r data -> insert_parameters repr_of r = Ok row ->
             exists d,
               record_of_row row = read_back r /\
               date r = VDate d /\ valid_date d = true /\
               EconomicRow.pk row = SText ("COUNTRY#" ++ code)%string /\
               EconomicRow.sk row = SText ("INDICATOR#" ++ id ++ "#" ++ isoformat d)%string /\
               EconomicRow.indicator_id row = SText id /\
               EconomicRow.date row = SText (isoformat d) /\
               selected code keyword row = true).
  { intros r row Hr Hrow.
    destruct (Hall r Hr) as (Hst & Hc & Hid & (name & Hname & _ & Hlike)).
    destruct (storable_row repr_of r code Hst Hc)
      as (row' & d & id' & name' & E & Hrb & Hd & Hv & Hid' & Hn' & Hpk & Hsk & Hcc
          & Hrid & Hrn & Hrd).
    rewrite E in Hrow. injection Hrow as <-.
    rewrite Hid in Hid'. injection Hid' as <-.
    rewrite Hname in Hn'. injection Hn' as <-.
    exists d. repeat split; try assumption.
    unfold selected, sql_equals_text, lower_like. rewrite Hcc, Hrn, String.eqb_refl.
    rewrite like_contains; [|now rewrite no_wildcard_lower|apply lowered_lower..].
    now rewrite Hlike. }
  destruct (traverse_all (insert_parameters repr_of) data) as (rows & Hrows).
  { intros r Hr. destruct (Hall r Hr) as (Hst & Hc & _).
    destruct (storable_row repr_of r code Hst Hc) as (row & ? & ? & ? & E & _).
    now exists row. }
  assert (Hrefl : Forall (fun r => same_key r r = true) rows).
  { apply Forall_forall. intros row Hrow.
    destruct (traverse_in _ _ _ _ Hrows Hrow) as (r & _ & E).
    exact (insert_parameters_key repr_of r row E). }
  assert (HL : forall q, In q (insert_all rows []) -> In q rows).
  { intros q Hq. apply insert_all_in in Hq.
    destruct Hq as [[[] _]|(pre & post & -> & _)]. apply in_or_app. right. now left. }
  assert (Hquery : run_query code keyword
                     {| stored := insert_all rows (stored db);
                        journal := journal db ++ [Connected]
                                     ++ repeat Executed (List.length data) ++ [Committed] |}
                   = sort_by scan_order (insert_all rows [])).
  { unfold run_query. cbn [stored]. rewrite insert_all_split, filter_app.
    rewrite (filter_none (selected code keyword)).
    - cbn [app]. f_equal. apply filter_all. intros q Hq.
      destruct (traverse_in _ _ _ _ Hrows (HL q Hq)) as (r & Hr & E).
      destruct (Hfacts r q Hr E) as (d & _ & _ & _ & _ & _ & _ & _ & Hsel). exact Hsel.
    - intros q Hq. apply filter_In in Hq. rewrite Forall_forall in Hdb.
      now apply Hdb. }
  destruct (sort_by scan_order (insert_all rows [])) as [|x rest] eqn:Hsorted.
  { exfalso. destruct data as [|r0 data]; [congruence|].
    destruct (traverse_out _ _ _ r0 Hrows (or_introl eq_refl)) as (row0 & Hrow0 & _).
    destruct (last_of_key_exists rows row0 Hrefl Hrow0) as (q & Hq & _).
    assert (Hin : In q (insert_all rows [])) by (apply insert_all_in; now right).
    apply (sort_by_in _ scan_order) in Hin.
    rewrite Hsorted in Hin. destruct Hin. }
  assert (Hx : In x (insert_all rows [])).
  { apply (sort_by_in _ scan_order). rewrite Hsorted. now left. }
  destruct (traverse_in _ _ _ _ Hrows (HL x Hx)) as (r & Hr & Er).
  destruct (Hfacts r x Hr Er) as (d & Hrb & Hd & Hv & Hpk & Hsk & Hid & Hdate & Hsel).
  assert (Hhead : forall q, In q (insert_all rows []) -> scan_order x q = true).
  { intros q Hq.
    apply (sort_by_in _ scan_order) in Hq.
    rewrite Hsorted in Hq. destruct Hq as [<-|Hq].
    - destruct (scan_order_total x x); assumption.
    - pose proof (sort_by_sorted _ scan_order scan_order_total scan_order_trans
                                 (insert_all rows [])) as Hs.
      rewrite Hsorted in Hs. inversion Hs as [|? ? _ Hall']; subst.
      rewrite Forall_forall in Hall'. now apply Hall'. }
  exists {| stored := insert_all rows (stored db);
            journal := journal db ++ [Connected]
                         ++ repeat Executed (List.length data) ++ [Committed] |}, r, d.
  split; [exact (sqlite_upload_success repr_of data rows db Hne Hrows)|].
  split; [exact Hr|]. split; [exact Hd|]. split.
  - intros r' d' Hr' Hd'.
    destruct (traverse_out _ _ _ r' Hrows Hr') as (row' & Hrow' & Er').
    destruct (Hfacts r' row' Hr' Er') as (d2 & _ & Hd2 & Hv2 & Hpk2 & Hsk2 & _).
    rewrite Hd' in Hd2. injection Hd2 as <-.
    destruct (last_of_key_exists rows row' Hrefl Hrow') as (q & Hq & Hsame).
    assert (Hqin : In q (insert_all rows [])) by (apply insert_all_in; now right).
    destruct (traverse_in _ _ _ _ Hrows (HL q Hqin)) as (rq & Hrq & Erq).
    destruct (Hfacts rq q Hrq Erq) as (dq & _ & _ & Hvq & Hpkq & Hskq & Hidq & Hdateq & _).
    unfold same_key in Hsame. rewrite Hsk2, Hskq in Hsame.
    apply andb_prop in Hsame. destruct Hsame as [_ Hsame].
    cbn [sqlval_eqb] in Hsame. rewrite !append_eqb in Hsame.
    apply String.eqb_eq in Hsame.
    pose proof (Hhead q Hqin) as Hord. unfold scan_order in Hord.
    rewrite Hid, Hidq, Hdate, Hdateq in Hord. unfold sql_lt in Hord.
    cbn [sql_le] in Hord. rewrite string_leb_refl in Hord. cbn [negb] in Hord.
    rewrite <- Hsame in Hord. now rewrite <- isoformat_order.
  - unfold get_latest_by_indicator_name. rewrite Hquery.
    cbn [collect_first key_in existsb app]. rewrite Hid.
    rewrite collect_first_same.
    + cbn [map snd sorted_desc insert_desc bind]. now rewrite Hrb.
    + cbn. apply String.eqb_refl.
    + apply Forall_forall. intros q Hq.
      assert (Hqin : In q (insert_all rows [])).
      { apply (sort_by_in _ scan_order). rewrite Hsorted. now right. }
      destruct (traverse_in _ _ _ _ Hrows (HL q Hqin)) as (rq & Hrq & Erq).
      destruct (Hfacts rq q Hrq Erq) as (dq & _ & _ & _ & _ & _ & Hidq & _). exact Hidq.
Qed.

(** X23.  Records of one indicator of one country, each holding what its
    annotations say, uploaded to the relational backend and then asked for
    by a keyword their names contain, come back as one record: the one
    with the latest date (the last uploaded, if several carry that date),
    its date now the ISO text and its metadata gone. *)
Theorem upload_then_read_latest (repr_of : pyval -> string) (data : list EconomicData)
        (code id keyword : string) (db : database) :
  data <> [] ->
  Forall (fun r => storable r = true /\ country_code r = VStr code /\
                   indicator_id r = VStr id /\ named_like keyword r) data ->
  ascii_text keyword = true ->
  no_wildcard keyword = true ->
  Forall (fun row => selected code keyword row = false) (stored db) ->
  exists db' r d,
    sqlite_upload repr_of data db = (Ok true, db') /\
    In r data /\ date r = VDate d /\
    (forall r' d', In r' data -> date r' = VDate d' -> not_after d' d = true) /\
    get_latest_by_indicator_name code keyword db' = Ok [read_back r].
Proof.
  intros Hne Hall _ Hw Hdb.
  destruct (read_latest_after_upload repr_of data code id keyword db Hne Hall Hw Hdb)
    as (db' & r & d & Hup & Hin & Hd & Hmax & Hget).
  exists db', r, d. repeat split; assumption.
Qed.

Lemma upload_then_read_latest_witness :
  exists db',
    sqlite_upload no_repr [later_record; sample_record VNone] empty_db = (Ok true, db') /\
    get_latest_by_indicator_name "US" "domestic" db' = Ok [read_back later_record].
Proof.
  destruct (upload_then_read_latest no_repr [later_record; sample_record VNone]
              "US" "GDP" "domestic" empty_db)
    as (db' & r & d & Hup & Hin & Hd & Hmax & Hget).
  - discriminate.
  - repeat constructor; exists "Gross Domestic Product"; repeat split; reflexivity.
  - reflexivity.
  - reflexivity.
  - constructor.
  - exists db'. split; [exact Hup|].
    destruct Hin as [<-|[<-|[]]]; [exact Hget|].
    injection Hd as <-.
    specialize (Hmax later_record (mkdate 2024 4 15) (or_introl eq_refl) eq_refl).
    discriminate Hmax.
Defined.

(** ** The use cases and the menu *)

Lemma traverse_raise_inv {A B : Type} (f : A -> outcome B) (l : list A) (e : exn) :
  traverse f l = Raise e ->
  exists pre bs bad post,
    l = pre ++ bad :: post /\ traverse f pre = Ok bs /\ f bad = Raise e.
Proof.
  induction l as [|a l IH]; intros H; cbn [traverse] in H; [discriminate H|].
  destruct (f a) as [b|e'] eqn:Ea; cbn [bind] in H.
  - destruct (traverse f l) as [bs|e''] eqn:El; cbn [bind] in H; [discriminate H|].
    injection H as <-. destruct (IH eq_refl) as (pre & bs & bad & post & -> & Hpre & Hbad).
    exists (a :: pre), (b :: bs), bad, post. split; [reflexivity|]. split; [|exact Hbad].
    cbn [traverse]. now rewrite Ea, Hpre.
  - injection H as <-. exists [], [], a, l. now repeat split.
Qed.

Lemma sqlite_upload_returns (repr_of : pyval -> string) (data : list EconomicData)
      (db : database) :
  fst (sqlite_upload repr_of data db)
  = Ok (match data with
        | [] => false
        | _ => negb (raises (traverse (insert_parameters repr_of) data))
        end).
Proof.
  destruct data as [|r data]; [reflexivity|].
  destruct (traverse (insert_parameters repr_of) (r :: data)) as [rows|e] eqn:Ht.
  - now rewrite (sqlite_upload_success repr_of (r :: data) rows db).
  - destruct (traverse_raise_inv _ _ _ Ht) as (pre & bs & bad & post & E & Hpre & Hbad).
    rewrite E. unfold sqlite_upload, with_connection.
    destruct (pre ++ bad :: post) eqn:Hd; [now destruct pre|]. rewrite <- Hd.
    now rewrite (upload_rows_failure repr_of pre bs bad post e _ Hpre Hbad).
Qed.

(** X24.  Option 1 of the menu, from the fetched payload on and with the
    preprocessor built, never ends in an error with any of the three
    preprocessors.  It reports
    "Data uploaded successfully." exactly when [process] returned at least
    one record and every record could be bound to the statement, and
    "No data uploaded." otherwise, also when the rows before the first
    record that could not be bound have been committed. *)
Theorem store_payload_report (repr_of : pyval -> string) (indicator_metadata : pyval)
        (country_code : string) (raw_data : dict) (db : database) :
  (forall process processed,
      process (VStr country_code) raw_data = Ok processed ->
      fst (store_payload repr_of process country_code raw_data db)
      = match processed with
        | [] => NoDataUploaded
        | _ =>
            if raises (traverse (insert_parameters repr_of) processed)
            then NoDataUploaded else DataUploaded
        end) /\
  (exists processed,
      cl_process indicator_metadata (VStr country_code) raw_data = Ok processed) /\
  (exists processed, us_process (VStr country_code) raw_data = Ok processed) /\
  (exists processed, eu_process (VStr country_code) raw_data = Ok processed) /\
  (forall process pre rows bad post e,
      process (VStr country_code) raw_data = Ok (pre ++ bad :: post) ->
      traverse (insert_parameters repr_of) pre = Ok rows ->
      insert_parameters repr_of bad = Raise e ->
      store_payload repr_of process country_code raw_data db
      = (NoDataUploaded,
         {| stored := insert_all rows (stored db);
            journal := journal (_ensure_table db) ++ [Connected]
                         ++ repeat Executed (List.length pre) ++ [Committed] |})).
Proof.
  split; [|split; [|split; [|split]]].
  - intros process processed Hp. unfold store_payload, preprocess_data_execute.
    rewrite Hp. unfold upload_to_database_execute.
    destruct processed as [|r processed]; [reflexivity|].
    pose proof (sqlite_upload_returns repr_of (r :: processed) (_ensure_table db)) as Hr.
    destruct (sqlite_upload repr_of (r :: processed) (_ensure_table db)) as [res db'].
    cbn [fst] in Hr. subst res.
    destruct (raises (traverse (insert_parameters repr_of) (r :: processed))); reflexivity.
  - eexists. apply cl_process_returns.
  - eexists. apply us_process_returns.
  - eexists. apply eu_process_returns.
  - intros process pre rows bad post e Hp Hpre Hbad.
    unfold store_payload, preprocess_data_execute. rewrite Hp.
    unfold upload_to_database_execute.
    destruct (pre ++ bad :: post) eqn:Hd; [now destruct pre|]. rewrite <- Hd.
    unfold sqlite_upload, with_connection.
    destruct (pre ++ bad :: post) eqn:Hd2; [now destruct pre|]. rewrite <- Hd2.
    rewrite (upload_rows_failure repr_of pre rows bad post e _ Hpre Hbad).
    unfold commit. rewrite execute_all_pending, execute_all_file.
    cbn [connect file pending record_event stored journal _ensure_table with_connection
         snd commit].
    rewrite (traverse_length _ _ _ Hpre), <- !app_assoc. reflexivity.
Qed.

Lemma ensure_table_stored (db : database) : stored (_ensure_table db) = stored db.
Proof. reflexivity. Qed.

Lemma us_records_of_points_origin (code : pyval) (s : series) (points : list dict)
      (r : EconomicData) :
  In r (us_records_of_points code s points) ->
  country_code r = code /\ indicator_id r = s_indicator_id s.
Proof.
  unfold us_records_of_points. rewrite in_flat_map. intros (d & _ & Hr).
  destruct (parsed_cells us_parse_date d) as [[dt f]|]; [|destruct Hr].
  destruct Hr as [<-|[]]. now split.
Qed.

(** X25.  Option 1 of the menu followed by the table query of option 2,
    US variant.  For a payload of one metric whose points carry a text
    date and a text value, when at least one point parses, the records
    hold what their annotations say, their name contains the keyword and
    the table had no row the query selects: the menu reports "Data uploaded successfully." and the
    query then returns exactly one record, the one of the latest date among
    the points that parsed, with its date as ISO text and no metadata. *)
Theorem stored_payload_is_read_back (repr_of : pyval -> string)
        (code metric_name id keyword : string) (data : pyval) (s : series)
        (points : list dict) (db : database) :
  us_series metric_name data = Ok (s, VList (map VDict points)) ->
  Forall has_text_cells points ->
  s_indicator_id s = VStr id ->
  us_records_of_points (VStr code) s points <> [] ->
  Forall (fun r => storable r = true /\ named_like keyword r)
         (us_records_of_points (VStr code) s points) ->
  ascii_text keyword = true ->
  no_wildcard keyword = true ->
  Forall (fun row => selected code keyword row = false) (stored db) ->
  exists db' r d,
    store_payload repr_of us_process code [(metric_name, data)] db = (DataUploaded, db') /\
    In r (us_records_of_points (VStr code) s points) /\
    date r = VDate d /\
    (forall r' d',
        In r' (us_records_of_points (VStr code) s points) ->
        date r' = VDate d' -> not_after d' d = true) /\
    generate_indicator_table_execute code keyword db' = Ok [read_back r].
Proof.
  intros Hs Htext Hid Hne Hall _ Hw Hdb.
  pose proof (us_process_text_points (VStr code) metric_name data s points Htext Hs) as Hp.
  destruct (read_latest_after_upload repr_of
              (us_records_of_points (VStr code) s points) code id keyword
              (_ensure_table db) Hne) as (db' & r & d & Hup & Hr & Hd & Hmax & Hget).
  - rewrite Forall_forall in Hall |- *. intros r Hr.
    destruct (Hall r Hr) as (Hst & Hn).
    destruct (us_records_of_points_origin _ _ _ _ Hr) as (Hc & Hi).
    repeat split; try assumption. now rewrite Hi.
  - exact Hw.
  - now rewrite ensure_table_stored.
  - exists db', r, d. repeat split; try assumption.
    unfold store_payload, preprocess_data_execute. rewrite Hp.
    unfold upload_to_database_execute.
    destruct (us_records_of_points (VStr code) s points) eqn:E; [now destruct Hne|].
    now rewrite Hup.
Qed.

Lemma stored_payload_is_read_back_witness :
  exists db' r d,
    store_payload (fun _ => "{}") us_process "US"
      [("gdp", VDict [("data", VList (map VDict
                                          [[("date", VStr "2024-01-15"); ("value", VStr "1.5")];
                                           [("date", VStr "20240415"); ("value", VStr "2.5")];
                                           [("date", VStr "soon"); ("value", VStr "3.5")]]))])]
      {| stored := []; journal := [] |}
    = (DataUploaded, db') /\
    In r (us_records_of_points (VStr "US")
            (mkseries (VStr "GDP") (VStr "Gross Domestic Product") (VStr "billion USD")
                      (VStr "monthly") (VStr "USD"))
            [[("date", VStr "2024-01-15"); ("value", VStr "1.5")];
             [("date", VStr "20240415"); ("value", VStr "2.5")];
             [("date", VStr "soon"); ("value", VStr "3.5")]]) /\
    date r = VDate d /\
    (forall r' d',
        In r' (us_records_of_points (VStr "US")
                 (mkseries (VStr "GDP") (VStr "Gross Domestic Product") (VStr "billion USD")
                           (VStr "monthly") (VStr "USD"))
                 [[("date", VStr "2024-01-15"); ("value", VStr "1.5")];
                  [("date", VStr "20240415"); ("value", VStr "2.5")];
                  [("date", VStr "soon"); ("value", VStr "3.5")]]) ->
        date r' = VDate d' -> not_after d' d = true) /\
    generate_indicator_table_execute "US" "domestic" db' = Ok [read_back r].
Proof.
  apply (stored_payload_is_read_back (fun _ => "{}") "US" "gdp" "GDP" "domestic").
  - reflexivity.
  - repeat constructor; eexists; eexists; split; reflexivity.
  - reflexivity.
  - vm_compute. discriminate.
  - apply Forall_forall. intros r Hr. vm_compute in Hr.
    destruct Hr as [<-|[<-|[]]]; (split; [reflexivity|]);
      exists "Gross Domestic Product"; repeat split; reflexivity.
  - reflexivity.
  - reflexivity.
  - constructor.
Defined.
